(** * GoogleDriveHandler: a shallow embedding of [google_drive.py]

    The handler reads a shared Google Drive folder over two access paths:
    an unauthenticated one that scrapes public web pages, and an
    authenticated one that calls the Drive API.  This development embeds
    the listing and download methods of [GoogleDriveHandler] and proves
    the properties its specification states about them.

    Conventions.
    - A Python [str] is a [string] (a sequence of bytes); the case mapping
      and the whitespace class are the ASCII ones.
    - The network, the Drive API, the file system, the [re] module and the
      iteration order of a Python [set] are collaborators of the handler.
      They are gathered in a record [Env]; every answer of a collaborator
      may depend on the whole history of calls made so far.
    - A method is a function of the history: it extends the history with
      the calls it makes and either returns a value or raises.
      Exceptions are the instances of Python's [Exception], carried with
      their [str(e)]. *)

From Stdlib Require Import ZArith Lia List Bool Ascii String DecimalString.
From stdpp Require Import base option list gmap strings.

Local Open Scope string_scope.
Local Open Scope list_scope.

(** ** Python string operations *)

Module PyStr.

(** [sub in s] *)
Fixpoint contains (sub s : string) : bool :=
  String.prefix sub s ||
  match s with
  | EmptyString => false
  | String _ s' => contains sub s'
  end.

(** [s.startswith(p)] *)
Definition startswith (s p : string) : bool := String.prefix p s.

(** The text that is left of [s] after its first [n] characters. *)
Fixpoint drop (n : nat) (s : string) : string :=
  match n, s with
  | O, _ => s
  | S _, EmptyString => EmptyString
  | S k, String _ s' => drop k s'
  end.

(** [s.endswith(p)] *)
Definition endswith (s p : string) : bool :=
  (String.length p <=? String.length s)%nat &&
  String.eqb (drop (String.length s - String.length p) s) p.

(** [s.split(sep)] for a non-empty [sep]: the separators are found from
    the left and do not overlap.  [skip] counts the characters of a
    separator that was found and is still to be passed over; [cur] is the
    piece read so far. *)
Fixpoint split_go (sep : string) (skip : nat) (cur s : string) : list string :=
  match s with
  | EmptyString => [cur]
  | String c s' =>
      match skip with
      | S k => split_go sep k cur s'
      | O =>
          if String.prefix sep s
          then cur :: split_go sep (String.length sep - 1) EmptyString s'
          else split_go sep 0 (cur +:+ String c EmptyString) s'
      end
  end.

Definition split (sep s : string) : list string := split_go sep 0 EmptyString s.

(** [l[0]] and [l[-1]] of the list a split returns, which is never empty. *)
Definition first (l : list string) : string := List.hd EmptyString l.
Definition last (l : list string) : string := List.last l EmptyString.

(** [s.replace(old, new)] for a non-empty [old]. *)
Fixpoint replace_go (old new : string) (skip : nat) (s : string) : string :=
  match s with
  | EmptyString => EmptyString
  | String c s' =>
      match skip with
      | S k => replace_go old new k s'
      | O =>
          if String.prefix old s
          then new +:+ replace_go old new (String.length old - 1) s'
          else String c (replace_go old new 0 s')
      end
  end.

Definition replace (old new s : string) : string := replace_go old new 0 s.

(** [s.lower()] *)
Definition lower_ascii (c : ascii) : ascii :=
  let n := nat_of_ascii c in
  if ((65 <=? n) && (n <=? 90))%nat then ascii_of_nat (n + 32) else c.

Fixpoint lower (s : string) : string :=
  match s with
  | EmptyString => EmptyString
  | String c s' => String (lower_ascii c) (lower s')
  end.

(** [s.strip()] *)
Definition is_space (c : ascii) : bool :=
  let n := nat_of_ascii c in
  (((9 <=? n) && (n <=? 13)) || ((28 <=? n) && (n <=? 32)))%nat.

Fixpoint lstrip (s : string) : string :=
  match s with
  | EmptyString => EmptyString
  | String c s' => if is_space c then lstrip s' else s
  end.

Fixpoint rstrip (s : string) : string :=
  match s with
  | EmptyString => EmptyString
  | String c s' =>
      match rstrip s' with
      | EmptyString => if is_space c then EmptyString else String c EmptyString
      | r => String c r
      end
  end.

Definition strip (s : string) : string := rstrip (lstrip s).

(** [str(n)] of an integer *)
Definition of_Z (n : Z) : string := NilZero.string_of_int (Z.to_int n).

End PyStr.

(** ** [extract_folder_id] *)

Definition extract_folder_id (folder_url : string) : string :=
  if PyStr.contains "/folders/" folder_url then
    PyStr.first (PyStr.split "?" (PyStr.last (PyStr.split "/folders/" folder_url)))
  else if PyStr.contains "id=" folder_url then
    PyStr.first (PyStr.split "&" (PyStr.last (PyStr.split "id=" folder_url)))
  else
    folder_url.

(** [os.path.join(a, b)] on a POSIX system *)
Definition path_join (a b : string) : string :=
  if PyStr.startswith b "/" then b
  else if String.eqb a "" || PyStr.endswith a "/" then a +:+ b
  else a +:+ "/" +:+ b.

(** ** Values exchanged with the collaborators *)

(** The double quote and the line feed, which the messages and the
    patterns of the source contain. *)
Definition dq : string := String "034"%char EmptyString.
Definition nl : string := String "010"%char EmptyString.

(** An instance of [Exception]; [str_of_exn] is Python's [str(e)]. *)
Inductive exn : Type := Exception (msg : string).

Definition str_of_exn (e : exn) : string :=
  match e with Exception msg => msg end.

(** What a call to a collaborator answers. *)
Inductive answer (A : Type) : Type :=
| Answer (a : A)
| Failure (e : exn).
Arguments Answer {A} a.
Arguments Failure {A} e.

(** The arguments of a [requests.get] call. *)
Record Request : Type := mkRequest {
  req_url : string;
  req_timeout : Z;
  req_stream : bool;
  req_allow_redirects : bool;
  req_headers : list (string * string)
}.

(** A [requests.Response]: [resp_iter_content] is what
    [iter_content(chunk_size=8192)] yields. *)
Record Response : Type := mkResponse {
  status_code : Z;
  resp_text : string;
  resp_url : string;
  resp_iter_content : list string
}.

(** An entry of the [files] list of a Drive [files().list()] answer.  The
    source reads [id], [name] and [mimeType] with [item[...]] and [size]
    and [createdTime] with [item.get(...)]: the former are always there,
    the latter may be absent. *)
Record Item : Type := mkItem {
  item_id : string;
  item_name : string;
  item_mimeType : string;
  item_size : option string;
  item_createdTime : option string
}.

(** The request objects built by [export_media] and [get_media]. *)
Inductive MediaRequest : Type :=
| export_media (fileId mimeType : string)
| get_media (fileId : string).

Inductive re_flags : Type := NOFLAG | DOTALL | IGNORECASE.

(** The value of the key [size]: the integer [0] of the source or the text
    the Drive API sends. *)
Inductive PySize : Type :=
| SizeInt (n : Z)
| SizeStr (s : string).

(** The dictionaries the listings return; [fr_path] is the key [path],
    which only the recursive listing sets. *)
Record FileRecord : Type := mkFileRecord {
  fr_id : string;
  fr_name : string;
  fr_mimeType : string;
  fr_size : PySize;
  fr_createdTime : option string;
  fr_path : option string
}.

(** [{**file_info, 'local_path': file_path}] *)
Record DownloadResult : Type := mkDownloadResult {
  dr_file_info : FileRecord;
  dr_local_path : string
}.

(** The calls a method makes, in the order it makes them. *)
Inductive Event : Type :=
| EvGet (r : Request)
| EvOpen (path : string)
| EvWrite (path chunk : string)
| EvFilesList (q fields : string) (pageSize : Z)
| EvFilesGet (fileId : string)
| EvNextChunk (rq : MediaRequest) (path : string)
| EvPrint (msg : string).

(** The collaborators.  [re_findall] is [re.findall] for a pattern with
    one group (it returns strings), [re_findall2] for a pattern with two
    groups (it returns pairs); [re_search] returns [group(1)] of the
    match, if there is one; [set_iter] is the order in which a [for] loop
    visits a set; [on_files_list] returns the value of the key [files] of the
    answer, if the answer has that key. *)
Record Env : Type := mkEnv {
  on_get : list Event -> Request -> answer Response;
  on_open : list Event -> string -> answer unit;
  on_write : list Event -> string -> string -> answer unit;
  on_files_list : list Event -> string -> string -> Z -> answer (option (list Item));
  on_files_get : list Event -> string -> answer string;
  on_next_chunk : list Event -> MediaRequest -> string -> answer bool;
  re_findall : string -> re_flags -> string -> list string;
  re_findall2 : string -> re_flags -> string -> list (string * string);
  re_search : string -> string -> option string;
  set_iter : gset string -> list string
}.

(** ** The monad of the methods *)

(** The state: the history of calls, and the list [all_files] that the
    closure [_recurse_folder] appends to. *)
Record State : Type := mkState {
  trace : list Event;
  all_files : list FileRecord
}.

(** A run returns, raises, or needs more than the allotted number of
    nested calls and loop rounds. *)
Inductive outcome (A : Type) : Type :=
| Ret (a : A)
| Raise (e : exn)
| OutOfFuel.
Arguments Ret {A} a.
Arguments Raise {A} e.
Arguments OutOfFuel {A}.

Definition M (A : Type) : Type := State -> outcome A * State.

Definition ret {A} (a : A) : M A := fun st => (Ret a, st).

Definition raise {A} (e : exn) : M A := fun st => (Raise e, st).

Definition out_of_fuel {A} : M A := fun st => (OutOfFuel, st).

Definition bind {A B} (m : M A) (k : A -> M B) : M B :=
  fun st =>
    match m st with
    | (Ret a, st') => k a st'
    | (Raise e, st') => (Raise e, st')
    | (OutOfFuel, st') => (OutOfFuel, st')
    end.

(** [try: body  except Exception as e: handler] *)
Definition try_except {A} (body : M A) (handler : exn -> M A) : M A :=
  fun st =>
    match body st with
    | (Raise e, st') => handler e st'
    | r => r
    end.

Declare Scope py_scope.
Delimit Scope py_scope with py.
Notation "x <- m ;; k" := (bind m (fun x => k))
  (at level 100, m at next level, right associativity) : py_scope.
Notation "m ;; k" := (bind m (fun _ => k))
  (at level 100, right associativity) : py_scope.
Local Open Scope py_scope.

(** [for x in l: f x] *)
Fixpoint for_each {A} (l : list A) (f : A -> M unit) : M unit :=
  match l with
  | [] => ret tt
  | x :: l' => f x ;; for_each l' f
  end.

(** A [for] loop whose body updates a local list. *)
Fixpoint fold_each {A B} (l : list A) (f : A -> B -> M B) (b : B) : M B :=
  match l with
  | [] => ret b
  | x :: l' => b' <- f x b ;; fold_each l' f b'
  end.

(** The state after one more call. *)
Definition log (ev : Event) (st : State) : State :=
  mkState (trace st ++ [ev]) (all_files st).

(** A call to a collaborator: it is recorded, then answered from the
    history before it. *)
Definition call {A} (ev : Event) (ans : list Event -> answer A) : M A :=
  fun st =>
    match ans (trace st) with
    | Answer a => (Ret a, log ev st)
    | Failure e => (Raise e, log ev st)
    end.

Definition print (msg : string) : M unit :=
  fun st => (Ret tt, log (EvPrint msg) st).

Definition get_all_files : M (list FileRecord) :=
  fun st => (Ret (all_files st), st).

Definition set_all_files (l : list FileRecord) : M unit :=
  fun st => (Ret tt, mkState (trace st) l).

(** ** The handler *)

(** [self.service] is either [None] or the Drive client built by one of
    the authentication methods. *)
Inductive Service : Type := DriveV3.

Record Handler : Type := mkHandler {
  service : option Service;
  temp_dir : string
}.

Section Methods.

Variable env : Env.
Variable self : Handler.

Definition requests_get (r : Request) : M Response :=
  call (EvGet r) (fun h => on_get env h r).

Definition open_wb (path : string) : M unit :=
  call (EvOpen path) (fun h => on_open env h path).

Definition write (path chunk : string) : M unit :=
  call (EvWrite path chunk) (fun h => on_write env h path chunk).

(** [self.service.files().list(q=..., fields=..., pageSize=...).execute()]
    followed by [results.get('files', [])] *)
Definition files_list (q fields : string) (pageSize : Z) : M (list Item) :=
  results <- call (EvFilesList q fields pageSize)
                  (fun h => on_files_list env h q fields pageSize) ;;
  ret (default [] results).

(** [self.service.files().get(fileId=...).execute()['mimeType']] *)
Definition files_get (fileId : string) : M string :=
  call (EvFilesGet fileId) (fun h => on_files_get env h fileId).

(** [downloader.next_chunk()] of a [MediaIoBaseDownload(fh, request)],
    where [fh] is the file opened at [path] *)
Definition next_chunk (rq : MediaRequest) (path : string) : M bool :=
  call (EvNextChunk rq path) (fun h => on_next_chunk env h rq path).

(** *** [list_folder_files_public] *)

Definition headers : list (string * string) :=
  [("User-Agent",
    "Mozilla/5.0 (Windows NT 10.0; Win64; x64) AppleWebKit/537.36 (KHTML, like Gecko) Chrome/91.0.4472.124 Safari/537.36")].

Definition ext_map : gmap string (list string) :=
  <["application/pdf" := [".pdf"]]>
  (<["application/vnd.google-apps.document" := [".gdoc"; ".doc"; ".docx"]]>
  (<["image/jpeg" := [".jpg"; ".jpeg"]]>
  (<["image/png" := [".png"]]> ∅))).

Definition allowed_extensions (file_types : list string) : list string :=
  fold_left
    (fun allowed mime =>
       match ext_map !! mime with
       | Some exts => allowed ++ exts
       | None => allowed
       end)
    file_types [].

(** A pattern with one group or with two: [re.findall] returns strings for
    the former and tuples for the latter, which is what the source tests
    with [isinstance(matches[0], tuple)]. *)
Inductive Pattern : Type :=
| Group1 (p : string)
| Group2 (p : string).

Definition file_link_patterns : list Pattern :=
  [ Group1 "/file/d/([a-zA-Z0-9_-]+)";
    Group1 "id=([a-zA-Z0-9_-]+)";
    Group2 ("folders/([a-zA-Z0-9_-]+)/view[^" +:+ dq +:+ "]*id=([a-zA-Z0-9_-]+)") ].

Definition data_item_pattern : string :=
  "data-item-id=" +:+ dq +:+ "([a-zA-Z0-9_-]+)" +:+ dq.

Definition script_pattern : string := "<script[^>]*>(.*?)</script>".

Definition script_id_pattern : string :=
  "[" +:+ dq +:+ "\']([a-zA-Z0-9_-]{20,})[" +:+ dq +:+ "\']".

(** One round of the loop over [file_link_patterns]. *)
Definition add_link_matches (html : string) (found : gset string) (pattern : Pattern)
  : gset string :=
  match pattern with
  | Group1 p =>
      match re_findall env p NOFLAG html with
      | [] => found
      | matches => found ∪ list_to_set matches
      end
  | Group2 p =>
      fold_left (fun found m => found ∪ {[ snd m ]}) (re_findall2 env p NOFLAG html) found
  end.

(** The set [found_file_ids] when the loop over the candidates starts. *)
Definition found_file_ids (html : string) : gset string :=
  let found := fold_left (add_link_matches html) file_link_patterns ∅ in
  let found := found ∪ list_to_set (re_findall env data_item_pattern NOFLAG html) in
  fold_left
    (fun found script => found ∪ list_to_set (re_findall env script_id_pattern NOFLAG script))
    (re_findall env script_pattern DOTALL html) found.

(** [not filename] *)
Definition not_filename (filename : option string) : bool :=
  match filename with
  | None => true
  | Some s => String.eqb s ""
  end.

Definition meta_pattern : string :=
  "<meta\s+property=" +:+ dq +:+ "og:title" +:+ dq +:+ "\s+content=" +:+ dq
  +:+ "([^" +:+ dq +:+ "]+)" +:+ dq.

Definition json_ld_pattern : string :=
  dq +:+ "name" +:+ dq +:+ "\s*:\s*" +:+ dq +:+ "([^" +:+ dq +:+ "]+)" +:+ dq.

(** The name derived from the page of a file. *)
Definition derive_filename (text file_id : string) : string :=
  let filename :=
    match re_search env "<title>([^<]+)</title>" text with
    | Some g => Some (PyStr.strip (PyStr.replace " - Google Drive" "" g))
    | None => None
    end in
  let filename :=
    if not_filename filename then
      match re_search env meta_pattern text with
      | Some g => Some (PyStr.strip g)
      | None => filename
      end
    else filename in
  let filename :=
    if not_filename filename then
      match re_search env json_ld_pattern text with
      | Some g => Some (PyStr.strip g)
      | None => filename
      end
    else filename in
  match filename with
  | Some s => if String.eqb s "" then "file_" +:+ file_id else s
  | None => "file_" +:+ file_id
  end.

(** [any(filename.lower().endswith(ext) for ext in allowed_extensions)] *)
Definition extension_allowed (allowed : list string) (filename : string) : bool :=
  existsb (fun ext => PyStr.endswith (PyStr.lower filename) ext) allowed.

(** The body of the loop over [found_file_ids]; [files] is the list
    accumulated so far. *)
Definition scan_candidate (folder_id : string) (allowed : list string)
    (file_id : string) (files : list FileRecord) : M (list FileRecord) :=
  if String.eqb file_id folder_id then ret files
  else
    try_except
      (file_response <-
         requests_get (mkRequest ("https://drive.google.com/file/d/" +:+ file_id +:+ "/view")
                                 5 false true headers) ;;
       if (status_code file_response =? 200)%Z then
         let filename := derive_filename (resp_text file_response) file_id in
         if extension_allowed allowed filename then
           let files :=
             files ++ [mkFileRecord file_id filename
                         (if PyStr.endswith (PyStr.lower filename) ".pdf"
                          then "application/pdf" else "unknown")
                         (SizeInt 0) None None] in
           print ("  ✓ Found: " +:+ filename) ;;
           ret files
         else ret files
       else ret files)
      (fun _ => ret files).

(** The pass made when no file was found. *)
Definition last_resort_pass (folder_id : string) : M unit :=
  try_except
    (api_response <-
       requests_get (mkRequest ("https://drive.google.com/drive/folders/" +:+ folder_id
                                +:+ "?usp=sharing")
                               10 false true headers) ;;
     if (status_code api_response =? 200)%Z then
       match re_findall env "([^/]+\.pdf)" IGNORECASE (resp_text api_response) with
       | [] => ret tt
       | _ =>
           print "⚠️ Found PDF references but couldn't extract file IDs. Consider using OAuth for better results."
       end
     else ret tt)
    (fun _ => ret tt).

Definition list_folder_files_public (folder_url : string) (file_types : option (list string))
  : M (list FileRecord) :=
  let folder_id := extract_folder_id folder_url in
  let file_types := default ["application/pdf"] file_types in
  let allowed := allowed_extensions file_types in
  try_except
    (response <-
       requests_get (mkRequest ("https://drive.google.com/drive/folders/" +:+ folder_id)
                               15 false true headers) ;;
     if negb (status_code response =? 200)%Z then
       raise (Exception ("Cannot access folder. Status: "
                         +:+ PyStr.of_Z (status_code response)))
     else
       let html := resp_text response in
       let found := found_file_ids html in
       print ("🔍 Found " +:+ PyStr.of_Z (Z.of_nat (size found)) +:+ " potential file IDs") ;;
       files <- fold_each (set_iter env found) (scan_candidate folder_id allowed) [] ;;
       match files with
       | [] => last_resort_pass folder_id
       | _ => ret tt
       end ;;
       print ("✅ Found " +:+ PyStr.of_Z (Z.of_nat (length files)) +:+ " files in public folder") ;;
       ret files)
    (fun e =>
       print ("❌ Error accessing public folder: " +:+ str_of_exn e) ;;
       raise (Exception ("Folder is not publicly accessible or error occurred: "
                         +:+ str_of_exn e))).

(** *** [list_folder_files] *)

(** [not file_types or mime in file_types] *)
Definition type_selected (file_types : option (list string)) (mime : string) : bool :=
  match file_types with
  | None | Some [] => true
  | Some l => bool_decide (mime ∈ l)
  end.

Definition list_query (folder_id : string) : string :=
  "'" +:+ folder_id +:+ "' in parents and trashed=false".

Definition list_fields : string := "files(id, name, mimeType, size, createdTime)".

(** [item.get('size', 0)] *)
Definition size_of_item (item : Item) : PySize :=
  match item_size item with
  | Some s => SizeStr s
  | None => SizeInt 0
  end.

Definition default_file_types : list string :=
  [ "application/pdf";
    "application/vnd.google-apps.document";
    "application/vnd.openxmlformats-officedocument.wordprocessingml.document";
    "image/jpeg";
    "image/png" ].

Definition list_folder_files (folder_url : string) (file_types : option (list string))
  : M (list FileRecord) :=
  try_except
    (list_folder_files_public folder_url file_types)
    (fun public_error =>
       match service self with
       | None =>
           raise (Exception ("Folder requires authentication. Public access failed: "
                             +:+ str_of_exn public_error +:+ nl
                             +:+ "Please authenticate with OAuth2 to access private folders."))
       | Some _ =>
           let folder_id := extract_folder_id folder_url in
           let file_types := Some (default default_file_types file_types) in
           try_except
             (items <- files_list (list_query folder_id) list_fields 1000 ;;
              let files :=
                fold_left
                  (fun files item =>
                     if type_selected file_types (item_mimeType item) then
                       files ++ [mkFileRecord (item_id item) (item_name item)
                                   (item_mimeType item) (size_of_item item)
                                   (item_createdTime item) None]
                     else files)
                  items [] in
              print ("✅ Found " +:+ PyStr.of_Z (Z.of_nat (length files))
                     +:+ " files in folder (OAuth)") ;;
              ret files)
             (fun e =>
                print ("❌ Error listing folder files: " +:+ str_of_exn e) ;;
                raise e)
       end).

(** *** [list_folder_recursive] *)

Definition folder_mime : string := "application/vnd.google-apps.folder".

(** [f"{path}/{name}" if path else name] *)
Definition sub_path (path name : string) : string :=
  if String.eqb path "" then name else path +:+ "/" +:+ name.

(** [all_files.append(file_info)] *)
Definition append_file (file_info : FileRecord) : M unit :=
  all_files <- get_all_files ;;
  set_all_files (all_files ++ [file_info]).

(** The body of the loop over [items] in [_recurse_folder]; [recurse] is
    the closure itself. *)
Definition visit_item (recurse : string -> string -> M unit)
    (file_types : option (list string)) (path : string) (item : Item) : M unit :=
  if String.eqb (item_mimeType item) folder_mime then
    recurse (item_id item) (sub_path path (item_name item))
  else if type_selected file_types (item_mimeType item) then
    append_file (mkFileRecord (item_id item) (item_name item)
                   (item_mimeType item) (size_of_item item)
                   (item_createdTime item)
                   (Some (sub_path path (item_name item))))
  else ret tt.

(** The closure [_recurse_folder]; [fuel] bounds the depth of the
    recursion, which the source does not bound. *)
Fixpoint _recurse_folder (fuel : nat) (file_types : option (list string))
    (folder_id path : string) : M unit :=
  match fuel with
  | O => out_of_fuel
  | S fuel' =>
      try_except
        (items <- files_list (list_query folder_id) list_fields 1000 ;;
         for_each items (visit_item (_recurse_folder fuel' file_types) file_types path))
        (fun e =>
           print ("Error processing folder " +:+ folder_id +:+ ": " +:+ str_of_exn e))
  end.

Definition list_folder_recursive (fuel : nat) (folder_url : string)
    (file_types : option (list string)) : M (list FileRecord) :=
  match service self with
  | None => raise (Exception "Not authenticated with Google Drive")
  | Some _ =>
      let folder_id := extract_folder_id folder_url in
      set_all_files [] ;;
      _recurse_folder fuel file_types folder_id "" ;;
      all_files <- get_all_files ;;
      print ("✅ Found " +:+ PyStr.of_Z (Z.of_nat (length all_files))
             +:+ " files in folder tree") ;;
      ret all_files
  end.

(** *** [download_file_public] *)

Definition confirm_pattern : string :=
  "href=" +:+ dq +:+ "(/uc\?export=download[^" +:+ dq +:+ "]+)" +:+ dq.

Definition download_request (download_url : string) : Request :=
  mkRequest download_url 30 true true [].

Definition download_file_public (file_id file_name : string) : M string :=
  try_except
    (let download_url := "https://drive.google.com/uc?export=download&id=" +:+ file_id in
     response <- requests_get (download_request download_url) ;;
     response <-
       (if PyStr.contains "virus scan warning" (PyStr.lower (resp_text response))
           || PyStr.contains "download" (PyStr.lower (resp_url response))
        then
          match re_search env confirm_pattern (resp_text response) with
          | Some g => requests_get (download_request ("https://drive.google.com" +:+ g))
          | None => ret response
          end
        else ret response) ;;
     let file_path := path_join (temp_dir self) file_name in
     open_wb file_path ;;
     for_each (resp_iter_content response)
       (fun chunk => if String.eqb chunk "" then ret tt else write file_path chunk) ;;
     print ("✅ Downloaded (public): " +:+ file_name) ;;
     ret file_path)
    (fun e =>
       print ("❌ Error downloading public file " +:+ file_name +:+ ": " +:+ str_of_exn e) ;;
       raise e).

(** *** [download_file] *)

(** [while not done: _, done = downloader.next_chunk()]; [fuel] bounds the
    number of rounds. *)
Fixpoint download_chunks (fuel : nat) (rq : MediaRequest) (path : string) : M unit :=
  match fuel with
  | O => out_of_fuel
  | S fuel' =>
      done <- next_chunk rq path ;;
      if done then ret tt else download_chunks fuel' rq path
  end.

(** The handler of the authenticated path prints the value [file_name]
    has when the exception is raised: the requested name until the
    request is chosen, the rewritten one afterwards. *)
Definition download_failed {A} (file_name : string) (e : exn) : M A :=
  print ("❌ Error downloading file " +:+ file_name +:+ ": " +:+ str_of_exn e) ;;
  raise e.

(** The authenticated path from [file_path = ...] on, when the request is
    built and the name is settled. *)
Definition save_media (fuel : nat) (request : MediaRequest) (file_name : string) : M string :=
  try_except
    (let file_path := path_join (temp_dir self) file_name in
     open_wb file_path ;;
     download_chunks fuel request file_path ;;
     print ("✅ Downloaded (OAuth): " +:+ file_name) ;;
     ret file_path)
    (download_failed file_name).

Definition download_file (fuel : nat) (file_id file_name : string) : M string :=
  try_except
    (download_file_public file_id file_name)
    (fun public_error =>
       match service self with
       | None =>
           raise (Exception ("File requires authentication. Public download failed: "
                             +:+ str_of_exn public_error +:+ nl
                             +:+ "Please authenticate with OAuth2 to access private files."))
       | Some _ =>
           chosen <-
             try_except
               (mime_type <- files_get file_id ;;
                if PyStr.startswith mime_type "application/vnd.google-apps" then
                  if PyStr.contains "document" mime_type then
                    ret (export_media file_id "application/pdf",
                         PyStr.replace ".gdoc" ".pdf" file_name)
                  else
                    raise (Exception ("Unsupported Google Apps type: " +:+ mime_type))
                else ret (get_media file_id, file_name))
               (download_failed file_name) ;;
           save_media fuel (fst chosen) (snd chosen)
       end).

(** *** [download_folder] *)

(** The body of the loop over [files]; [downloaded_files] is the list
    accumulated so far. *)
Definition download_into (fuel : nat) (file_info : FileRecord)
    (downloaded_files : list DownloadResult) : M (list DownloadResult) :=
  try_except
    (file_path <- download_file fuel (fr_id file_info) (fr_name file_info) ;;
     ret (downloaded_files ++ [mkDownloadResult file_info file_path]))
    (fun e =>
       print ("Failed to download " +:+ fr_name file_info +:+ ": " +:+ str_of_exn e) ;;
       ret downloaded_files).

Definition download_folder (fuel : nat) (folder_url : string) (recursive : bool)
  : M (list DownloadResult) :=
  files <- (if recursive then list_folder_recursive fuel folder_url None
            else list_folder_files folder_url None) ;;
  fold_each files (download_into fuel) [].

End Methods.

(** * Predicates of the specification *)

(** What follows the identifier in a URL: nothing, or [mark] and more. *)
Definition query_tail (mark rest : string) : Prop :=
  rest = "" \/ exists r, rest = mark +:+ r.

(** The three shapes of an input that denotes the folder [F]. *)
Inductive denotes_folder (F : string) : string -> Prop :=
| folders_shape (pre rest : string) :
    query_tail "?" rest ->
    denotes_folder F (pre +:+ "/folders/" +:+ F +:+ rest)
| id_shape (pre rest : string) :
    query_tail "&" rest ->
    denotes_folder F (pre +:+ "id=" +:+ F +:+ rest)
| bare_shape : denotes_folder F F.

(** The same shapes, where the marker that introduces [F] is the one the
    parser cuts at and [F] ends where the parser stops. *)
Inductive parsed_as (F : string) : string -> Prop :=
| parsed_folders (pre rest : string) :
    query_tail "?" rest ->
    PyStr.contains "?" F = false ->
    PyStr.contains "/folders/" (F +:+ rest) = false ->
    PyStr.endswith pre "/folders" = false ->
    parsed_as F (pre +:+ "/folders/" +:+ F +:+ rest)
| parsed_id (pre rest : string) :
    query_tail "&" rest ->
    PyStr.contains "&" F = false ->
    PyStr.contains "id=" (F +:+ rest) = false ->
    PyStr.contains "/folders/" (pre +:+ "id=" +:+ F +:+ rest) = false ->
    parsed_as F (pre +:+ "id=" +:+ F +:+ rest)
| parsed_bare :
    PyStr.contains "/folders/" F = false ->
    PyStr.contains "id=" F = false ->
    parsed_as F F.

(** No occurrence of [sep] starts in [pre] and ends in the [sep] that
    follows [pre]. *)
Definition no_straddle (sep pre : string) : Prop :=
  forall a x, pre = a +:+ x -> x <> "" -> String.length x < String.length sep ->
              String.prefix sep (x +:+ sep) = false.

(** ** Calls made by a run *)

(** Every run of [m] extends the history, and with calls in [P] only. *)
Definition emits {A} (P : Event -> Prop) (m : M A) : Prop :=
  forall st, exists evs, trace (snd (m st)) = trace st ++ evs /\ Forall P evs.

(** The calls of the authenticated path. *)
Definition is_drive_call (ev : Event) : bool :=
  match ev with
  | EvFilesList _ _ _ | EvFilesGet _ | EvNextChunk _ _ => true
  | _ => false
  end.

(** The request of the last-resort pass is the only one made with a
    timeout of ten seconds. *)
Definition is_last_resort (ev : Event) : bool :=
  match ev with
  | EvGet r => (req_timeout r =? 10)%Z
  | _ => false
  end.

(** The chunked download of [rq] into [path] is done after [n] rounds
    when the history is [h]. *)
Inductive completes (env : Env) (rq : MediaRequest) (path : string)
  : nat -> list Event -> Prop :=
| completes_now (h : list Event) :
    on_next_chunk env h rq path = Answer true ->
    completes env rq path 1 h
| completes_later (n : nat) (h : list Event) :
    on_next_chunk env h rq path = Answer false ->
    completes env rq path n (h ++ [EvNextChunk rq path]) ->
    completes env rq path (S n) h.

(** ** The downloads of a batch *)

(** The outcomes of the calls to [download_file] that the loop of
    [download_folder] makes for [files], in order, from the state [st]. *)
Fixpoint download_runs (env : Env) (self : Handler) (fuel : nat)
    (files : list FileRecord) (st : State) : list (outcome string) :=
  match files with
  | [] => []
  | file_info :: files' =>
      fst (download_file env self fuel (fr_id file_info) (fr_name file_info) st)
      :: download_runs env self fuel files' (snd (download_into env self fuel file_info [] st))
  end.

(** The files whose download returned, each with the path it returned. *)
Fixpoint downloaded (files : list FileRecord) (runs : list (outcome string))
  : list DownloadResult :=
  match files, runs with
  | file_info :: files', Ret file_path :: runs' =>
      mkDownloadResult file_info file_path :: downloaded files' runs'
  | _ :: files', _ :: runs' => downloaded files' runs'
  | _, _ => []
  end.

(** ** The public listing *)

(** A [for] loop over a set visits the elements of the set, each once. *)
Definition faithful_iter (env : Env) : Prop :=
  forall s : gset string, set_iter env s ≡ₚ elements s.

(** The request for the page of a folder. *)
Definition folder_page_request (folder_id : string) : Request :=
  mkRequest ("https://drive.google.com/drive/folders/" +:+ folder_id) 15 false true headers.

(** Two sets of collaborators that can differ only in the answer to the
    request of the last-resort pass and in the PDF names found in that
    answer. *)
Record same_but_last_resort (env1 env2 : Env) : Prop := {
  same_get : forall h r, req_timeout r <> 10%Z -> on_get env1 h r = on_get env2 h r;
  same_findall : forall p fl t, p <> "([^/]+\.pdf)" ->
                                re_findall env1 p fl t = re_findall env2 p fl t;
  same_findall2 : forall p fl t, re_findall2 env1 p fl t = re_findall2 env2 p fl t;
  same_search : forall p t, re_search env1 p t = re_search env2 p t;
  same_iter : forall s, set_iter env1 s = set_iter env2 s
}.

(** ** The authenticated listings *)

(** The record the flat listing builds for an item. *)
Definition flat_record (item : Item) : FileRecord :=
  mkFileRecord (item_id item) (item_name item) (item_mimeType item)
               (size_of_item item) (item_createdTime item) None.

(** The record the recursive listing builds for an item found under [path]. *)
Definition tree_record (path : string) (item : Item) : FileRecord :=
  mkFileRecord (item_id item) (item_name item) (item_mimeType item)
               (size_of_item item) (item_createdTime item)
               (Some (sub_path path (item_name item))).

(** The call that lists the folder [folder_id]. *)
Definition list_call (folder_id : string) : Event :=
  EvFilesList (list_query folder_id) list_fields 1000.


(** * A sample of collaborators

    A small world to run the methods in: the pages of the folders list
    the file [f1], whose page is titled [Report.PDF], except the pages of
    the folders named [empty...], which list nothing; every address that
    contains [bad] refuses the connection and every address that contains
    [private] answers 403; the Drive API knows a few folders and files. *)

Module Sample.

Definition page (url : string) : Response :=
  if PyStr.contains "private" url then mkResponse 403 "" url []
  else if PyStr.endswith url "/view"
  then mkResponse 200 "<title>Report.PDF - Google Drive</title>" url []
  else if PyStr.contains "empty" url then mkResponse 200 "" url []
  else mkResponse 200 "<a href=/file/d/f1/view>" url ["%PDF"; ""; "-1.7"].

Definition folder (id name : string) : Item :=
  mkItem id name folder_mime None None.

Definition pdf (id name : string) : Item :=
  mkItem id name "application/pdf" (Some "1024") (Some "2024-01-01T00:00:00Z").

(** The records the listings build for [pdf id name]. *)
Definition pdf_record (id name : string) : FileRecord :=
  mkFileRecord id name "application/pdf" (SizeStr "1024") (Some "2024-01-01T00:00:00Z")
               (Some name).

Definition listing (q : string) : answer (option (list Item)) :=
  if String.eqb q (list_query "root") then Answer (Some [folder "sub" "Reports"])
  else if String.eqb q (list_query "sub") then Answer (Some [pdf "f1" "a.pdf"])
  else if String.eqb q (list_query "root0") then Answer (Some [folder "sub0" ""])
  else if String.eqb q (list_query "sub0") then Answer (Some [pdf "f1" "a.pdf"])
  else if String.eqb q (list_query "batch")
  then Answer (Some [pdf "good1" "a.pdf"; pdf "bad1" "b.pdf"; pdf "good2" "c.pdf"])
  else if String.eqb q (list_query "bad-shared")
  then Answer (Some [folder "sub" "Reports"; pdf "f2" "b.pdf"])
  else if String.eqb q (list_query "broken") then Failure (Exception "HttpError 500")
  else Answer None.

Definition metadata (fileId : string) : answer string :=
  if String.eqb fileId "bad-doc" then Answer "application/vnd.google-apps.document"
  else if String.eqb fileId "bad-sheet" then Answer "application/vnd.google-apps.spreadsheet"
  else Failure (Exception "HttpError 404").

Definition chunk_requested (ev : Event) : bool :=
  match ev with
  | EvNextChunk _ _ => true
  | _ => false
  end.

Definition findall (p : string) (fl : re_flags) (text : string) : list string :=
  if String.eqb p "/file/d/([a-zA-Z0-9_-]+)" && PyStr.contains "/file/d/f1" text
  then ["f1"] else [].

Definition search (p text : string) : option string :=
  if String.eqb p "<title>([^<]+)</title>"
     && String.eqb text "<title>Report.PDF - Google Drive</title>"
  then Some "Report.PDF - Google Drive" else None.

Definition env : Env := {|
  on_get h r :=
    if PyStr.contains "bad" (req_url r) then Failure (Exception "connection refused")
    else Answer (page (req_url r));
  on_open h path := Answer tt;
  on_write h path chunk := Answer tt;
  on_files_list h q fields pageSize := listing q;
  on_files_get h fileId := metadata fileId;
  on_next_chunk h rq path := Answer (existsb chunk_requested h);
  re_findall := findall;
  re_findall2 p fl text := [];
  re_search := search;
  set_iter := elements
|}.

(** The same world, where the last-resort pass finds a PDF name. *)
Definition env_pdf_refs : Env := {|
  on_get := on_get env;
  on_open := on_open env;
  on_write := on_write env;
  on_files_list := on_files_list env;
  on_files_get := on_files_get env;
  on_next_chunk := on_next_chunk env;
  re_findall p fl text :=
    if String.eqb p "([^/]+\.pdf)" then ["scan.pdf"] else findall p fl text;
  re_findall2 := re_findall2 env;
  re_search := re_search env;
  set_iter := set_iter env
|}.

Definition anonymous : Handler := mkHandler None "/tmp".
Definition signed_in : Handler := mkHandler (Some DriveV3) "/tmp".
Definition start : State := mkState [] [].

End Sample.

(** * Further predicates *)

(** The record the public listing builds for a candidate and the name
    derived for it. *)
Definition scraped_record (file_id filename : string) : FileRecord :=
  mkFileRecord file_id filename
               (if PyStr.endswith (PyStr.lower filename) ".pdf"
                then "application/pdf" else "unknown")
               (SizeInt 0) None None.

(** The calls of the public listing: page requests and prints. *)
Definition is_web_call (ev : Event) : bool :=
  match ev with
  | EvGet _ | EvPrint _ => true
  | _ => false
  end.

(** A run that returns, whatever the state it starts in. *)
Definition returns {A} (m : M A) : Prop :=
  forall st, exists a st', m st = (Ret a, st').

(** The calls of the recursive listing: folder queries and prints. *)
Definition is_list_call (ev : Event) : bool :=
  match ev with
  | EvFilesList _ _ _ | EvPrint _ => true
  | _ => false
  end.

(** A run under which every collected record keeps satisfying [Q]. *)
Definition keeps (Q : FileRecord -> Prop) {A} (m : M A) : Prop :=
  forall st, Forall Q (all_files st) -> Forall Q (all_files (snd (m st))).

(** What holds of a record of the recursive listing made under the
    filter [file_types]. *)
Definition tree_listed (file_types : option (list string)) (f : FileRecord) : Prop :=
  fr_mimeType f <> folder_mime
  /\ type_selected file_types (fr_mimeType f) = true
  /\ exists p, fr_path f = Some p /\ PyStr.endswith p (fr_name f) = true.

(** The address of the direct download of a file. *)
Definition download_url (file_id : string) : string :=
  "https://drive.google.com/uc?export=download&id=" +:+ file_id.

(** The writes of the chunks of a body into [path]: the empty chunks are
    passed over. *)
Definition chunk_writes (path : string) (chunks : list string) : list Event :=
  map (EvWrite path) (List.filter (fun chunk => negb (String.eqb chunk "")) chunks).

(** The file at [path] can be opened and written whatever was done before. *)
Definition writable (env : Env) (path : string) : Prop :=
  (forall h, on_open env h path = Answer tt)
  /\ (forall h chunk, on_write env h path chunk = Answer tt).

(** * Construction and authentication

    The constructor and the authentication methods only pass values to
    the Google client libraries.  These are collaborators too, gathered
    in a record [Lib]; their answers are taken to depend on their
    arguments alone.  What the methods print is left out here. *)

Module Auth.

(** The values of the token dictionary: [None], a string, or a list of
    strings. *)
Inductive PyVal : Type :=
| VNone
| VStr (s : string)
| VList (l : list string).

(** The truth value of a Python value. *)
Definition truthy (v : PyVal) : bool :=
  match v with
  | VNone => false
  | VStr s => negb (String.eqb s "")
  | VList l => match l with [] => false | _ => true end
  end.

(** The attributes of a [google.oauth2.credentials.Credentials] that the
    source reads. *)
Record Credentials : Type := mkCredentials {
  c_token : PyVal;
  c_refresh_token : PyVal;
  c_token_uri : PyVal;
  c_client_id : PyVal;
  c_client_secret : PyVal;
  c_scopes : PyVal;
  c_expired : bool
}.

(** A dictionary with string keys: the stored token, a parsed JSON
    document. *)
Abbreviation Dict := (gmap string PyVal).

(** The credentials a Drive client is built from: those of a user, or
    those made from the description of a service account. *)
Inductive AnyCredentials : Type :=
| UserCredentials (c : Credentials)
| ServiceAccount (info : Dict).

(** The argument [credentials_file]: a path, or an object with a [read]
    method, given with what [read()] answers. *)
Inductive CredentialsFile : Type :=
| Path (p : string)
| Uploaded (read : answer string).

(** The arguments of [Flow.from_client_config]: the entries of the client
    configuration built by [create_oauth2_flow], the scopes and the
    redirect URI. *)
Record FlowArgs : Type := mkFlowArgs {
  flow_client_id : string;
  flow_client_secret : string;
  flow_auth_uri : string;
  flow_token_uri : string;
  flow_redirect_uris : list string;
  flow_scopes : list string;
  flow_redirect_uri : string
}.

(** A [Flow], known by the arguments it was made from. *)
Inductive Flow : Type := FlowOf (args : FlowArgs).

Record Lib : Type := mkLib {
  gettempdir : string;
  (** [open(path, 'r', encoding='utf-8')] and [json.load] of it *)
  json_load : string -> answer Dict;
  json_loads : string -> answer Dict;
  from_service_account_info : Dict -> list string -> answer AnyCredentials;
  from_authorized_user_info : Dict -> list string -> answer Credentials;
  (** [credentials.refresh(None)]: the credentials once refreshed *)
  refresh : Credentials -> answer Credentials;
  build : AnyCredentials -> answer Service;
  from_client_config : FlowArgs -> answer Flow;
  (** [flow.authorization_url(access_type, include_granted_scopes, prompt)] *)
  authorization_url : Flow -> string -> string -> string -> answer (string * string);
  (** [flow.fetch_token(code=...)] followed by [flow.credentials] *)
  fetch_token : Flow -> string -> answer Credentials
}.

(** The attributes of a handler.  [client_id] and [client_secret] are set
    by one branch of the constructor only: [None] stands for an attribute
    that does not exist. *)
Record Instance : Type := mkInstance {
  service : option Service;
  temp_dir : string;
  credentials : option Credentials;
  client_id : option string;
  client_secret : option string
}.

(** The part of a handler the listings and the downloads read. *)
Definition handler_of (self : Instance) : Handler :=
  mkHandler (service self) (temp_dir self).

Definition scopes : list string := ["https://www.googleapis.com/auth/drive.readonly"].

(** The truth value of an optional string argument. *)
Definition given (arg : option string) : bool :=
  match arg with
  | Some s => negb (String.eqb s "")
  | None => false
  end.

(** The truth value of the argument [credentials_token]: a dictionary is
    true when its length is not zero. *)
Definition token_given (arg : option Dict) : bool :=
  match arg with
  | Some d => negb (size d =? 0)%nat
  | None => false
  end.

(** The truth value of the argument [credentials_file]. *)
Definition file_given (arg : option CredentialsFile) : bool :=
  match arg with
  | Some (Path p) => negb (String.eqb p "")
  | Some (Uploaded _) => true
  | None => false
  end.

Section Methods.

Variable lib : Lib.

Definition _authenticate (self : Instance) (credentials_file : CredentialsFile)
  : answer Instance :=
  match
    match credentials_file with
    | Uploaded read =>
        match read with
        | Answer text => json_loads lib text
        | Failure e => Failure e
        end
    | Path p => json_load lib p
    end
  with
  | Failure e => Failure e
  | Answer creds_dict =>
      match from_service_account_info lib creds_dict scopes with
      | Failure e => Failure e
      | Answer creds =>
          match build lib creds with
          | Failure e => Failure e
          | Answer svc =>
              Answer (mkInstance (Some svc) (temp_dir self) (credentials self)
                                 (client_id self) (client_secret self))
          end
      end
  end.

Definition _authenticate_oauth2_token (self : Instance) (token_dict : Dict)
  : answer Instance :=
  match from_authorized_user_info lib token_dict scopes with
  | Failure e => Failure e
  | Answer creds =>
      match
        (if c_expired creds && truthy (c_refresh_token creds)
         then refresh lib creds
         else Answer creds)
      with
      | Failure e => Failure e
      | Answer creds =>
          match build lib (UserCredentials creds) with
          | Failure e => Failure e
          | Answer svc =>
              Answer (mkInstance (Some svc) (temp_dir self) (Some creds)
                                 (client_id self) (client_secret self))
          end
      end
  end.

Definition __init__ (credentials_file : option CredentialsFile)
    (client_id client_secret : option string) (credentials_token : option Dict)
  : answer Instance :=
  let self := mkInstance None (gettempdir lib) None None None in
  if given client_id && given client_secret then
    if token_given credentials_token then
      match credentials_token with
      | Some token => _authenticate_oauth2_token self token
      | None => Answer self
      end
    else
      Answer (mkInstance None (gettempdir lib) None client_id client_secret)
  else if file_given credentials_file then
    match credentials_file with
    | Some file => _authenticate self file
    | None => Answer self
    end
  else Answer self.

(** The [AttributeError] raised when an attribute that does not exist is
    read. *)
Definition no_attribute (name : string) : exn :=
  Exception ("'GoogleDriveHandler' object has no attribute '" +:+ name +:+ "'").

Definition create_oauth2_flow (self : Instance) (redirect_uri : string) : answer Flow :=
  match client_id self with
  | None => Failure (no_attribute "client_id")
  | Some id =>
      match client_secret self with
      | None => Failure (no_attribute "client_secret")
      | Some secret =>
          from_client_config lib
            (mkFlowArgs id secret "https://accounts.google.com/o/oauth2/auth"
                        "https://oauth2.googleapis.com/token" [redirect_uri]
                        scopes redirect_uri)
      end
  end.

Definition get_authorization_url (self : Instance) (redirect_uri : string)
  : answer (string * string) :=
  match create_oauth2_flow self redirect_uri with
  | Failure e => Failure e
  | Answer flow => authorization_url lib flow "offline" "true" "consent"
  end.

(** The dictionary [complete_oauth2_flow] returns. *)
Definition token_dict (c : Credentials) : Dict :=
  <["token" := c_token c]>
  (<["refresh_token" := c_refresh_token c]>
  (<["token_uri" := c_token_uri c]>
  (<["client_id" := c_client_id c]>
  (<["client_secret" := c_client_secret c]>
  (<["scopes" := c_scopes c]> ∅))))).

(** [complete_oauth2_flow] returns or raises, and leaves the handler with
    the attributes it has set until then. *)
Definition complete_oauth2_flow (self : Instance) (authorization_code redirect_uri : string)
  : answer Dict * Instance :=
  match create_oauth2_flow self redirect_uri with
  | Failure e => (Failure e, self)
  | Answer flow =>
      match fetch_token lib flow authorization_code with
      | Failure e => (Failure e, self)
      | Answer c =>
          let self := mkInstance (service self) (temp_dir self) (Some c)
                                 (client_id self) (client_secret self) in
          match build lib (UserCredentials c) with
          | Failure e => (Failure e, self)
          | Answer svc =>
              (Answer (token_dict c),
               mkInstance (Some svc) (temp_dir self) (Some c)
                          (client_id self) (client_secret self))
          end
      end
  end.

End Methods.

End Auth.

(** * More sample collaborators *)

Module Sample2.

(** The sample world without a network: every page request fails; the
    Drive API also knows the plain file [bad-pdf]. *)
Definition offline : Env := {|
  on_get h r := Failure (Exception "connection refused");
  on_open := on_open Sample.env;
  on_write := on_write Sample.env;
  on_files_list := on_files_list Sample.env;
  on_files_get h fileId :=
    if String.eqb fileId "bad-pdf" then Answer "application/pdf" else Sample.metadata fileId;
  on_next_chunk := on_next_chunk Sample.env;
  re_findall := re_findall Sample.env;
  re_findall2 := re_findall2 Sample.env;
  re_search := re_search Sample.env;
  set_iter := set_iter Sample.env
|}.

Definition warning_page (url : string) : Response :=
  mkResponse 200 "Google Drive - Virus scan warning" url ["<html>"].

Definition confirm_link : string := "/uc?export=download&confirm=t&id=big".

(** A world where the download of a large file first answers the warning
    page, in which a confirmation link is found. *)
Definition large_files : Env := {|
  on_get h r :=
    if String.eqb (req_url r) ("https://drive.google.com" +:+ confirm_link)
    then Answer (mkResponse 200 "" (req_url r) ["BIG"; "FILE"])
    else Answer (warning_page (req_url r));
  on_open := on_open Sample.env;
  on_write := on_write Sample.env;
  on_files_list := on_files_list Sample.env;
  on_files_get := on_files_get Sample.env;
  on_next_chunk := on_next_chunk Sample.env;
  re_findall := re_findall Sample.env;
  re_findall2 := re_findall2 Sample.env;
  re_search p text :=
    if String.eqb p confirm_pattern && String.eqb text "Google Drive - Virus scan warning"
    then Some confirm_link else None;
  set_iter := set_iter Sample.env
|}.

Definition word : string :=
  "application/vnd.openxmlformats-officedocument.wordprocessingml.document".

(** Credentials that are expired and have no refresh token. *)
Definition stale : Auth.Credentials :=
  Auth.mkCredentials (Auth.VStr "ya29.old") Auth.VNone
                     (Auth.VStr "https://oauth2.googleapis.com/token")
                     (Auth.VStr "client") (Auth.VStr "secret")
                     (Auth.VList Auth.scopes) true.

(** Credentials that are expired and have a refresh token. *)
Definition renewable : Auth.Credentials :=
  Auth.mkCredentials (Auth.VStr "ya29.old") (Auth.VStr "1//refresh")
                     (Auth.VStr "https://oauth2.googleapis.com/token")
                     (Auth.VStr "client") (Auth.VStr "secret")
                     (Auth.VList Auth.scopes) true.

(** Libraries that read a stored token as [stale] when it has no refresh
    token and as [renewable] otherwise, and cannot refresh. *)
Definition lib : Auth.Lib := {|
  Auth.gettempdir := "/tmp";
  Auth.json_load p := Failure (Exception "No such file or directory");
  Auth.json_loads text := Answer (<["type" := Auth.VStr "service_account"]> ∅);
  Auth.from_service_account_info info scopes := Answer (Auth.ServiceAccount info);
  Auth.from_authorized_user_info info scopes :=
    match info !! "refresh_token" with
    | Some (Auth.VStr _) => Answer renewable
    | _ => Answer stale
    end;
  Auth.refresh c := Failure (Exception "invalid_grant");
  Auth.build c := Answer DriveV3;
  Auth.from_client_config args := Answer (Auth.FlowOf args);
  Auth.authorization_url flow access_type include_granted_scopes prompt :=
    Answer ("https://accounts.google.com/o/oauth2/auth?prompt=" +:+ prompt, "state");
  Auth.fetch_token flow code :=
    if String.eqb code "4/good" then Answer renewable
    else Failure (Exception "invalid_grant")
|}.

(** The same libraries, where no Drive client can be built. *)
Definition lib_no_client : Auth.Lib := {|
  Auth.gettempdir := Auth.gettempdir lib;
  Auth.json_load := Auth.json_load lib;
  Auth.json_loads := Auth.json_loads lib;
  Auth.from_service_account_info := Auth.from_service_account_info lib;
  Auth.from_authorized_user_info := Auth.from_authorized_user_info lib;
  Auth.refresh := Auth.refresh lib;
  Auth.build c := Failure (Exception "discovery failed");
  Auth.from_client_config := Auth.from_client_config lib;
  Auth.authorization_url := Auth.authorization_url lib;
  Auth.fetch_token := Auth.fetch_token lib
|}.

(** A handler waiting for a consent flow. *)
Definition waiting : Auth.Instance :=
  Auth.mkInstance None "/tmp" None (Some "client") (Some "secret").

End Sample2.

(** * Properties *)

(** ** The operations on concrete inputs *)

Example extract_folder_id_folders_url :
  extract_folder_id "https://drive.google.com/drive/folders/1AbC_d-9?usp=sharing" = "1AbC_d-9".
Proof. reflexivity. Qed.

Example extract_folder_id_open_url :
  extract_folder_id "https://drive.google.com/open?id=1AbC_d-9&authuser=0" = "1AbC_d-9".
Proof. reflexivity. Qed.

Example extract_folder_id_bare : extract_folder_id "1AbC_d-9" = "1AbC_d-9".
Proof. reflexivity. Qed.

Example extract_folder_id_later_marker :
  extract_folder_id "https://drive.google.com/open?id=1AbC_d-9&ouid=42" = "42".
Proof. reflexivity. Qed.

Example split_overlap : PyStr.split "/folders/" "x/folders/folders/F" = ["x"; "folders/F"].
Proof. reflexivity. Qed.

Example replace_gdoc : PyStr.replace ".gdoc" ".pdf" "a.gdoc.gdocx" = "a.pdf.pdfx".
Proof. reflexivity. Qed.

Example strip_ex : PyStr.strip "  a b  " = "a b".
Proof. reflexivity. Qed.

Example of_Z_ex : PyStr.of_Z 404 = "404".
Proof. reflexivity. Qed.


(** ** Facts about the string operations *)

Section StringFacts.

Lemma append_nil_l (s : string) : "" +:+ s = s.
Proof. reflexivity. Qed.

Lemma append_cons (c : ascii) (s t : string) : String c s +:+ t = String c (s +:+ t).
Proof. reflexivity. Qed.

Lemma append_nil_r (s : string) : s +:+ "" = s.
Proof. induction s as [|c s IH]; [reflexivity | now rewrite append_cons, IH]. Qed.

Lemma append_assoc (a b c : string) : (a +:+ b) +:+ c = a +:+ (b +:+ c).
Proof. induction a as [|x a IH]; [reflexivity | now rewrite !append_cons, IH]. Qed.

Lemma length_append (a b : string) :
  String.length (a +:+ b) = String.length a + String.length b.
Proof. induction a as [|x a IH]; [reflexivity | rewrite append_cons; simpl; now rewrite IH]. Qed.

Lemma prefix_cons (a b : ascii) (p s : string) :
  String.prefix (String a p) (String b s) = true <-> a = b /\ String.prefix p s = true.
Proof.
  simpl. destruct (ascii_dec a b) as [->|Hne]; split; intros H.
  - now split.
  - now destruct H.
  - discriminate.
  - now destruct H.
Qed.

Lemma prefix_app (p t : string) : String.prefix p (p +:+ t) = true.
Proof.
  induction p as [|c p IH].
  - now destruct t.
  - rewrite append_cons. apply prefix_cons. now split.
Qed.

Lemma prefix_inv (p s : string) :
  String.prefix p s = true -> exists t, s = p +:+ t.
Proof.
  revert s. induction p as [|c p IH]; intros s H.
  - now exists s.
  - destruct s as [|b s]; [discriminate|].
    apply prefix_cons in H as [-> H]. destruct (IH _ H) as [t ->]. now exists t.
Qed.

Lemma prefix_shorten (p u v : string) :
  String.prefix p (u +:+ v) = true -> String.length p <= String.length u ->
  String.prefix p u = true.
Proof.
  revert u. induction p as [|c p IH]; intros u H Hlen.
  - now destruct u.
  - destruct u as [|b u]; [simpl in Hlen; lia|].
    rewrite append_cons in H. apply prefix_cons in H as [-> H].
    apply prefix_cons. split; [reflexivity|]. apply IH; [exact H | simpl in Hlen; lia].
Qed.

Lemma prefix_lengthen (p u v : string) :
  String.prefix p u = true -> String.prefix p (u +:+ v) = true.
Proof.
  intros H. destruct (prefix_inv _ _ H) as [t ->]. rewrite append_assoc. apply prefix_app.
Qed.

Lemma contains_cons (p : string) (c : ascii) (s : string) :
  PyStr.contains p (String c s) = String.prefix p (String c s) || PyStr.contains p s.
Proof. reflexivity. Qed.

Lemma contains_prefix (p s : string) : String.prefix p s = true -> PyStr.contains p s = true.
Proof.
  intros H. destruct s; [|now rewrite contains_cons, H].
  change (String.prefix p "" || false = true). now rewrite H.
Qed.

Lemma contains_app_r (p a s : string) :
  PyStr.contains p s = true -> PyStr.contains p (a +:+ s) = true.
Proof.
  intros H. induction a as [|c a IH]; [exact H|].
  rewrite append_cons, contains_cons, IH. apply orb_true_r.
Qed.

Lemma drop_app (a s : string) : PyStr.drop (String.length a) (a +:+ s) = s.
Proof. induction a as [|c a IH]; [now destruct s | exact IH]. Qed.

Lemma endswith_app (a p : string) : PyStr.endswith (a +:+ p) p = true.
Proof.
  unfold PyStr.endswith. rewrite length_append.
  replace (String.length a + String.length p - String.length p) with (String.length a) by lia.
  rewrite drop_app, String.eqb_refl, andb_true_r. apply Nat.leb_le. lia.
Qed.

Lemma endswith_inv (s p : string) :
  PyStr.endswith s p = true -> exists a, s = a +:+ p.
Proof.
  unfold PyStr.endswith. intros H. apply andb_true_iff in H as [_ H].
  apply String.eqb_eq in H. revert H.
  generalize (String.length s - String.length p). intros n. revert s.
  induction n as [|n IH]; intros s H.
  - exists "". simpl in H. now destruct s.
  - destruct s as [|c s]; simpl in H.
    + exists "". now subst.
    + destruct (IH _ H) as [a ->]. now exists (String c a).
Qed.

(** *** [split] *)

Lemma split_go_cons (sep : string) (cur : string) (c : ascii) (s : string) :
  PyStr.split_go sep 0 cur (String c s)
  = if String.prefix sep (String c s)
    then cur :: PyStr.split_go sep (String.length sep - 1) "" s
    else PyStr.split_go sep 0 (cur +:+ String c "") s.
Proof. reflexivity. Qed.

Lemma split_go_nonempty (sep : string) (skip : nat) (cur s : string) :
  PyStr.split_go sep skip cur s <> [].
Proof.
  revert skip cur. induction s as [|c s IH]; intros skip cur; [discriminate|].
  destruct skip; [|apply IH].
  rewrite split_go_cons. destruct (String.prefix _ _); [discriminate | apply IH].
Qed.

Lemma last_cons_split (sep : string) (skip : nat) (cur s x : string) :
  PyStr.last (x :: PyStr.split_go sep skip cur s) = PyStr.last (PyStr.split_go sep skip cur s).
Proof.
  unfold PyStr.last. simpl.
  destruct (PyStr.split_go sep skip cur s) eqn:E; [|reflexivity].
  now apply split_go_nonempty in E.
Qed.

(** The characters of a separator that was found are passed over. *)
Lemma split_go_skip (sep : string) (u cur s : string) :
  PyStr.split_go sep (String.length u) cur (u +:+ s) = PyStr.split_go sep 0 cur s.
Proof. induction u as [|c u IH]; [now destruct s | exact IH]. Qed.

(** Without a separator the text is one piece. *)
Lemma split_go_absent (sep : string) (cur s : string) :
  PyStr.contains sep s = false -> PyStr.split_go sep 0 cur s = [cur +:+ s].
Proof.
  revert cur. induction s as [|c s IH]; intros cur H.
  - simpl. now rewrite append_nil_r.
  - rewrite contains_cons in H. apply orb_false_iff in H as [Hp Hc].
    rewrite split_go_cons, Hp, (IH _ Hc), append_assoc. reflexivity.
Qed.

End StringFacts.

(** ** The folder identifier of a URL *)

Ltac prefix_chars H :=
  repeat rewrite append_cons in H;
  repeat (apply prefix_cons in H as [?E H]; first [discriminate | subst]).

Section FolderId.

Lemma no_straddle_tail (sep : string) (c : ascii) (pre : string) :
  no_straddle sep (String c pre) -> no_straddle sep pre.
Proof. intros H a x ->. apply (H (String c a) x). reflexivity. Qed.

(** The last piece of a split is what follows the last separator. *)
Lemma split_go_last (sep post : string) :
  sep <> "" -> PyStr.contains sep post = false ->
  forall pre skip cur,
    no_straddle sep pre -> skip <= String.length pre ->
    PyStr.last (PyStr.split_go sep skip cur (pre +:+ sep +:+ post)) = post.
Proof.
  intros Hsep Hpost. induction pre as [|c pre IH]; intros skip cur Hns Hskip.
  - simpl in Hskip. assert (skip = 0) as -> by lia. rewrite append_nil_l.
    destruct sep as [|m sep]; [congruence|].
    rewrite append_cons, split_go_cons, <- append_cons, prefix_app.
    rewrite last_cons_split.
    replace (String.length (String m sep) - 1) with (String.length sep) by (simpl; lia).
    rewrite split_go_skip, split_go_absent by exact Hpost. reflexivity.
  - rewrite append_cons. destruct skip as [|skip].
    + rewrite split_go_cons. destruct (String.prefix _ _) eqn:Hp.
      * rewrite last_cons_split. apply IH; [now apply no_straddle_tail in Hns|].
        destruct (Nat.le_gt_cases (String.length sep) (String.length (String c pre)))
          as [Hle|Hgt]; [simpl in Hle; lia|].
        exfalso. rewrite <- append_cons, <- append_assoc in Hp.
        apply prefix_shorten in Hp; [|rewrite length_append; lia].
        rewrite (Hns "" (String c pre)) in Hp; [discriminate|reflexivity|discriminate|exact Hgt].
      * apply IH; [now apply no_straddle_tail in Hns | lia].
    + simpl. apply IH; [now apply no_straddle_tail in Hns | simpl in Hskip; lia].
Qed.

Lemma no_straddle_id (pre : string) : no_straddle "id=" pre.
Proof.
  intros a x _ Hne Hlen.
  destruct (String.prefix "id=" (x +:+ "id=")) eqn:Hp; [exfalso | reflexivity].
  destruct x as [|c1 [|c2 [|c3 x]]]; simpl in Hlen; try lia; try congruence;
    prefix_chars Hp.
Qed.

Lemma no_straddle_folders (pre : string) :
  PyStr.endswith pre "/folders" = false -> no_straddle "/folders/" pre.
Proof.
  intros Hend a x -> Hne Hlen.
  destruct (String.prefix "/folders/" (x +:+ "/folders/")) eqn:Hp; [exfalso | reflexivity].
  destruct x as [|c1 [|c2 [|c3 [|c4 [|c5 [|c6 [|c7 [|c8 [|c9 x]]]]]]]]];
    simpl in Hlen; try lia; try congruence; prefix_chars Hp.
  now rewrite endswith_app in Hend.
Qed.

(** The first piece of a split at one character. *)
Lemma split_go_first (m : ascii) (rest : string) :
  query_tail (String m "") rest ->
  forall F cur,
    PyStr.contains (String m "") F = false ->
    PyStr.first (PyStr.split_go (String m "") 0 cur (F +:+ rest)) = cur +:+ F.
Proof.
  intros Hrest. induction F as [|c F IH]; intros cur HF.
  - rewrite append_nil_l, append_nil_r. destruct Hrest as [->|[r ->]]; [reflexivity|].
    rewrite append_cons, append_nil_l, split_go_cons.
    assert (String.prefix (String m "") (String m r) = true) as ->; [|reflexivity].
    apply prefix_cons. split; [reflexivity | now destruct r].
  - rewrite contains_cons in HF. apply orb_false_iff in HF as [Hp HF].
    rewrite append_cons, split_go_cons.
    assert (String.prefix (String m "") (String c (F +:+ rest)) = false) as ->.
    { destruct (String.prefix (String m "") (String c (F +:+ rest))) eqn:E; [|reflexivity].
      apply prefix_cons in E as [-> _]. rewrite <- Hp. symmetry.
      apply prefix_cons. split; [reflexivity | now destruct F]. }
    rewrite (IH _ HF), append_assoc. reflexivity.
Qed.

End FolderId.

Lemma contains_marker (sep pre post : string) :
  PyStr.contains sep (pre +:+ sep +:+ post) = true.
Proof. apply contains_app_r, contains_prefix, prefix_app. Qed.

Lemma last_split_marker (sep pre post : string) :
  sep <> "" -> PyStr.contains sep post = false -> no_straddle sep pre ->
  PyStr.last (PyStr.split sep (pre +:+ sep +:+ post)) = post.
Proof.
  intros Hsep Hpost Hns. unfold PyStr.split.
  apply split_go_last; [exact Hsep | exact Hpost | exact Hns | lia].
Qed.

Lemma first_split_tail (m : ascii) (F rest : string) :
  query_tail (String m "") rest -> PyStr.contains (String m "") F = false ->
  PyStr.first (PyStr.split (String m "") (F +:+ rest)) = F.
Proof. intros Hrest HF. unfold PyStr.split. now rewrite split_go_first. Qed.

(** C1 (as amended).  [extract_folder_id] returns exactly [F] on an input
    of one of the three shapes when the marker before [F] is the one the
    parser cuts at: for [.../folders/F] followed by nothing or by [?...],
    when [F] has no [?], no [/folders/] occurs in [F] or after it and the
    text before the marker does not end in [/folders]; for [...id=F]
    followed by nothing or by [&...], when the input has no [/folders/],
    [F] has no [&] and no [id=] occurs in [F] or after it; for a bare
    [F], when [F] contains neither [/folders/] nor [id=]. *)
Theorem extract_folder_id_parsed (F url : string) :
  parsed_as F url -> extract_folder_id url = F.
Proof.
  intros [pre rest Hrest HF Hpost Hpre | pre rest Hrest HF Hpost Hno | Hf Hi];
    unfold extract_folder_id.
  - rewrite contains_marker.
    rewrite last_split_marker;
      [| discriminate | exact Hpost | now apply no_straddle_folders].
    now apply first_split_tail.
  - rewrite Hno, contains_marker.
    rewrite last_split_marker; [| discriminate | exact Hpost | apply no_straddle_id].
    now apply first_split_tail.
  - now rewrite Hf, Hi.
Qed.

Lemma extract_folder_id_parsed_witness :
  extract_folder_id "https://drive.google.com/drive/folders/1AbC_d-9?usp=sharing" = "1AbC_d-9"
  /\ extract_folder_id "https://drive.google.com/open?id=1AbC_d-9&authuser=0" = "1AbC_d-9"
  /\ extract_folder_id "1AbC_d-9" = "1AbC_d-9".
Proof.
  split; [|split].
  - apply (extract_folder_id_parsed "1AbC_d-9").
    apply (parsed_folders "1AbC_d-9" "https://drive.google.com/drive" "?usp=sharing");
      [right; exists "usp=sharing"; reflexivity | reflexivity | reflexivity | reflexivity].
  - apply (extract_folder_id_parsed "1AbC_d-9").
    apply (parsed_id "1AbC_d-9" "https://drive.google.com/open?" "&authuser=0");
      [right; exists "authuser=0"; reflexivity | reflexivity | reflexivity | reflexivity].
  - apply (extract_folder_id_parsed "1AbC_d-9").
    apply parsed_bare; reflexivity.
Defined.

(** C1 as stated fails: a later [id=] or [/folders/], or a marker that
    overlaps an earlier one, moves the cut. *)
Lemma extract_folder_id_shapes_counterexample :
  (denotes_folder "1AbC_d-9" "https://drive.google.com/open?id=1AbC_d-9&ouid=42"
   /\ extract_folder_id "https://drive.google.com/open?id=1AbC_d-9&ouid=42" = "42")
  /\ (denotes_folder "1AbC_d-9" "https://drive.google.com/drive/folders/1AbC_d-9?next=/folders/zz"
      /\ extract_folder_id "https://drive.google.com/drive/folders/1AbC_d-9?next=/folders/zz" = "zz")
  /\ (denotes_folder "1AbC_d-9" "https://host/folders/folders/1AbC_d-9"
      /\ extract_folder_id "https://host/folders/folders/1AbC_d-9" = "folders/1AbC_d-9").
Proof.
  split; [|split]; (split; [|reflexivity]).
  - apply (id_shape "1AbC_d-9" "https://drive.google.com/open?" "&ouid=42").
    right. now exists "ouid=42".
  - apply (folders_shape "1AbC_d-9" "https://drive.google.com/drive" "?next=/folders/zz").
    right. now exists "next=/folders/zz".
  - apply (folders_shape "1AbC_d-9" "https://host/folders" "").
    now left.
Qed.

(** ** Facts about the monad *)

Section MonadFacts.

Context {A B : Type}.

Lemma bind_ret (m : M A) (k : A -> M B) (st st' : State) (a : A) :
  m st = (Ret a, st') -> bind m k st = k a st'.
Proof. unfold bind. now intros ->. Qed.

Lemma bind_raise (m : M A) (k : A -> M B) (st st' : State) (e : exn) :
  m st = (Raise e, st') -> bind m k st = (Raise e, st').
Proof. unfold bind. now intros ->. Qed.

Lemma bind_out_of_fuel (m : M A) (k : A -> M B) (st st' : State) :
  m st = (OutOfFuel, st') -> bind m k st = (OutOfFuel, st').
Proof. unfold bind. now intros ->. Qed.

Lemma bind_ret_inv (m : M A) (k : A -> M B) (st st' : State) (b : B) :
  bind m k st = (Ret b, st') ->
  exists a st1, m st = (Ret a, st1) /\ k a st1 = (Ret b, st').
Proof.
  unfold bind. destruct (m st) as [[a|e|] st1]; intros H; try discriminate.
  now exists a, st1.
Qed.

Lemma try_ret_inv (body : M A) (handler : exn -> M A) (st st' : State) (a : A) :
  try_except body handler st = (Ret a, st') ->
  body st = (Ret a, st')
  \/ exists e st1, body st = (Raise e, st1) /\ handler e st1 = (Ret a, st').
Proof.
  unfold try_except. destruct (body st) as [[a'|e|] st1]; intros H; try discriminate.
  - now left.
  - right. now exists e, st1.
Qed.

Lemma try_ret (body : M A) (handler : exn -> M A) (st st' : State) (a : A) :
  body st = (Ret a, st') -> try_except body handler st = (Ret a, st').
Proof. unfold try_except. now intros ->. Qed.

Lemma try_raise (body : M A) (handler : exn -> M A) (st st' : State) (e : exn) :
  body st = (Raise e, st') -> try_except body handler st = handler e st'.
Proof. unfold try_except. now intros ->. Qed.

Lemma try_out_of_fuel (body : M A) (handler : exn -> M A) (st st' : State) :
  body st = (OutOfFuel, st') -> try_except body handler st = (OutOfFuel, st').
Proof. unfold try_except. now intros ->. Qed.

Lemma call_answer (ev : Event) (ans : list Event -> answer A) (st : State) (a : A) :
  ans (trace st) = Answer a -> call ev ans st = (Ret a, log ev st).
Proof. unfold call. now intros ->. Qed.

Lemma call_failure (ev : Event) (ans : list Event -> answer A) (st : State) (e : exn) :
  ans (trace st) = Failure e -> call ev ans st = (Raise e, log ev st).
Proof. unfold call. now intros ->. Qed.

End MonadFacts.

Section Emits.

Context {A B : Type} (P : Event -> Prop).

Lemma emits_ret (a : A) : emits P (ret a).
Proof. intros st. exists []. simpl. now rewrite app_nil_r. Qed.

Lemma emits_raise (e : exn) : emits P (@raise A e).
Proof. intros st. exists []. simpl. now rewrite app_nil_r. Qed.

Lemma emits_out_of_fuel : emits P (@out_of_fuel A).
Proof. intros st. exists []. simpl. now rewrite app_nil_r. Qed.

Lemma emits_call (ev : Event) (ans : list Event -> answer A) :
  P ev -> emits P (call ev ans).
Proof.
  intros HP st. exists [ev]. unfold call.
  destruct (ans (trace st)); simpl; (split; [reflexivity | now constructor]).
Qed.

Lemma emits_print (msg : string) : P (EvPrint msg) -> emits P (print msg).
Proof. intros HP st. exists [EvPrint msg]. simpl. split; [reflexivity | now constructor]. Qed.

Lemma emits_bind (m : M A) (k : A -> M B) :
  emits P m -> (forall a, emits P (k a)) -> emits P (bind m k).
Proof.
  intros Hm Hk st. unfold bind. destruct (Hm st) as (evs & E & HP).
  destruct (m st) as [[a|e|] st1]; simpl in E; [|now exists evs ..].
  destruct (Hk a st1) as (evs' & E' & HP').
  exists (evs ++ evs'). rewrite E', E, app_assoc. split; [reflexivity | now apply Forall_app].
Qed.

Lemma emits_try_except (body : M A) (handler : exn -> M A) :
  emits P body -> (forall e, emits P (handler e)) -> emits P (try_except body handler).
Proof.
  intros Hm Hk st. unfold try_except. destruct (Hm st) as (evs & E & HP).
  destruct (body st) as [[a|e|] st1]; simpl in E; [now exists evs | | now exists evs].
  destruct (Hk e st1) as (evs' & E' & HP').
  exists (evs ++ evs'). rewrite E', E, app_assoc. split; [reflexivity | now apply Forall_app].
Qed.

End Emits.

Lemma emits_for_each {A} (P : Event -> Prop) (l : list A) (f : A -> M unit) :
  (forall x, emits P (f x)) -> emits P (for_each l f).
Proof.
  intros Hf. induction l as [|x l IH]; simpl.
  - apply emits_ret.
  - apply emits_bind; [apply Hf | intros _; exact IH].
Qed.

Lemma emits_fold_each {A B} (P : Event -> Prop) (l : list A) (f : A -> B -> M B) (b : B) :
  (forall x b, emits P (f x b)) -> emits P (fold_each l f b).
Proof.
  intros Hf. revert b. induction l as [|x l IH]; intros b; simpl.
  - apply emits_ret.
  - apply emits_bind; [apply Hf | intros b'; apply IH].
Qed.

Lemma emits_run {A} (P : Event -> Prop) (m : M A) (st st' : State) (r : outcome A) :
  emits P m -> m st = (r, st') -> exists evs, trace st' = trace st ++ evs /\ Forall P evs.
Proof. intros Hm E. specialize (Hm st). now rewrite E in Hm. Qed.


Ltac emits_step :=
  first
    [ apply emits_try_except | apply emits_bind | apply emits_for_each
    | apply emits_fold_each | apply emits_ret | apply emits_raise
    | apply emits_out_of_fuel | apply emits_print | apply emits_call
    | match goal with
      | |- emits _ (if ?c then _ else _) => destruct c
      | |- emits _ (match ?x with _ => _ end) => destruct x
      end
    | progress intros
    | reflexivity ].

Ltac emits_auto := repeat emits_step.

(** ** The download of one file *)

Section Download.

Variable env : Env.
Variable self : Handler.

(** The public path makes no call to the Drive API. *)
Lemma download_file_public_emits (file_id file_name : string) :
  emits (fun ev => is_drive_call ev = false)
        (download_file_public env self file_id file_name).
Proof.
  unfold download_file_public, requests_get, open_wb, write. emits_auto.
Qed.

(** C2.  When the public download raises [e] and there is no session,
    [download_file] raises an exception whose message contains [str(e)]
    and asks for authentication; the history is the one the public
    attempt left, which holds no call to the Drive API. *)
Theorem download_file_requires_session (fuel : nat) (file_id file_name : string)
    (st st' : State) (e : exn) :
  service self = None ->
  download_file_public env self file_id file_name st = (Raise e, st') ->
  let msg := "File requires authentication. Public download failed: "
             +:+ str_of_exn e +:+ nl
             +:+ "Please authenticate with OAuth2 to access private files." in
  download_file env self fuel file_id file_name st = (Raise (Exception msg), st')
  /\ PyStr.contains (str_of_exn e) msg = true
  /\ PyStr.contains "Please authenticate" msg = true
  /\ exists evs, trace st' = trace st ++ evs
                 /\ Forall (fun ev => is_drive_call ev = false) evs.
Proof.
  intros Hnone Hpub msg. split; [|split; [|split]].
  - unfold download_file. rewrite (try_raise _ _ _ _ _ Hpub), Hnone. reflexivity.
  - apply contains_marker.
  - unfold msg.
    change "Please authenticate with OAuth2 to access private files."
      with ("Please authenticate" +:+ " with OAuth2 to access private files.").
    do 2 rewrite <- append_assoc. apply contains_marker.
  - exact (emits_run _ _ _ _ _ (download_file_public_emits file_id file_name) Hpub).
Qed.

End Download.

(** *** The rewritten name *)

Lemma replace_go_skip (old new u s : string) :
  PyStr.replace_go old new (String.length u) (u +:+ s) = PyStr.replace_go old new 0 s.
Proof. induction u as [|c u IH]; [now destruct s | exact IH]. Qed.

Lemma replace_go_cons (old new : string) (c : ascii) (s : string) :
  PyStr.replace_go old new 0 (String c s)
  = if String.prefix old (String c s)
    then new +:+ PyStr.replace_go old new (String.length old - 1) s
    else String c (PyStr.replace_go old new 0 s).
Proof. reflexivity. Qed.

(** A text that ends in [old] is rewritten to one that ends in [new]. *)
Lemma replace_go_last (old new : string) :
  old <> "" ->
  forall pre skip,
    no_straddle old pre -> skip <= String.length pre ->
    exists b, PyStr.replace_go old new skip (pre +:+ old) = b +:+ new.
Proof.
  intros Hold. induction pre as [|c pre IH]; intros skip Hns Hskip.
  - simpl in Hskip. assert (skip = 0) as -> by lia. rewrite append_nil_l.
    destruct old as [|m old]; [congruence|]. exists "".
    rewrite replace_go_cons.
    rewrite <- (append_nil_r (String m old)) at 2. rewrite prefix_app.
    replace (String.length (String m old) - 1) with (String.length old) by (simpl; lia).
    rewrite <- (append_nil_r old) at 3. rewrite replace_go_skip. simpl.
    now rewrite append_nil_r.
  - rewrite append_cons. destruct skip as [|skip].
    + rewrite replace_go_cons. destruct (String.prefix _ _) eqn:Hp.
      * destruct (IH (String.length old - 1)) as [b Hb];
          [now apply no_straddle_tail in Hns | | ].
        -- destruct (Nat.le_gt_cases (String.length old) (String.length (String c pre)))
             as [Hle|Hgt]; [simpl in Hle; lia|].
           exfalso. rewrite <- append_cons in Hp.
           rewrite (Hns "" (String c pre)) in Hp;
             [discriminate | reflexivity | discriminate | exact Hgt].
        -- exists (new +:+ b). now rewrite Hb, append_assoc.
      * destruct (IH 0) as [b Hb]; [now apply no_straddle_tail in Hns | lia |].
        exists (String c b). now rewrite Hb.
    + simpl. apply IH; [now apply no_straddle_tail in Hns | simpl in Hskip; lia].
Qed.

Lemma no_straddle_gdoc (pre : string) : no_straddle ".gdoc" pre.
Proof.
  intros a x _ Hne Hlen.
  destruct (String.prefix ".gdoc" (x +:+ ".gdoc")) eqn:Hp; [exfalso | reflexivity].
  destruct x as [|c1 [|c2 [|c3 [|c4 [|c5 x]]]]]; simpl in Hlen; try lia; try congruence;
    prefix_chars Hp.
Qed.

Lemma replace_gdoc_pdf (name : string) :
  PyStr.endswith name ".gdoc" = true ->
  PyStr.endswith (PyStr.replace ".gdoc" ".pdf" name) ".pdf" = true.
Proof.
  intros H. apply endswith_inv in H as [a ->].
  destruct (replace_go_last ".gdoc" ".pdf") with (pre := a) (skip := 0) as [b Hb];
    [discriminate | apply no_straddle_gdoc | lia |].
  unfold PyStr.replace. rewrite Hb. apply endswith_app.
Qed.

(** A text without [old] is left as it is. *)
Lemma replace_absent (old new s : string) :
  PyStr.contains old s = false -> PyStr.replace old new s = s.
Proof.
  unfold PyStr.replace. induction s as [|c s IH]; intros H; [reflexivity|].
  rewrite contains_cons in H. apply orb_false_iff in H as [Hp Hc].
  now rewrite replace_go_cons, Hp, (IH Hc).
Qed.

Lemma path_join_endswith (a b ext : string) :
  PyStr.endswith b ext = true -> PyStr.endswith (path_join a b) ext = true.
Proof.
  intros H. apply endswith_inv in H as [x ->]. unfold path_join.
  destruct (PyStr.startswith _ _); [apply endswith_app|].
  destruct (_ || _); rewrite <- ?append_assoc; apply endswith_app.
Qed.

(** *** The authenticated path *)

Section NativeDocument.

Variable env : Env.
Variable self : Handler.

Lemma download_chunks_emits (fuel : nat) (rq : MediaRequest) (path : string) :
  emits (fun ev => ev = EvNextChunk rq path) (download_chunks env fuel rq path).
Proof.
  induction fuel as [|fuel IH]; simpl; [apply emits_out_of_fuel|].
  apply emits_bind; [now apply emits_call|].
  intros []; [apply emits_ret | exact IH].
Qed.

(** With enough rounds a download that completes returns. *)
Lemma download_chunks_completes (rq : MediaRequest) (path : string) (n : nat) (h : list Event) :
  completes env rq path n h ->
  forall fuel st, n <= fuel -> trace st = h ->
    exists st', download_chunks env fuel rq path st = (Ret tt, st').
Proof.
  induction 1 as [h Hdone | n h Hmore _ IH]; intros fuel st Hfuel Htr;
    (destruct fuel as [|fuel]; [lia|]); simpl; unfold next_chunk.
  - erewrite bind_ret by (apply call_answer; rewrite Htr; exact Hdone). now eexists.
  - erewrite bind_ret by (apply call_answer; rewrite Htr; exact Hmore).
    apply IH; [lia | simpl; now rewrite Htr].
Qed.

Lemma save_media_trace (fuel : nat) (request : MediaRequest) (file_name : string) (st : State) :
  let target := path_join (temp_dir self) file_name in
  exists evs,
    trace (snd (save_media env self fuel request file_name st)) = trace st ++ EvOpen target :: evs
    /\ Forall (fun ev => ev = EvNextChunk request target \/ exists m, ev = EvPrint m) evs.
Proof.
  intros target. unfold save_media, try_except, bind at 1, open_wb, call. fold target.
  destruct (on_open env (trace st) target) as [[]|e].
  - pose (P := fun ev => ev = EvNextChunk request target \/ exists m, ev = EvPrint m).
    assert (emits P (try_except
                       (download_chunks env fuel request target ;;
                        print ("✅ Downloaded (OAuth): " +:+ file_name) ;; ret target)
                       (download_failed file_name))) as Hem.
    { unfold download_failed. apply emits_try_except; [|intros e].
      - apply emits_bind; [|intros _].
        + intros s. destruct (download_chunks_emits fuel request target s) as (evs & E & HP).
          exists evs. split; [exact E|]. eapply Forall_impl; [exact HP|]. intros ev ->. now left.
        + apply emits_bind; [apply emits_print; right; eauto | intros _; apply emits_ret].
      - apply emits_bind; [apply emits_print; right; eauto | intros _; apply emits_raise]. }
    destruct (Hem (log (EvOpen target) st)) as (evs & E & HP).
    exists evs. split; [|exact HP].
    unfold try_except in E. rewrite E. simpl. now rewrite <- app_assoc.
  - exists [EvPrint ("❌ Error downloading file " +:+ file_name +:+ ": " +:+ str_of_exn e)].
    split; [simpl; now rewrite <- app_assoc | constructor; [right; eauto | constructor]].
Qed.

Lemma save_media_returns (fuel : nat) (request : MediaRequest) (file_name : string) (st : State)
    (p : string) :
  fst (save_media env self fuel request file_name st) = Ret p ->
  p = path_join (temp_dir self) file_name.
Proof.
  destruct (save_media env self fuel request file_name st) as [r st'] eqn:E.
  simpl. intros ->. unfold save_media in E.
  apply try_ret_inv in E as [E | (e & st1 & _ & E)].
  - apply bind_ret_inv in E as (_ & s1 & _ & E).
    apply bind_ret_inv in E as (_ & s2 & _ & E).
    apply bind_ret_inv in E as (_ & s3 & _ & E).
    unfold ret in E. congruence.
  - unfold download_failed in E. apply bind_ret_inv in E as (_ & s1 & _ & E). discriminate.
Qed.

Lemma save_media_completes (fuel n : nat) (request : MediaRequest) (file_name : string)
    (st : State) :
  let target := path_join (temp_dir self) file_name in
  on_open env (trace st) target = Answer tt ->
  completes env request target n (trace st ++ [EvOpen target]) ->
  n <= fuel ->
  fst (save_media env self fuel request file_name st) = Ret target.
Proof.
  intros target Hopen Hdone Hfuel. unfold save_media. fold target.
  destruct (download_chunks_completes _ _ _ _ Hdone fuel (log (EvOpen target) st) Hfuel eq_refl)
    as [st' Hst'].
  erewrite try_ret; [reflexivity|].
  erewrite bind_ret by (apply call_answer; exact Hopen).
  erewrite bind_ret by exact Hst'. reflexivity.
Qed.

(** The first round of the loop requests a chunk. *)
Lemma download_chunks_first (fuel : nat) (rq : MediaRequest) (path : string) (st : State) :
  exists evs,
    trace (snd (download_chunks env (S fuel) rq path st))
    = trace st ++ EvNextChunk rq path :: evs.
Proof.
  simpl. unfold bind, next_chunk, call.
  destruct (on_next_chunk env (trace st) rq path) as [[|]|e].
  - exists []. reflexivity.
  - destruct (download_chunks_emits fuel rq path (log (EvNextChunk rq path) st))
      as (evs & E & _).
    exists evs. rewrite E. simpl. now rewrite <- app_assoc.
  - exists []. reflexivity.
Qed.

(** A download that completes after [n] rounds has requested [n] chunks. *)
Lemma download_chunks_done (rq : MediaRequest) (path : string) (n : nat) (h : list Event) :
  completes env rq path n h ->
  forall fuel st, n <= fuel -> trace st = h ->
    download_chunks env fuel rq path st
    = (Ret tt, mkState (trace st ++ replicate n (EvNextChunk rq path)) (all_files st)).
Proof.
  induction 1 as [h Hdone | n h Hmore _ IH]; intros fuel st Hfuel Htr;
    (destruct fuel as [|fuel]; [lia|]); simpl download_chunks; unfold next_chunk.
  - erewrite bind_ret by (apply call_answer; rewrite Htr; exact Hdone). reflexivity.
  - erewrite bind_ret by (apply call_answer; rewrite Htr; exact Hmore).
    cbv beta iota.
    rewrite (IH fuel (log (EvNextChunk rq path) st)); [|lia | simpl; now rewrite Htr].
    simpl. now rewrite <- app_assoc.
Qed.

(** When the file opens, a chunk of [request] is requested next. *)
Lemma save_media_first_chunk (fuel : nat) (request : MediaRequest) (file_name : string)
    (st : State) :
  let target := path_join (temp_dir self) file_name in
  on_open env (trace st) target = Answer tt ->
  exists evs,
    trace (snd (save_media env self (S fuel) request file_name st))
    = trace st ++ EvOpen target :: EvNextChunk request target :: evs.
Proof.
  intros target Hopen.
  destruct (download_chunks_first fuel request target (log (EvOpen target) st))
    as (evs & E).
  remember (S fuel) as f eqn:Hf. clear Hf.
  unfold save_media. fold target.
  destruct (download_chunks env f request target (log (EvOpen target) st))
    as [[[]|e|] st'] eqn:Hrun; simpl in E.
  - erewrite try_ret.
    2: { erewrite bind_ret by (apply call_answer; exact Hopen).
         erewrite bind_ret by exact Hrun. reflexivity. }
    simpl. rewrite E. rewrite <- !app_assoc. simpl. eexists. reflexivity.
  - erewrite try_raise.
    2: { erewrite bind_ret by (apply call_answer; exact Hopen).
         erewrite bind_raise by exact Hrun. reflexivity. }
    unfold download_failed, bind, print, raise. simpl. rewrite E.
    rewrite <- !app_assoc. simpl. eexists. reflexivity.
  - erewrite try_out_of_fuel.
    2: { erewrite bind_ret by (apply call_answer; exact Hopen).
         erewrite bind_out_of_fuel by exact Hrun. reflexivity. }
    simpl. rewrite E. rewrite <- !app_assoc. simpl. eexists. reflexivity.
Qed.

(** The whole run of a download that completes after [n] rounds. *)
Lemma save_media_done (fuel n : nat) (request : MediaRequest) (file_name : string)
    (st : State) :
  let target := path_join (temp_dir self) file_name in
  on_open env (trace st) target = Answer tt ->
  completes env request target n (trace st ++ [EvOpen target]) ->
  n <= fuel ->
  save_media env self fuel request file_name st
  = (Ret target,
     mkState (trace st ++ EvOpen target
                :: replicate n (EvNextChunk request target)
                ++ [EvPrint ("✅ Downloaded (OAuth): " +:+ file_name)])
             (all_files st)).
Proof.
  intros target Hopen Hdone Hfuel. unfold save_media. fold target.
  apply try_ret.
  erewrite bind_ret by (apply call_answer; exact Hopen).
  erewrite bind_ret
    by (apply (download_chunks_done _ _ _ _ Hdone fuel (log (EvOpen target) st) Hfuel eq_refl)).
  unfold bind, print, ret, log. simpl. rewrite <- !app_assoc. reflexivity.
Qed.

(** The authenticated path, once the public one has raised and the
    metadata are there. *)
Lemma download_file_chosen (fuel : nat) (file_id file_name : string) (st st1 : State)
    (e : exn) (svc : Service) (mime : string) (request : MediaRequest) (name' : string) :
  service self = Some svc ->
  download_file_public env self file_id file_name st = (Raise e, st1) ->
  on_files_get env (trace st1) file_id = Answer mime ->
  (if PyStr.startswith mime "application/vnd.google-apps" then
     PyStr.contains "document" mime = true
     /\ request = export_media file_id "application/pdf"
     /\ name' = PyStr.replace ".gdoc" ".pdf" file_name
   else request = get_media file_id /\ name' = file_name) ->
  download_file env self fuel file_id file_name st
  = save_media env self fuel request name' (log (EvFilesGet file_id) st1).
Proof.
  intros Hsvc Hpub Hget Hchoice. unfold download_file.
  rewrite (try_raise _ _ _ _ _ Hpub), Hsvc.
  erewrite (bind_ret _ _ _ (log (EvFilesGet file_id) st1) (request, name')); [reflexivity|].
  apply try_ret. erewrite bind_ret by (apply call_answer; exact Hget).
  destruct (PyStr.startswith _ _).
  - destruct Hchoice as (-> & -> & ->). reflexivity.
  - destruct Hchoice as (-> & ->). reflexivity.
Qed.

(** C5 (as amended).  On the authenticated path, for a file whose MIME
    type starts with [application/vnd.google-apps]: if the type contains
    [document], the file is saved under the requested name with each
    [.gdoc] replaced by [.pdf], which ends in [.pdf] when the requested
    name ends in [.gdoc] and is the requested name itself when it holds no
    [.gdoc]; the file is opened under that name, once it is open a chunk
    is requested from a PDF export, every chunk is requested from that
    export, a returned path is that name, and a download that completes
    after [n] rounds has requested [n >= 1] chunks of the export and
    returns the path.  Any other type under the prefix raises. *)
Theorem download_file_exports_document (fuel : nat) (file_id file_name : string)
    (st st1 : State) (e : exn) (svc : Service) (mime : string) :
  service self = Some svc ->
  download_file_public env self file_id file_name st = (Raise e, st1) ->
  on_files_get env (trace st1) file_id = Answer mime ->
  PyStr.startswith mime "application/vnd.google-apps" = true ->
  let st2 := log (EvFilesGet file_id) st1 in
  let run := download_file env self fuel file_id file_name st in
  (PyStr.contains "document" mime = true ->
   let request := export_media file_id "application/pdf" in
   let saved_name := PyStr.replace ".gdoc" ".pdf" file_name in
   let target := path_join (temp_dir self) saved_name in
   (PyStr.endswith file_name ".gdoc" = true -> PyStr.endswith target ".pdf" = true)
   /\ (PyStr.contains ".gdoc" file_name = false -> saved_name = file_name)
   /\ (exists evs,
         trace (snd run) = trace st2 ++ EvOpen target :: evs
         /\ Forall (fun ev => ev = EvNextChunk request target \/ exists m, ev = EvPrint m) evs)
   /\ (on_open env (trace st2) target = Answer tt -> 0 < fuel ->
       exists evs,
         trace (snd run) = trace st2 ++ EvOpen target :: EvNextChunk request target :: evs)
   /\ (forall p, fst run = Ret p -> p = target)
   /\ (forall n, on_open env (trace st2) target = Answer tt ->
                 completes env request target n (trace st2 ++ [EvOpen target]) ->
                 n <= fuel ->
                 1 <= n
                 /\ run = (Ret target,
                           mkState (trace st2 ++ EvOpen target
                                      :: replicate n (EvNextChunk request target)
                                      ++ [EvPrint ("✅ Downloaded (OAuth): " +:+ saved_name)])
                                   (all_files st2))))
  /\ (PyStr.contains "document" mime = false ->
      fst run = Raise (Exception ("Unsupported Google Apps type: " +:+ mime))
      /\ trace (snd run)
         = trace st2 ++ [EvPrint ("❌ Error downloading file " +:+ file_name
                                   +:+ ": Unsupported Google Apps type: " +:+ mime)]).
Proof.
  intros Hsvc Hpub Hget Hnative st2 run. split.
  - intros Hdoc request saved_name target.
    assert (run = save_media env self fuel request saved_name st2) as ->.
    { apply (download_file_chosen _ _ _ _ _ _ _ _ _ _ Hsvc Hpub Hget).
      rewrite Hnative. auto. }
    split; [|split; [|split; [|split; [|split]]]].
    + intros Hgdoc. apply path_join_endswith, replace_gdoc_pdf, Hgdoc.
    + apply replace_absent.
    + apply save_media_trace.
    + intros Hopen Hfuel. destruct fuel as [|fuel']; [lia|].
      now apply save_media_first_chunk.
    + apply save_media_returns.
    + intros n Hopen Hdone Hfuel. split.
      * destruct Hdone; lia.
      * now apply save_media_done.
  - intros Hdoc.
    assert (run = (Raise (Exception ("Unsupported Google Apps type: " +:+ mime)),
                   log (EvPrint ("❌ Error downloading file " +:+ file_name
                                 +:+ ": Unsupported Google Apps type: " +:+ mime)) st2))
      as ->; [|now split].
    unfold run, download_file. rewrite (try_raise _ _ _ _ _ Hpub), Hsvc.
    apply bind_raise. erewrite try_raise.
    2: { unfold files_get. erewrite bind_ret by (apply call_answer; exact Hget).
         now rewrite Hnative, Hdoc. }
    reflexivity.
Qed.

End NativeDocument.

(** ** The download of a folder *)

Section DownloadFolder.

Variable env : Env.
Variable self : Handler.
Variable fuel : nat.

Lemma download_runs_length (files : list FileRecord) (st : State) :
  length (download_runs env self fuel files st) = length files.
Proof. revert st. induction files as [|f files IH]; intros st; simpl; [reflexivity | now rewrite IH]. Qed.

(** One round of the loop: a download that returns adds a record, one that
    raises adds none, and the loop goes on in both cases. *)
Lemma download_into_run (file_info : FileRecord) (acc : list DownloadResult) (st : State) :
  fst (download_file env self fuel (fr_id file_info) (fr_name file_info) st) <> OutOfFuel ->
  download_into env self fuel file_info acc st
  = (Ret (acc ++ downloaded [file_info]
                   [fst (download_file env self fuel (fr_id file_info) (fr_name file_info) st)]),
     snd (download_into env self fuel file_info [] st)).
Proof.
  unfold download_into, try_except, bind.
  destruct (download_file env self fuel (fr_id file_info) (fr_name file_info) st)
    as [[p|e|] st1]; simpl; intros H; [reflexivity | | congruence].
  now rewrite app_nil_r.
Qed.

Lemma download_loop (files : list FileRecord) :
  forall (acc : list DownloadResult) (st : State),
    Forall (fun r => r <> OutOfFuel) (download_runs env self fuel files st) ->
    exists st',
      fold_each files (download_into env self fuel) acc st
      = (Ret (acc ++ downloaded files (download_runs env self fuel files st)), st').
Proof.
  induction files as [|f files IH]; intros acc st Hruns.
  - exists st. simpl. now rewrite app_nil_r.
  - simpl in Hruns. apply Forall_cons in Hruns as [Hf Hruns].
    simpl fold_each. rewrite (bind_ret _ _ _ _ _ (download_into_run f acc st Hf)).
    destruct (IH (acc ++ downloaded [f] [fst (download_file env self fuel (fr_id f) (fr_name f) st)])
                 _ Hruns) as [st' ->].
    exists st'. f_equal. f_equal. rewrite <- app_assoc. f_equal.
    simpl. now destruct (fst (download_file env self fuel (fr_id f) (fr_name f) st)).
Qed.

End DownloadFolder.

(** When every run returns, every file is kept. *)
Lemma downloaded_all (files : list FileRecord) :
  forall runs,
    (forall j, j < length files -> exists p, runs !! j = Some (Ret p)) ->
    map dr_file_info (downloaded files runs) = files.
Proof.
  induction files as [|f files IH]; intros runs Hall; [reflexivity|].
  destruct (Hall 0) as [p Hp]; [simpl; lia|].
  destruct runs as [|r runs]; [discriminate|]. simpl in Hp. injection Hp as ->.
  simpl. f_equal. apply IH. intros j Hj. apply (Hall (S j)). simpl. lia.
Qed.

(** When one run raises and the others return, that file alone is left out. *)
Lemma downloaded_but_one (files : list FileRecord) :
  forall runs k e,
    runs !! k = Some (Raise e) ->
    (forall j, j <> k -> j < length files -> exists p, runs !! j = Some (Ret p)) ->
    k < length files ->
    map dr_file_info (downloaded files runs) = delete k files.
Proof.
  induction files as [|f files IH]; intros runs k e Hk Hothers Hlen; [simpl in Hlen; lia|].
  destruct runs as [|r runs]; [now destruct k|].
  destruct k as [|k].
  - simpl in Hk. injection Hk as ->. simpl. apply downloaded_all.
    intros j Hj. apply (Hothers (S j)); [lia | simpl; lia].
  - destruct (Hothers 0) as [p Hp]; [lia | simpl; lia |].
    simpl in Hp. injection Hp as ->. simpl. f_equal.
    apply (IH runs k e Hk); [|simpl in Hlen; lia].
    intros j Hj Hjl. apply (Hothers (S j)); [lia | simpl; lia].
Qed.

(** C3.  When the listing yields [files] and, of the downloads the loop
    makes, the one of index [k] raises and all others return,
    [download_folder] returns, and returns one record for each file but
    the one of index [k], in order, with the path its download returned:
    [length files - 1] records. *)
Theorem download_folder_skips_failure (env : Env) (self : Handler) (fuel : nat)
    (folder_url : string) (recursive : bool) (st st0 : State)
    (files : list FileRecord) (k : nat) (e : exn) :
  (if recursive then list_folder_recursive env self fuel folder_url None
   else list_folder_files env self folder_url None) st = (Ret files, st0) ->
  let runs := download_runs env self fuel files st0 in
  runs !! k = Some (Raise e) ->
  (forall j, j <> k -> j < length files -> exists p, runs !! j = Some (Ret p)) ->
  exists st',
    download_folder env self fuel folder_url recursive st = (Ret (downloaded files runs), st')
    /\ length (downloaded files runs) = length files - 1
    /\ map dr_file_info (downloaded files runs) = delete k files.
Proof.
  intros Hlist runs Hk Hothers.
  assert (k < length files) as Hlen.
  { rewrite <- (download_runs_length env self fuel files st0). now apply lookup_lt_Some in Hk. }
  assert (Forall (fun r => r <> OutOfFuel) runs) as Hruns.
  { apply Forall_lookup. intros j r Hj. destruct (decide (j = k)) as [->|Hne].
    - rewrite Hk in Hj. now injection Hj as <-.
    - destruct (Hothers j Hne) as [p Hp].
      + rewrite <- (download_runs_length env self fuel files st0). now apply lookup_lt_Some in Hj.
      + fold runs in Hj. rewrite Hp in Hj. now injection Hj as <-. }
  destruct (download_loop env self fuel files [] st0 Hruns) as [st' Hloop].
  pose proof (downloaded_but_one files runs k e Hk Hothers Hlen) as Hmap.
  exists st'. split; [|split].
  - unfold download_folder. now rewrite (bind_ret _ _ _ _ _ Hlist), Hloop.
  - rewrite <- (length_map dr_file_info), Hmap, length_delete; [reflexivity|].
    now apply lookup_lt_is_Some_2.
  - exact Hmap.
Qed.

(** ** The public listing *)

Lemma fold_each_invariant {A B} (Q : B -> Prop) (f : A -> B -> M B) :
  (forall x b st b' st', Q b -> f x b st = (Ret b', st') -> Q b') ->
  forall l b st b' st', Q b -> fold_each l f b st = (Ret b', st') -> Q b'.
Proof.
  intros Hf. induction l as [|x l IH]; intros b st b' st' Hb H.
  - injection H as <- _. exact Hb.
  - simpl in H. apply bind_ret_inv in H as (b1 & st1 & H1 & H).
    exact (IH _ _ _ _ (Hf _ _ _ _ _ Hb H1) H).
Qed.

Section PublicListing.

Variable env : Env.

Lemma allowed_extensions_pdf : allowed_extensions ["application/pdf"] = [".pdf"].
Proof. reflexivity. Qed.

(** A round of the loop over the candidates keeps or extends the list; a
    record it adds has a name with an allowed extension. *)
Lemma scan_candidate_adds (folder_id : string) (allowed : list string) (file_id : string)
    (files files' : list FileRecord) (st st' : State) :
  scan_candidate env folder_id allowed file_id files st = (Ret files', st') ->
  files' = files
  \/ exists f, files' = files ++ [f] /\ extension_allowed allowed (fr_name f) = true.
Proof.
  unfold scan_candidate. destruct (String.eqb file_id folder_id).
  { intros H. injection H as <- _. now left. }
  intros H. apply try_ret_inv in H as [H | (e & st1 & _ & H)].
  - apply bind_ret_inv in H as (resp & st1 & _ & H).
    destruct (status_code resp =? 200)%Z; [|injection H as <- _; now left].
    destruct (extension_allowed allowed _) eqn:Hext; [|injection H as <- _; now left].
    apply bind_ret_inv in H as (_ & st2 & _ & H). injection H as <- _.
    right. eexists. split; [reflexivity | exact Hext].
  - injection H as <- _. now left.
Qed.

(** A round of the loop makes no request of the last-resort kind. *)
Lemma scan_candidate_emits (folder_id : string) (allowed : list string) (file_id : string)
    (files : list FileRecord) :
  emits (fun ev => is_last_resort ev = false)
        (scan_candidate env folder_id allowed file_id files).
Proof. unfold scan_candidate, requests_get. emits_auto. Qed.

(** The last-resort pass returns nothing and never raises. *)
Lemma last_resort_pass_returns (folder_id : string) (st : State) :
  exists st', last_resort_pass env folder_id st = (Ret tt, st').
Proof.
  unfold last_resort_pass, try_except, bind, requests_get, call.
  destruct (on_get env _ _) as [resp|e]; [|now eexists].
  destruct (status_code resp =? 200)%Z; [|now eexists].
  destruct (re_findall env _ _ _); now eexists.
Qed.

(** What a run of the public listing that returns went through. *)
Lemma list_folder_files_public_ret (folder_url : string) (file_types : option (list string))
    (st st' : State) (files : list FileRecord) :
  list_folder_files_public env folder_url file_types st = (Ret files, st') ->
  let folder_id := extract_folder_id folder_url in
  exists resp st1 st2,
    requests_get env (folder_page_request folder_id) st = (Ret resp, st1)
    /\ fold_each (set_iter env (found_file_ids env (resp_text resp)))
         (scan_candidate env folder_id
            (allowed_extensions (default ["application/pdf"] file_types))) []
         (log (EvPrint ("🔍 Found "
                        +:+ PyStr.of_Z (Z.of_nat (size (found_file_ids env (resp_text resp))))
                        +:+ " potential file IDs")) st1)
       = (Ret files, st2)
    /\ exists st3,
        match files with [] => last_resort_pass env folder_id | _ => ret tt end st2
        = (Ret tt, st3)
        /\ st' = log (EvPrint ("✅ Found " +:+ PyStr.of_Z (Z.of_nat (length files))
                               +:+ " files in public folder")) st3.
Proof.
  intros H folder_id. unfold list_folder_files_public in H. fold folder_id in H.
  apply try_ret_inv in H as [H | (e & st1 & _ & H)].
  2: { apply bind_ret_inv in H as (_ & s & _ & H). discriminate. }
  apply bind_ret_inv in H as (resp & st1 & Hget & H).
  destruct (negb _); [discriminate|].
  apply bind_ret_inv in H as ([] & s1 & Hp & H). injection Hp as <-.
  apply bind_ret_inv in H as (files0 & st2 & Hloop & H).
  apply bind_ret_inv in H as ([] & st3 & Hlast & H).
  apply bind_ret_inv in H as ([] & s4 & Hp & H). injection Hp as <-.
  injection H as <- <-.
  exists resp, st1, st2. split; [exact Hget|]. split; [exact Hloop|].
  exists st3. now split.
Qed.

(** C4.  With the filter [['application/pdf']], which is also the
    default, every record the public listing returns has a name that
    ends in [.pdf] once lowered. *)
Theorem list_folder_files_public_pdf_only (folder_url : string)
    (file_types : option (list string)) (st st' : State) (files : list FileRecord) :
  default ["application/pdf"] file_types = ["application/pdf"] ->
  list_folder_files_public env folder_url file_types st = (Ret files, st') ->
  Forall (fun f => PyStr.endswith (PyStr.lower (fr_name f)) ".pdf" = true) files.
Proof.
  intros Hft H. apply list_folder_files_public_ret in H as (resp & st1 & st2 & _ & Hloop & _).
  rewrite Hft, allowed_extensions_pdf in Hloop.
  revert Hloop. apply fold_each_invariant; [|constructor].
  intros file_id fs s fs' s' Hfs Hstep.
  apply scan_candidate_adds in Hstep as [-> | (f & -> & Hext)]; [exact Hfs|].
  apply Forall_app. split; [exact Hfs|]. constructor; [|constructor].
  unfold extension_allowed in Hext. simpl in Hext. now rewrite orb_false_r in Hext.
Qed.

End PublicListing.

Section PublicListingEmpty.

Variable env : Env.

(** The loop over candidates that are all the folder itself adds nothing
    and makes no call. *)
Lemma scan_only_folder (folder_id : string) (allowed : list string) (ids : list string)
    (files : list FileRecord) (st : State) :
  Forall (fun id => id = folder_id) ids ->
  fold_each ids (scan_candidate env folder_id allowed) files st = (Ret files, st).
Proof.
  induction 1 as [|id ids -> _ IH]; [reflexivity|].
  simpl. unfold scan_candidate at 1. rewrite String.eqb_refl.
  unfold bind, ret. exact IH.
Qed.

(** C6.  When the page of the folder is fetched with status 200 and every
    identifier extracted from it, if any, is the folder's own, the public
    listing returns the empty list; when the page is fetched with another
    status, the public listing raises an exception that says the folder
    is not accessible and gives the status. *)
Theorem list_folder_files_public_no_candidates (folder_url : string)
    (file_types : option (list string)) (st : State) (response : Response) :
  let folder_id := extract_folder_id folder_url in
  on_get env (trace st) (folder_page_request folder_id) = Answer response ->
  (status_code response = 200%Z ->
   faithful_iter env ->
   (forall id, id ∈ found_file_ids env (resp_text response) -> id = folder_id) ->
   fst (list_folder_files_public env folder_url file_types st) = Ret [])
  /\ (status_code response <> 200%Z ->
      fst (list_folder_files_public env folder_url file_types st)
      = Raise (Exception ("Folder is not publicly accessible or error occurred: "
                          +:+ "Cannot access folder. Status: "
                          +:+ PyStr.of_Z (status_code response)))).
Proof.
  intros folder_id Hget. split.
  - intros H200 Hiter Hids.
    assert (exists st', list_folder_files_public env folder_url file_types st = (Ret [], st'))
      as [st' ->]; [|reflexivity].
    unfold list_folder_files_public. fold folder_id.
    assert (Forall (fun id => id = folder_id)
                   (set_iter env (found_file_ids env (resp_text response)))) as Hall.
    { apply Forall_forall. intros id Hin. apply Hids.
      rewrite (Hiter _) in Hin. now apply elem_of_elements in Hin. }
    destruct (last_resort_pass_returns env folder_id
                (log (EvPrint ("🔍 Found "
                        +:+ PyStr.of_Z (Z.of_nat (size (found_file_ids env (resp_text response))))
                        +:+ " potential file IDs"))
                   (log (EvGet (folder_page_request folder_id)) st))) as [st3 Hlast].
    unfold requests_get. eexists. apply try_ret.
    erewrite bind_ret by (apply call_answer; exact Hget).
    rewrite H200, Z.eqb_refl. cbv beta iota delta [negb].
    erewrite bind_ret by reflexivity.
    erewrite bind_ret by (apply scan_only_folder; exact Hall).
    erewrite bind_ret by exact Hlast.
    reflexivity.
  - intros Hnot. unfold list_folder_files_public. fold folder_id.
    unfold requests_get. erewrite try_raise.
    2: { erewrite bind_ret by (apply call_answer; exact Hget).
         apply Z.eqb_neq in Hnot. rewrite Hnot. reflexivity. }
    reflexivity.
Qed.

End PublicListingEmpty.

(** *** The last-resort pass *)

Lemma call_state {A} (ev : Event) (ans : list Event -> answer A) (st st' : State)
    (r : outcome A) :
  call ev ans st = (r, st') -> st' = log ev st.
Proof. unfold call. destruct (ans (trace st)); intros H; now injection H as _ <-. Qed.

Lemma fold_left_ext {A B} (f g : A -> B -> A) (l : list B) (a : A) :
  (forall a b, f a b = g a b) -> fold_left f l a = fold_left g l a.
Proof.
  intros H. revert a. induction l as [|b l IH]; intros a; simpl; [reflexivity|].
  now rewrite H, IH.
Qed.

Lemma fold_each_ext {A B} (f g : A -> B -> M B) (l : list A) (b : B) (st : State) :
  (forall x b st, f x b st = g x b st) -> fold_each l f b st = fold_each l g b st.
Proof.
  intros H. revert b st. induction l as [|x l IH]; intros b st; simpl; [reflexivity|].
  unfold bind. rewrite H. destruct (g x b st) as [[b'|e|] st']; [apply IH | reflexivity ..].
Qed.

(** Runs that agree on what they return or raise, whatever their histories. *)
Lemma bind_fst {A B} (m1 m2 : M A) (k1 k2 : A -> M B) (st : State) :
  fst (m1 st) = fst (m2 st) ->
  (forall a s1 s2, fst (k1 a s1) = fst (k2 a s2)) ->
  fst (bind m1 k1 st) = fst (bind m2 k2 st).
Proof.
  unfold bind. destruct (m1 st) as [[a|e|] s1], (m2 st) as [[a'|e'|] s2]; simpl;
    intros E Hk; try discriminate; try reflexivity;
    injection E as ->; first [apply Hk | reflexivity].
Qed.

Lemma bind_fst_same {A B} (m1 m2 : M A) (k1 k2 : A -> M B) (st : State) :
  m1 st = m2 st ->
  (forall a s, fst (k1 a s) = fst (k2 a s)) ->
  fst (bind m1 k1 st) = fst (bind m2 k2 st).
Proof.
  unfold bind. intros ->. destruct (m2 st) as [[a|e|] s]; intros Hk; [apply Hk | reflexivity ..].
Qed.

Lemma try_except_fst {A} (b1 b2 : M A) (h1 h2 : exn -> M A) (st : State) :
  fst (b1 st) = fst (b2 st) ->
  (forall e s1 s2, fst (h1 e s1) = fst (h2 e s2)) ->
  fst (try_except b1 h1 st) = fst (try_except b2 h2 st).
Proof.
  unfold try_except. destruct (b1 st) as [[a|e|] s1], (b2 st) as [[a'|e'|] s2]; simpl;
    intros E Hh; try discriminate; try reflexivity; try exact E.
  injection E as ->. apply Hh.
Qed.

Section LastResort.

Variables env1 env2 : Env.
Hypothesis Hsame : same_but_last_resort env1 env2.

Ltac other_pattern := apply String.eqb_neq; reflexivity.

Lemma found_file_ids_same (html : string) :
  found_file_ids env1 html = found_file_ids env2 html.
Proof.
  unfold found_file_ids, file_link_patterns, add_link_matches. simpl fold_left at 2 4.
  rewrite !(same_findall _ _ Hsame) by other_pattern.
  rewrite (same_findall2 _ _ Hsame).
  apply fold_left_ext. intros found script.
  now rewrite (same_findall _ _ Hsame) by other_pattern.
Qed.

Lemma derive_filename_same (text file_id : string) :
  derive_filename env1 text file_id = derive_filename env2 text file_id.
Proof. unfold derive_filename. now rewrite !(same_search _ _ Hsame). Qed.

Lemma scan_candidate_same (folder_id : string) (allowed : list string) (file_id : string)
    (files : list FileRecord) (st : State) :
  scan_candidate env1 folder_id allowed file_id files st
  = scan_candidate env2 folder_id allowed file_id files st.
Proof.
  unfold scan_candidate. destruct (String.eqb file_id folder_id); [reflexivity|].
  unfold try_except, bind, requests_get, call.
  rewrite (same_get _ _ Hsame) by (simpl; lia).
  destruct (on_get env2 _ _) as [resp|e]; [|reflexivity].
  now rewrite derive_filename_same.
Qed.

Lemma list_folder_files_public_same (folder_url : string) (file_types : option (list string))
    (st : State) :
  fst (list_folder_files_public env1 folder_url file_types st)
  = fst (list_folder_files_public env2 folder_url file_types st).
Proof.
  unfold list_folder_files_public.
  set (folder_id := extract_folder_id folder_url).
  set (allowed := allowed_extensions (default ["application/pdf"] file_types)).
  apply try_except_fst; [|reflexivity].
  apply bind_fst_same.
  { unfold requests_get, call. now rewrite (same_get _ _ Hsame) by (simpl; lia). }
  intros response st1. destruct (negb _); [reflexivity|].
  rewrite found_file_ids_same, (same_iter _ _ Hsame).
  apply bind_fst_same; [reflexivity|]. intros _ st1'.
  apply bind_fst_same; [apply fold_each_ext, scan_candidate_same|]. intros files st2.
  apply bind_fst; [|reflexivity].
  destruct files as [|f files]; [|reflexivity].
  destruct (last_resort_pass_returns env1 folder_id st2) as [s1 ->].
  destruct (last_resort_pass_returns env2 folder_id st2) as [s2 ->].
  reflexivity.
Qed.

End LastResort.

(** C9.  A run of the public listing that returns a non-empty list makes
    no request of the last-resort pass; and two runs that can differ only
    in what the last-resort pass is answered and finds return the same
    list, or raise the same exception. *)
Theorem last_resort_pass_adds_nothing (env1 env2 : Env) (folder_url : string)
    (file_types : option (list string)) (st : State) :
  (forall st' files,
      list_folder_files_public env1 folder_url file_types st = (Ret files, st') ->
      files <> [] ->
      exists evs, trace st' = trace st ++ evs
                  /\ Forall (fun ev => is_last_resort ev = false) evs)
  /\ (same_but_last_resort env1 env2 ->
      fst (list_folder_files_public env1 folder_url file_types st)
      = fst (list_folder_files_public env2 folder_url file_types st)).
Proof.
  split; [|intros Hsame; now apply list_folder_files_public_same].
  intros st' files H Hne.
  apply list_folder_files_public_ret in H as (resp & st1 & st2 & Hget & Hloop & st3 & Hlast & ->).
  unfold requests_get in Hget. apply call_state in Hget as ->.
  destruct (emits_run _ _ _ _ _
              (emits_fold_each (fun ev => is_last_resort ev = false) _ _ []
                 (fun x b => scan_candidate_emits env1 _ _ x b)) Hloop) as (evs & E & HP).
  destruct files as [|f files]; [congruence|]. injection Hlast as <-.
  eexists. split.
  - simpl. rewrite E. simpl. rewrite <- !app_assoc. reflexivity.
  - simpl. repeat constructor. apply Forall_app. split; [exact HP | repeat constructor].
Qed.

(** ** The recursive listing *)






Section Recursive.

Variable env : Env.

Lemma files_list_answer (folder_id : string) (st : State) (items : option (list Item)) :
  on_files_list env (trace st) (list_query folder_id) list_fields 1000 = Answer items ->
  files_list env (list_query folder_id) list_fields 1000 st
  = (Ret (default [] items), log (list_call folder_id) st).
Proof.
  intros H. unfold files_list.
  now erewrite bind_ret by (apply call_answer; exact H).
Qed.


Lemma recurse_folder_S (fuel : nat) (file_types : option (list string))
    (folder_id path : string) :
  _recurse_folder env (S fuel) file_types folder_id path
  = try_except
      (items <- files_list env (list_query folder_id) list_fields 1000 ;;
       for_each items (visit_item (_recurse_folder env fuel file_types) file_types path))
      (fun e => print ("Error processing folder " +:+ folder_id +:+ ": " +:+ str_of_exn e)).
Proof. reflexivity. Qed.




End Recursive.

Lemma for_each_ext {A} (f g : A -> M unit) (l : list A) (st : State) :
  (forall x st, f x st = g x st) -> for_each l f st = for_each l g st.
Proof.
  intros H. revert st. induction l as [|x l IH]; intros st; simpl; [reflexivity|].
  unfold bind. rewrite H. destruct (g x st) as [[[]|e|] st']; [apply IH | reflexivity ..].
Qed.

Section Listings.

Variable env : Env.

(** The loop of a frame over items none of which is a folder appends the
    selected ones, in order. *)
Lemma for_each_files (recurse : string -> string -> M unit)
    (file_types : option (list string)) (path : string) (items : list Item) :
  Forall (fun item => item_mimeType item <> folder_mime) items ->
  forall st,
    for_each items (visit_item recurse file_types path) st
    = (Ret tt,
       mkState (trace st)
               (all_files st
                ++ map (tree_record path)
                       (List.filter (fun item => type_selected file_types (item_mimeType item))
                                    items))).
Proof.
  induction 1 as [|item items Hitem _ IH]; intros st.
  - simpl. rewrite app_nil_r. now destruct st.
  - simpl for_each. unfold bind, visit_item at 1.
    apply String.eqb_neq in Hitem. rewrite Hitem. simpl List.filter.
    destruct (type_selected file_types (item_mimeType item)).
    + unfold append_file, bind, get_all_files, set_all_files. rewrite IH. simpl.
      now rewrite <- app_assoc.
    + unfold ret. now rewrite IH.
Qed.

Lemma recurse_folder_files (fuel : nat) (file_types : option (list string))
    (folder_id path : string) (st : State) (items : option (list Item)) :
  on_files_list env (trace st) (list_query folder_id) list_fields 1000 = Answer items ->
  Forall (fun item => item_mimeType item <> folder_mime) (default [] items) ->
  _recurse_folder env (S fuel) file_types folder_id path st
  = (Ret tt,
     mkState (trace st ++ [list_call folder_id])
             (all_files st
              ++ map (tree_record path)
                     (List.filter (fun item => type_selected file_types (item_mimeType item))
                                  (default [] items)))).
Proof.
  intros Hlist Hfiles. simpl. apply try_ret.
  erewrite bind_ret by (apply files_list_answer; exact Hlist).
  now rewrite for_each_files.
Qed.

Lemma recurse_folder_empty_filter (fuel : nat) :
  forall folder_id path st,
    _recurse_folder env fuel (Some []) folder_id path st
    = _recurse_folder env fuel None folder_id path st.
Proof.
  induction fuel as [|fuel IH]; intros folder_id path st; [reflexivity|].
  simpl. unfold try_except, bind.
  destruct (files_list env _ _ _ st) as [[items|e|] st1]; [|reflexivity..].
  rewrite (for_each_ext _ (visit_item (_recurse_folder env fuel None) None path));
    [reflexivity|].
  intros item s. unfold visit_item. destruct (String.eqb _ _); [apply IH | reflexivity].
Qed.

(** C7 (as amended).  When the folder holds one subfolder and nothing
    else, and the subfolder holds one file, of a selected type, and
    nothing else, the recursive listing returns exactly one record, that
    of the file; its [path] is the name of the subfolder, [/] and the
    name of the file when the name of the subfolder is not empty, and the
    name of the file alone when it is empty. *)
Theorem list_folder_recursive_one_subfolder (self : Handler) (svc : Service) (fuel : nat)
    (folder_url : string) (file_types : option (list string)) (st : State)
    (sub file : Item) :
  let root := extract_folder_id folder_url in
  service self = Some svc ->
  on_files_list env (trace st) (list_query root) list_fields 1000 = Answer (Some [sub]) ->
  item_mimeType sub = folder_mime ->
  on_files_list env (trace st ++ [list_call root]) (list_query (item_id sub)) list_fields 1000
  = Answer (Some [file]) ->
  item_mimeType file <> folder_mime ->
  type_selected file_types (item_mimeType file) = true ->
  fst (list_folder_recursive env self (S (S fuel)) folder_url file_types st)
  = Ret [tree_record (item_name sub) file]
  /\ fr_path (tree_record (item_name sub) file)
     = Some (if String.eqb (item_name sub) "" then item_name file
             else item_name sub +:+ "/" +:+ item_name file).
Proof.
  intros root Hsvc Hroot Hsub Hlist Hfile Hsel. split; [|reflexivity].
  unfold list_folder_recursive. rewrite Hsvc. fold root.
  unfold bind at 1, set_all_files.
  assert (_recurse_folder env (S (S fuel)) file_types root "" (mkState (trace st) [])
          = (Ret tt, mkState ((trace st ++ [list_call root]) ++ [list_call (item_id sub)])
                             [tree_record (item_name sub) file])) as Hrun.
  { rewrite recurse_folder_S. apply try_ret.
    erewrite bind_ret by (apply files_list_answer; exact Hroot).
    change (default [] (Some [sub])) with [sub].
    change (for_each [sub] ?f ?s) with (bind (f sub) (fun _ => ret tt) s).
    unfold visit_item at 1. rewrite Hsub, String.eqb_refl.
    erewrite bind_ret; [reflexivity|].
    erewrite recurse_folder_files; [| exact Hlist | repeat constructor; exact Hfile].
    change (default [] (Some [file])) with [file].
    cbn [List.filter]. rewrite Hsel. reflexivity. }
  now rewrite (bind_ret _ _ _ _ _ Hrun).
Qed.

Lemma fold_left_unfiltered (items : list Item) (acc : list FileRecord) :
  fold_left
    (fun files item =>
       if type_selected (Some []) (item_mimeType item) then files ++ [flat_record item]
       else files)
    items acc
  = acc ++ map flat_record items.
Proof.
  revert acc. induction items as [|item items IH]; intros acc; simpl.
  - now rewrite app_nil_r.
  - now rewrite IH, <- app_assoc.
Qed.

(** C10.  With the empty list as the filter, the flat authenticated
    listing returns a record for every item of the answer, folders
    included, and the recursive listing is the one made with no filter:
    it returns a record for every item that is not a folder. *)
Theorem empty_filter_selects_everything (self : Handler) (svc : Service)
    (folder_url : string) (st : State) :
  let root := extract_folder_id folder_url in
  service self = Some svc ->
  (forall e st1 items,
      list_folder_files_public env folder_url (Some []) st = (Raise e, st1) ->
      on_files_list env (trace st1) (list_query root) list_fields 1000 = Answer items ->
      fst (list_folder_files env self folder_url (Some []) st)
      = Ret (map flat_record (default [] items)))
  /\ (forall fuel,
         list_folder_recursive env self fuel folder_url (Some []) st
         = list_folder_recursive env self fuel folder_url None st)
  /\ (forall fuel items,
         on_files_list env (trace st) (list_query root) list_fields 1000 = Answer items ->
         Forall (fun item => item_mimeType item <> folder_mime) (default [] items) ->
         fst (list_folder_recursive env self (S fuel) folder_url (Some []) st)
         = Ret (map (tree_record "") (default [] items))).
Proof.
  intros root Hsvc. split; [|split].
  - intros e st1 items Hpub Hlist. unfold list_folder_files.
    rewrite (try_raise _ _ _ _ _ Hpub), Hsvc. fold root.
    erewrite try_ret; [reflexivity|].
    erewrite bind_ret by (apply files_list_answer; exact Hlist).
    cbn [default]. rewrite fold_left_unfiltered. reflexivity.
  - intros fuel. unfold list_folder_recursive. rewrite Hsvc.
    unfold bind at 1 4, set_all_files. unfold bind at 1 4.
    now rewrite recurse_folder_empty_filter.
  - intros fuel items Hlist Hfiles. unfold list_folder_recursive. rewrite Hsvc. fold root.
    unfold bind at 1, set_all_files.
    erewrite bind_ret.
    2: { apply recurse_folder_files; [exact Hlist | exact Hfiles]. }
    cbn. f_equal. f_equal. clear. induction (default [] items) as [|i l IH]; [reflexivity|].
    simpl. now rewrite IH.
Qed.

End Listings.

(** ** Runs in the sample world *)

Example sample_public_listing :
  fst (list_folder_files_public Sample.env "shared" None Sample.start)
  = Ret [mkFileRecord "f1" "Report.PDF" "application/pdf" (SizeInt 0) None None].
Proof. vm_compute. reflexivity. Qed.

Example sample_empty_listing :
  fst (list_folder_files_public Sample.env "empty1" None Sample.start) = Ret [].
Proof. vm_compute. reflexivity. Qed.

Example sample_recursive_listing :
  fst (list_folder_recursive Sample.env Sample.signed_in 2 "root" None Sample.start)
  = Ret [mkFileRecord "f1" "a.pdf" "application/pdf" (SizeStr "1024")
           (Some "2024-01-01T00:00:00Z") (Some "Reports/a.pdf")].
Proof. vm_compute. reflexivity. Qed.

Example sample_download :
  fst (download_file Sample.env Sample.signed_in 2 "good1" "a.pdf" Sample.start) = Ret "/tmp/a.pdf".
Proof. vm_compute. reflexivity. Qed.

Example sample_download_document :
  fst (download_file Sample.env Sample.signed_in 2 "bad-doc" "notes.gdoc" Sample.start)
  = Ret "/tmp/notes.pdf".
Proof. vm_compute. reflexivity. Qed.

Example sample_download_folder :
  map dr_local_path
      (match fst (download_folder Sample.env Sample.signed_in 2 "batch" true Sample.start) with
       | Ret l => l
       | _ => []
       end)
  = ["/tmp/a.pdf"; "/tmp/c.pdf"].
Proof. vm_compute. reflexivity. Qed.

(** ** The theorems at work in the sample world *)

Lemma download_file_requires_session_witness :
  service Sample.anonymous = None
  /\ fst (download_file_public Sample.env Sample.anonymous "bad1" "b.pdf" Sample.start)
     = Raise (Exception "connection refused")
  /\ fst (download_file Sample.env Sample.anonymous 1 "bad1" "b.pdf" Sample.start)
     = Raise (Exception ("File requires authentication. Public download failed: "
                         +:+ "connection refused" +:+ nl
                         +:+ "Please authenticate with OAuth2 to access private files.")).
Proof.
  split; [reflexivity|]. split; [reflexivity|].
  destruct (download_file_requires_session Sample.env Sample.anonymous 1 "bad1" "b.pdf"
              Sample.start
              (snd (download_file_public Sample.env Sample.anonymous "bad1" "b.pdf" Sample.start))
              (Exception "connection refused") eq_refl eq_refl) as [H _].
  rewrite H. reflexivity.
Defined.

Lemma download_folder_skips_failure_witness :
  fst (list_folder_recursive Sample.env Sample.signed_in 2 "batch" None Sample.start)
  = Ret [Sample.pdf_record "good1" "a.pdf"; Sample.pdf_record "bad1" "b.pdf";
         Sample.pdf_record "good2" "c.pdf"]
  /\ fst (download_folder Sample.env Sample.signed_in 2 "batch" true Sample.start)
     = Ret [mkDownloadResult (Sample.pdf_record "good1" "a.pdf") "/tmp/a.pdf";
            mkDownloadResult (Sample.pdf_record "good2" "c.pdf") "/tmp/c.pdf"].
Proof.
  split; [reflexivity|].
  destruct (download_folder_skips_failure Sample.env Sample.signed_in 2 "batch" true
              Sample.start
              (snd (list_folder_recursive Sample.env Sample.signed_in 2 "batch" None Sample.start))
              [Sample.pdf_record "good1" "a.pdf"; Sample.pdf_record "bad1" "b.pdf";
               Sample.pdf_record "good2" "c.pdf"]
              1 (Exception "HttpError 404") eq_refl eq_refl)
    as (st' & Hrun & _).
  - intros j Hne Hlt. destruct j as [|[|[|j]]].
    + exists "/tmp/a.pdf". reflexivity.
    + congruence.
    + exists "/tmp/c.pdf". reflexivity.
    + simpl in Hlt. lia.
  - rewrite Hrun. reflexivity.
Defined.

Lemma download_file_exports_document_witness :
  let st1 := snd (download_file_public Sample.env Sample.signed_in "bad-doc" "notes.gdoc"
                    Sample.start) in
  download_file Sample.env Sample.signed_in 2 "bad-doc" "notes.gdoc" Sample.start
  = (Ret "/tmp/notes.pdf",
     mkState (trace st1
                ++ [EvFilesGet "bad-doc";
                    EvOpen "/tmp/notes.pdf";
                    EvNextChunk (export_media "bad-doc" "application/pdf") "/tmp/notes.pdf";
                    EvNextChunk (export_media "bad-doc" "application/pdf") "/tmp/notes.pdf";
                    EvPrint "✅ Downloaded (OAuth): notes.pdf"]) [])
  /\ fst (download_file Sample.env Sample.signed_in 2 "bad-sheet" "sums.gsheet" Sample.start)
     = Raise (Exception "Unsupported Google Apps type: application/vnd.google-apps.spreadsheet").
Proof.
  split.
  - destruct (download_file_exports_document Sample.env Sample.signed_in 2 "bad-doc"
                "notes.gdoc" Sample.start
                (snd (download_file_public Sample.env Sample.signed_in "bad-doc" "notes.gdoc"
                        Sample.start))
                (Exception "connection refused") DriveV3
                "application/vnd.google-apps.document" eq_refl eq_refl eq_refl eq_refl)
      as [Hdoc _].
    destruct (Hdoc eq_refl) as (_ & _ & _ & _ & _ & Hdone).
    destruct (Hdone 2) as [_ Hrun]; [reflexivity | | lia | rewrite Hrun; reflexivity].
    apply completes_later; [reflexivity|]. apply completes_now. reflexivity.
  - destruct (download_file_exports_document Sample.env Sample.signed_in 2 "bad-sheet"
                "sums.gsheet" Sample.start
                (snd (download_file_public Sample.env Sample.signed_in "bad-sheet" "sums.gsheet"
                        Sample.start))
                (Exception "connection refused") DriveV3
                "application/vnd.google-apps.spreadsheet" eq_refl eq_refl eq_refl eq_refl)
      as [_ Hother].
    destruct (Hother eq_refl) as [H _]. exact H.
Defined.

(** C5 as stated fails: a provider-native document requested under a name
    that holds no [.gdoc] is exported as PDF and saved under that very
    name, which has no [.pdf] extension in any letter case. *)
Lemma download_file_exports_document_counterexample :
  let mime := "application/vnd.google-apps.document" in
  let request := export_media "bad-doc" "application/pdf" in
  let public file_name :=
    download_file_public Sample.env Sample.signed_in "bad-doc" file_name Sample.start in
  let run file_name :=
    download_file Sample.env Sample.signed_in 2 "bad-doc" file_name Sample.start in
  let saved file_name path :=
    (Ret path,
     mkState (trace (snd (public file_name))
                ++ [EvFilesGet "bad-doc"; EvOpen path;
                    EvNextChunk request path; EvNextChunk request path;
                    EvPrint ("✅ Downloaded (OAuth): " +:+ file_name)]) []) in
  service Sample.signed_in = Some DriveV3
  /\ PyStr.startswith mime "application/vnd.google-apps" = true
  /\ PyStr.contains "document" mime = true
  /\ fst (public "Meeting notes") = Raise (Exception "connection refused")
  /\ on_files_get Sample.env (trace (snd (public "Meeting notes"))) "bad-doc" = Answer mime
  /\ run "Meeting notes" = saved "Meeting notes" "/tmp/Meeting notes"
  /\ PyStr.endswith (PyStr.lower "/tmp/Meeting notes") ".pdf" = false
  /\ fst (public "Notes.GDOC") = Raise (Exception "connection refused")
  /\ on_files_get Sample.env (trace (snd (public "Notes.GDOC"))) "bad-doc" = Answer mime
  /\ run "Notes.GDOC" = saved "Notes.GDOC" "/tmp/Notes.GDOC"
  /\ PyStr.endswith (PyStr.lower "/tmp/Notes.GDOC") ".pdf" = false.
Proof. repeat split. Qed.

Lemma list_folder_files_public_pdf_only_witness :
  fst (list_folder_files_public Sample.env "shared" None Sample.start)
  = Ret [mkFileRecord "f1" "Report.PDF" "application/pdf" (SizeInt 0) None None]
  /\ Forall (fun f => PyStr.endswith (PyStr.lower (fr_name f)) ".pdf" = true)
            [mkFileRecord "f1" "Report.PDF" "application/pdf" (SizeInt 0) None None].
Proof.
  split; [reflexivity|].
  apply (list_folder_files_public_pdf_only Sample.env "shared" None Sample.start
           (snd (list_folder_files_public Sample.env "shared" None Sample.start)));
    reflexivity.
Defined.

Lemma list_folder_files_public_no_candidates_witness :
  fst (list_folder_files_public Sample.env "empty1" None Sample.start) = Ret []
  /\ fst (list_folder_files_public Sample.env "private1" None Sample.start)
     = Raise (Exception ("Folder is not publicly accessible or error occurred: "
                         +:+ "Cannot access folder. Status: 403")).
Proof.
  split.
  - destruct (list_folder_files_public_no_candidates Sample.env "empty1" None Sample.start
                (Sample.page "https://drive.google.com/drive/folders/empty1") eq_refl)
      as [H _].
    apply H; [reflexivity | intros s; reflexivity |].
    intros id Hid.
    replace (found_file_ids Sample.env
               (resp_text (Sample.page "https://drive.google.com/drive/folders/empty1")))
      with (∅ : gset string) in Hid by reflexivity.
    now apply not_elem_of_empty in Hid.
  - destruct (list_folder_files_public_no_candidates Sample.env "private1" None Sample.start
                (Sample.page "https://drive.google.com/drive/folders/private1") eq_refl)
      as [_ H].
    apply H. discriminate.
Defined.

Lemma list_folder_recursive_one_subfolder_witness :
  fst (list_folder_recursive Sample.env Sample.signed_in 2 "root" None Sample.start)
  = Ret [tree_record "Reports" (Sample.pdf "f1" "a.pdf")]
  /\ fr_path (tree_record "Reports" (Sample.pdf "f1" "a.pdf")) = Some "Reports/a.pdf".
Proof.
  apply (list_folder_recursive_one_subfolder Sample.env Sample.signed_in DriveV3 0 "root" None
           Sample.start (Sample.folder "sub" "Reports") (Sample.pdf "f1" "a.pdf"));
    try reflexivity.
  discriminate.
Defined.

(** C7 as stated fails when the name of the subfolder is empty: the path
    is the name of the file, with no [/] before it. *)
Lemma list_folder_recursive_path_counterexample :
  let sub := Sample.folder "sub0" "" in
  let file := Sample.pdf "f1" "a.pdf" in
  on_files_list Sample.env [] (list_query "root0") list_fields 1000 = Answer (Some [sub])
  /\ item_mimeType sub = folder_mime
  /\ on_files_list Sample.env [list_call "root0"] (list_query "sub0") list_fields 1000
     = Answer (Some [file])
  /\ item_mimeType file <> folder_mime
  /\ type_selected None (item_mimeType file) = true
  /\ fst (list_folder_recursive Sample.env Sample.signed_in 2 "root0" None Sample.start)
     = Ret [tree_record "" file]
  /\ fr_path (tree_record "" file) = Some "a.pdf"
  /\ fr_path (tree_record "" file) <> Some (item_name sub +:+ "/" +:+ item_name file).
Proof. repeat split; try reflexivity; discriminate. Qed.


Lemma sample_same_but_last_resort : same_but_last_resort Sample.env Sample.env_pdf_refs.
Proof.
  split; try reflexivity.
  intros p fl t Hp. simpl. apply String.eqb_neq in Hp. now rewrite Hp.
Defined.

Lemma last_resort_pass_adds_nothing_witness :
  fst (list_folder_files_public Sample.env "empty1" None Sample.start)
  = fst (list_folder_files_public Sample.env_pdf_refs "empty1" None Sample.start)
  /\ Forall (fun ev => is_last_resort ev = false)
            (trace (snd (list_folder_files_public Sample.env "shared" None Sample.start))).
Proof.
  destruct (last_resort_pass_adds_nothing Sample.env Sample.env_pdf_refs "empty1" None
              Sample.start) as [_ Hsame].
  destruct (last_resort_pass_adds_nothing Sample.env Sample.env_pdf_refs "shared" None
              Sample.start) as [Hnone _].
  split; [exact (Hsame sample_same_but_last_resort)|].
  destruct (Hnone (snd (list_folder_files_public Sample.env "shared" None Sample.start))
              [mkFileRecord "f1" "Report.PDF" "application/pdf" (SizeInt 0) None None]
              eq_refl) as (evs & E & HP); [discriminate|].
  rewrite E. exact HP.
Defined.

Lemma empty_filter_selects_everything_witness :
  fst (list_folder_files Sample.env Sample.signed_in "bad-shared" (Some []) Sample.start)
  = Ret [flat_record (Sample.folder "sub" "Reports"); flat_record (Sample.pdf "f2" "b.pdf")]
  /\ fst (list_folder_recursive Sample.env Sample.signed_in 1 "sub" (Some []) Sample.start)
     = Ret [tree_record "" (Sample.pdf "f1" "a.pdf")].
Proof.
  split.
  - destruct (empty_filter_selects_everything Sample.env Sample.signed_in DriveV3 "bad-shared"
                Sample.start eq_refl) as (Hflat & _ & _).
    apply (Hflat (Exception ("Folder is not publicly accessible or error occurred: "
                             +:+ "connection refused"))
                 (snd (list_folder_files_public Sample.env "bad-shared" (Some []) Sample.start))
                 (Some [Sample.folder "sub" "Reports"; Sample.pdf "f2" "b.pdf"]));
      reflexivity.
  - destruct (empty_filter_selects_everything Sample.env Sample.signed_in DriveV3 "sub"
                Sample.start eq_refl) as (_ & _ & Htree).
    apply (Htree 0 (Some [Sample.pdf "f1" "a.pdf"])); [reflexivity|].
    repeat constructor. discriminate.
Defined.

(** * More about the public listing *)

Lemma fold_each_returns {A B} (f : A -> B -> M B) :
  (forall x b, returns (f x b)) -> forall l b, returns (fold_each l f b).
Proof.
  intros Hf. induction l as [|x l IH]; intros b st; simpl.
  - now exists b, st.
  - destruct (Hf x b st) as (b' & st' & E). rewrite (bind_ret _ _ _ _ _ E). apply IH.
Qed.

Section PublicListingMore.

Variable env : Env.

(** A round of the loop always returns: a failed request is skipped. *)
Lemma scan_candidate_returns (folder_id : string) (allowed : list string) (file_id : string)
    (files : list FileRecord) :
  returns (scan_candidate env folder_id allowed file_id files).
Proof.
  intros st. unfold scan_candidate. destruct (String.eqb file_id folder_id); [now eexists _, _|].
  unfold try_except, bind, requests_get, call.
  destruct (on_get env _ _) as [resp|e]; [|now eexists _, _].
  destruct (status_code resp =? 200)%Z; [|now eexists _, _].
  destruct (extension_allowed _ _); now eexists _, _.
Qed.

(** What a round of the loop adds. *)
Lemma scan_candidate_record (folder_id : string) (allowed : list string) (file_id : string)
    (files files' : list FileRecord) (st st' : State) :
  scan_candidate env folder_id allowed file_id files st = (Ret files', st') ->
  files' = files
  \/ exists filename,
       file_id <> folder_id
       /\ extension_allowed allowed filename = true
       /\ files' = files ++ [scraped_record file_id filename].
Proof.
  unfold scan_candidate. destruct (String.eqb_spec file_id folder_id) as [|Hne].
  { intros H. injection H as <- _. now left. }
  intros H. apply try_ret_inv in H as [H | (e & st1 & _ & H)].
  - apply bind_ret_inv in H as (resp & st1 & _ & H).
    destruct (status_code resp =? 200)%Z; [|injection H as <- _; now left].
    destruct (extension_allowed allowed _) eqn:Hext; [|injection H as <- _; now left].
    apply bind_ret_inv in H as (_ & st2 & _ & H). injection H as <- _.
    right. eexists. split; [exact Hne|]. split; [exact Hext | reflexivity].
  - injection H as <- _. now left.
Qed.

(** What the loop over the candidates [ids] adds to the list. *)
Lemma scan_loop_records (folder_id : string) (allowed : list string) (ids : list string) :
  forall (files files' : list FileRecord) (st st' : State),
    fold_each ids (scan_candidate env folder_id allowed) files st = (Ret files', st') ->
    exists added,
      files' = files ++ added
      /\ map fr_id added `sublist_of` ids
      /\ Forall (fun f => fr_id f <> folder_id
                          /\ extension_allowed allowed (fr_name f) = true
                          /\ f = scraped_record (fr_id f) (fr_name f)) added.
Proof.
  induction ids as [|id ids IH]; intros files files' st st' H.
  - injection H as <- _. exists []. rewrite app_nil_r. repeat split; constructor.
  - simpl in H. apply bind_ret_inv in H as (files1 & st1 & Hstep & H).
    destruct (IH _ _ _ _ H) as (added & -> & Hsub & Hall).
    apply scan_candidate_record in Hstep as [-> | (filename & Hne & Hext & ->)].
    + exists added. split; [reflexivity|]. split; [now apply sublist_cons | exact Hall].
    + exists (scraped_record id filename :: added). rewrite <- app_assoc.
      split; [reflexivity|]. split; [now apply sublist_skip|].
      constructor; [|exact Hall]. repeat split; assumption.
Qed.

(** A page answered with status 200 makes the listing return. *)
Lemma public_page_ok_returns (folder_url : string)
    (file_types : option (list string)) (st : State) (response : Response) :
  on_get env (trace st) (folder_page_request (extract_folder_id folder_url)) = Answer response ->
  status_code response = 200%Z ->
  exists files st', list_folder_files_public env folder_url file_types st = (Ret files, st').
Proof.
  intros Hget H200. unfold list_folder_files_public.
  set (folder_id := extract_folder_id folder_url).
  set (allowed := allowed_extensions (default ["application/pdf"] file_types)).
  unfold requests_get.
  destruct (fold_each_returns _ (scan_candidate_returns folder_id allowed)
              (set_iter env (found_file_ids env (resp_text response))) []
              (log (EvPrint ("🔍 Found "
                      +:+ PyStr.of_Z (Z.of_nat (size (found_file_ids env (resp_text response))))
                      +:+ " potential file IDs"))
                 (log (EvGet (folder_page_request folder_id)) st))) as (files & st2 & Hloop).
  assert (exists st3, match files with [] => last_resort_pass env folder_id | _ => ret tt end st2
                      = (Ret tt, st3)) as [st3 Hlast].
  { destruct files; [apply last_resort_pass_returns | now eexists]. }
  exists files. eexists. apply try_ret.
  erewrite bind_ret by (apply call_answer; exact Hget).
  rewrite H200, Z.eqb_refl. cbv beta iota delta [negb].
  erewrite bind_ret by reflexivity.
  erewrite bind_ret by exact Hloop.
  erewrite bind_ret by exact Hlast.
  reflexivity.
Qed.

(** X1.  When the page of the folder is answered with status 200, the
    public listing returns a list: no failure of a request for the page
    of a file, and no failure of the last-resort pass, makes it raise. *)
Theorem list_folder_files_public_returns (folder_url : string)
    (file_types : option (list string)) (st : State) (response : Response) :
  on_get env (trace st) (folder_page_request (extract_folder_id folder_url)) = Answer response ->
  status_code response = 200%Z ->
  exists files st', list_folder_files_public env folder_url file_types st = (Ret files, st').
Proof. exact (public_page_ok_returns folder_url file_types st response). Qed.

(** X2.  The public listing never runs out of rounds, and an exception
    it raises is always the wrapped one: its message is [Folder is not
    publicly accessible or error occurred: ] followed by the message of
    the cause. *)
Theorem list_folder_files_public_wraps (folder_url : string)
    (file_types : option (list string)) (st : State) :
  fst (list_folder_files_public env folder_url file_types st) <> OutOfFuel
  /\ forall e,
       fst (list_folder_files_public env folder_url file_types st) = Raise e ->
       exists cause,
         e = Exception ("Folder is not publicly accessible or error occurred: " +:+ cause).
Proof.
  destruct (on_get env (trace st) (folder_page_request (extract_folder_id folder_url)))
    as [response|e0] eqn:Hget.
  - destruct (Z.eq_dec (status_code response) 200%Z) as [H200|Hnot].
    + destruct (public_page_ok_returns folder_url file_types st response Hget H200)
        as (files & st' & ->). split; [discriminate | intros e; discriminate].
    + assert (fst (list_folder_files_public env folder_url file_types st)
              = Raise (Exception ("Folder is not publicly accessible or error occurred: "
                                  +:+ "Cannot access folder. Status: "
                                  +:+ PyStr.of_Z (status_code response)))) as ->.
      { unfold list_folder_files_public, requests_get. erewrite try_raise.
        2: { erewrite bind_ret by (apply call_answer; exact Hget).
             apply Z.eqb_neq in Hnot. rewrite Hnot. reflexivity. }
        reflexivity. }
      split; [discriminate|]. intros e He. injection He as <-. eauto.
  - assert (fst (list_folder_files_public env folder_url file_types st)
            = Raise (Exception ("Folder is not publicly accessible or error occurred: "
                                +:+ str_of_exn e0))) as ->.
    { unfold list_folder_files_public, requests_get. erewrite try_raise.
      2: { apply bind_raise. apply call_failure. exact Hget. }
      reflexivity. }
    split; [discriminate|]. intros e He. injection He as <-. eauto.
Qed.

End PublicListingMore.

Section PublicListingRecords.

Variable env : Env.

(** What the records of a listing that returns are made of. *)
Lemma list_folder_files_public_added (folder_url : string) (file_types : option (list string))
    (st st' : State) (files : list FileRecord) :
  list_folder_files_public env folder_url file_types st = (Ret files, st') ->
  exists response,
    on_get env (trace st) (folder_page_request (extract_folder_id folder_url)) = Answer response
    /\ map fr_id files `sublist_of` set_iter env (found_file_ids env (resp_text response))
    /\ Forall (fun f => fr_id f <> extract_folder_id folder_url
                        /\ extension_allowed
                             (allowed_extensions (default ["application/pdf"] file_types))
                             (fr_name f) = true
                        /\ f = scraped_record (fr_id f) (fr_name f)) files.
Proof.
  intros H. apply list_folder_files_public_ret in H as (resp & st1 & st2 & Hget & Hloop & _).
  exists resp. split.
  - unfold requests_get, call in Hget.
    destruct (on_get env _ _) as [r|e]; [|discriminate]. now injection Hget as -> _.
  - apply scan_loop_records in Hloop as (added & -> & Hsub & Hall). now split.
Qed.

(** X3.  When a [for] loop over a set visits each element once, the
    records of a public listing have distinct identifiers; none is the
    identifier of the folder and each was extracted from the page of the
    folder. *)
Theorem list_folder_files_public_ids (folder_url : string) (file_types : option (list string))
    (st st' : State) (files : list FileRecord) :
  faithful_iter env ->
  list_folder_files_public env folder_url file_types st = (Ret files, st') ->
  NoDup (map fr_id files)
  /\ exists response,
       on_get env (trace st) (folder_page_request (extract_folder_id folder_url))
       = Answer response
       /\ Forall (fun f => fr_id f <> extract_folder_id folder_url
                           /\ fr_id f ∈ found_file_ids env (resp_text response)) files.
Proof.
  intros Hiter H.
  apply list_folder_files_public_added in H as (response & Hget & Hsub & Hall).
  split.
  - eapply sublist_NoDup; [|exact Hsub]. rewrite (Hiter _). apply NoDup_elements.
  - exists response. split; [exact Hget|].
    apply Forall_forall. intros f Hf. split.
    + rewrite Forall_forall in Hall. now destruct (Hall f Hf).
    + apply elem_of_elements. rewrite <- (Hiter _).
      eapply elem_of_sublist; [|exact Hsub].
      apply list_elem_of_In, in_map, list_elem_of_In, Hf.
Qed.

(** X4.  Whatever the filter, a record of the public listing has a name
    that ends, once lowered, in one of the extensions allowed by the
    filter, the size [0], no creation time and no path; its MIME type is
    [application/pdf] when the lowered name ends in [.pdf] and [unknown]
    otherwise, also for a file kept by a filter of images. *)
Theorem list_folder_files_public_records (folder_url : string)
    (file_types : option (list string)) (st st' : State) (files : list FileRecord) :
  list_folder_files_public env folder_url file_types st = (Ret files, st') ->
  Forall (fun f =>
            extension_allowed (allowed_extensions (default ["application/pdf"] file_types))
                              (fr_name f) = true
            /\ fr_size f = SizeInt 0
            /\ fr_createdTime f = None
            /\ fr_path f = None
            /\ fr_mimeType f = if PyStr.endswith (PyStr.lower (fr_name f)) ".pdf"
                               then "application/pdf" else "unknown") files.
Proof.
  intros H. apply list_folder_files_public_added in H as (response & _ & _ & Hall).
  eapply Forall_impl; [exact Hall|]. intros f (_ & Hext & Hf). cbv beta.
  split; [exact Hext|]. rewrite Hf. now repeat split.
Qed.

Lemma allowed_extensions_none (file_types : list string) :
  (forall mime, mime ∈ file_types -> ext_map !! mime = None) ->
  allowed_extensions file_types = [].
Proof.
  unfold allowed_extensions. intros Hnone.
  enough (forall acc : list string,
             fold_left (fun allowed mime =>
                          match ext_map !! mime with
                          | Some exts => allowed ++ exts
                          | None => allowed
                          end) file_types acc = acc) as H by apply H.
  induction file_types as [|mime l IH]; intros acc; simpl; [reflexivity|].
  rewrite (Hnone mime) by apply list_elem_of_here.
  apply IH. intros m Hm. apply Hnone. now apply list_elem_of_further.
Qed.

(** A filter that allows no extension keeps no record. *)
Lemma public_listing_unsupported (folder_url : string)
    (file_types : list string) (st st' : State) (files : list FileRecord) :
  (forall mime, mime ∈ file_types -> ext_map !! mime = None) ->
  list_folder_files_public env folder_url (Some file_types) st = (Ret files, st') ->
  files = [].
Proof.
  intros Hnone H. apply list_folder_files_public_added in H as (response & _ & _ & Hall).
  destruct files as [|f files]; [reflexivity|].
  apply Forall_cons in Hall as [(_ & Hext & _) _].
  change (default ["application/pdf"] (Some file_types)) with file_types in Hext.
  rewrite (allowed_extensions_none _ Hnone) in Hext. discriminate.
Qed.

(** X5.  A filter none of whose MIME types has an entry in the table of
    extensions, such as the empty filter or the type of Word documents
    alone, allows no extension: the public listing then returns the
    empty list whenever it returns. *)
Theorem list_folder_files_public_unsupported (folder_url : string)
    (file_types : list string) (st st' : State) (files : list FileRecord) :
  (forall mime, mime ∈ file_types -> ext_map !! mime = None) ->
  list_folder_files_public env folder_url (Some file_types) st = (Ret files, st') ->
  files = [].
Proof. exact (public_listing_unsupported folder_url file_types st st' files). Qed.

(** The calls of the public listing. *)
Lemma public_listing_web_only (folder_url : string)
    (file_types : option (list string)) :
  emits (fun ev => is_web_call ev = true) (list_folder_files_public env folder_url file_types).
Proof.
  unfold list_folder_files_public, last_resort_pass, scan_candidate, requests_get.
  emits_auto.
Qed.

(** X6.  The public listing only requests pages and prints: it makes no
    call to the Drive API and opens or writes no file. *)
Theorem list_folder_files_public_emits (folder_url : string)
    (file_types : option (list string)) :
  emits (fun ev => is_web_call ev = true) (list_folder_files_public env folder_url file_types).
Proof. exact (public_listing_web_only folder_url file_types). Qed.

End PublicListingRecords.

(** * More about the flat listing *)

Lemma emits_weaken {A} (P Q : Event -> Prop) (m : M A) :
  (forall ev, P ev -> Q ev) -> emits P m -> emits Q m.
Proof.
  intros HPQ Hm st. destruct (Hm st) as (evs & E & HP).
  exists evs. split; [exact E | eapply Forall_impl; eauto].
Qed.

Lemma web_call_not_drive (ev : Event) : is_web_call ev = true -> is_drive_call ev = false.
Proof. now destruct ev. Qed.


Section FlatListing.

Variable env : Env.
Variable self : Handler.

(** X7.  The public path comes first: when the public listing returns,
    [list_folder_files] returns the same list, also when a session
    exists, and the run makes no call to the Drive API. *)
Theorem list_folder_files_public_first (folder_url : string)
    (file_types : option (list string)) (st st' : State) (files : list FileRecord) :
  list_folder_files_public env folder_url file_types st = (Ret files, st') ->
  list_folder_files env self folder_url file_types st = (Ret files, st')
  /\ exists evs, trace st' = trace st ++ evs
                 /\ Forall (fun ev => is_drive_call ev = false) evs.
Proof.
  intros H. split.
  - unfold list_folder_files. now apply try_ret.
  - refine (emits_run _ _ _ _ _ _ H).
    eapply emits_weaken; [exact web_call_not_drive | apply public_listing_web_only].
Qed.

(** X8.  When the public listing raises and there is no session,
    [list_folder_files] raises an exception whose message holds the
    message of the public failure and asks for authentication; no call
    to the Drive API is made. *)
Theorem list_folder_files_requires_session (folder_url : string)
    (file_types : option (list string)) (st st' : State) (e : exn) :
  service self = None ->
  list_folder_files_public env folder_url file_types st = (Raise e, st') ->
  let msg := "Folder requires authentication. Public access failed: "
             +:+ str_of_exn e +:+ nl
             +:+ "Please authenticate with OAuth2 to access private folders." in
  list_folder_files env self folder_url file_types st = (Raise (Exception msg), st')
  /\ PyStr.contains (str_of_exn e) msg = true
  /\ PyStr.contains "Please authenticate" msg = true
  /\ exists evs, trace st' = trace st ++ evs
                 /\ Forall (fun ev => is_drive_call ev = false) evs.
Proof.
  intros Hnone Hpub msg. split; [|split; [|split]].
  - unfold list_folder_files. rewrite (try_raise _ _ _ _ _ Hpub), Hnone. reflexivity.
  - apply contains_marker.
  - unfold msg.
    change "Please authenticate with OAuth2 to access private folders."
      with ("Please authenticate" +:+ " with OAuth2 to access private folders.").
    do 2 rewrite <- append_assoc. apply contains_marker.
  - refine (emits_run _ _ _ _ _ _ Hpub).
    eapply emits_weaken; [exact web_call_not_drive | apply public_listing_web_only].
Qed.


(** X10.  With a filter that allows no extension, the empty one for
    instance, [list_folder_files] returns the empty list as soon as the
    page of the folder is answered with status 200: the public path
    answers, and the authenticated listing, which would keep every item
    under the empty filter, is not reached even when a session exists. *)
Theorem list_folder_files_unsupported_public (folder_url : string)
    (file_types : list string) (st : State) (response : Response) :
  (forall mime, mime ∈ file_types -> ext_map !! mime = None) ->
  on_get env (trace st) (folder_page_request (extract_folder_id folder_url)) = Answer response ->
  status_code response = 200%Z ->
  fst (list_folder_files env self folder_url (Some file_types) st) = Ret [].
Proof.
  intros Hnone Hget H200.
  destruct (public_page_ok_returns env folder_url (Some file_types) st response Hget H200)
    as (files & st' & Hrun).
  rewrite (public_listing_unsupported env _ _ _ _ _ Hnone Hrun) in Hrun.
  unfold list_folder_files. now rewrite (try_ret _ _ _ _ _ Hrun).
Qed.

End FlatListing.

(** * More about the recursive listing *)

Section Keeps.

Context {A B : Type} (Q : FileRecord -> Prop).

Lemma keeps_ret (a : A) : keeps Q (ret a).
Proof. now intros st H. Qed.

Lemma keeps_call (ev : Event) (ans : list Event -> answer A) : keeps Q (call ev ans).
Proof. intros st H. unfold call. now destruct (ans (trace st)). Qed.

Lemma keeps_print (msg : string) : keeps Q (print msg).
Proof. now intros st H. Qed.

Lemma keeps_bind (m : M A) (k : A -> M B) :
  keeps Q m -> (forall a, keeps Q (k a)) -> keeps Q (bind m k).
Proof.
  intros Hm Hk st H. unfold bind. specialize (Hm st H).
  destruct (m st) as [[a|e|] st1]; simpl in *; [now apply Hk | exact Hm ..].
Qed.

Lemma keeps_try_except (body : M A) (handler : exn -> M A) :
  keeps Q body -> (forall e, keeps Q (handler e)) -> keeps Q (try_except body handler).
Proof.
  intros Hm Hk st H. unfold try_except. specialize (Hm st H).
  destruct (body st) as [[a|e|] st1]; simpl in *; [exact Hm | now apply Hk | exact Hm].
Qed.

End Keeps.

Lemma keeps_for_each {A} (Q : FileRecord -> Prop) (l : list A) (f : A -> M unit) :
  (forall x, keeps Q (f x)) -> keeps Q (for_each l f).
Proof.
  intros Hf. induction l as [|x l IH]; simpl; [apply keeps_ret|].
  apply keeps_bind; [apply Hf | intros _; exact IH].
Qed.

Lemma keeps_append_file (Q : FileRecord -> Prop) (file_info : FileRecord) :
  Q file_info -> keeps Q (append_file file_info).
Proof.
  intros HQ st H. simpl. apply Forall_app. split; [exact H | now constructor].
Qed.

Lemma endswith_sub_path (path name : string) :
  PyStr.endswith (sub_path path name) name = true.
Proof.
  unfold sub_path. destruct (String.eqb path "").
  - apply (endswith_app "" name).
  - rewrite <- append_assoc. apply endswith_app.
Qed.

Section RecursiveMore.

Variable env : Env.

Lemma recurse_folder_keeps (fuel : nat) (file_types : option (list string)) :
  forall folder_id path,
    keeps (tree_listed file_types) (_recurse_folder env fuel file_types folder_id path).
Proof.
  induction fuel as [|fuel IH]; intros folder_id path; [now intros st H|].
  rewrite recurse_folder_S. apply keeps_try_except; [|intros e; apply keeps_print].
  apply keeps_bind.
  { unfold files_list. apply keeps_bind; [apply keeps_call | intros r; apply keeps_ret]. }
  intros items. apply keeps_for_each. intros item. unfold visit_item.
  destruct (String.eqb_spec (item_mimeType item) folder_mime) as [|Hfile]; [apply IH|].
  destruct (type_selected file_types (item_mimeType item)) eqn:Hsel; [|apply keeps_ret].
  apply keeps_append_file. split; [exact Hfile|]. split; [exact Hsel|].
  eexists. split; [reflexivity | apply endswith_sub_path].
Qed.

Lemma recurse_folder_emits (fuel : nat) (file_types : option (list string)) :
  forall folder_id path,
    emits (fun ev => is_list_call ev = true)
          (_recurse_folder env fuel file_types folder_id path).
Proof.
  induction fuel as [|fuel IH]; intros folder_id path; [apply emits_out_of_fuel|].
  rewrite recurse_folder_S. apply emits_try_except; [|intros e; now apply emits_print].
  apply emits_bind.
  { unfold files_list. apply emits_bind; [now apply emits_call | intros r; apply emits_ret]. }
  intros items. apply emits_for_each. intros item. unfold visit_item.
  destruct (String.eqb _ _); [apply IH|].
  destruct (type_selected _ _); [|apply emits_ret].
  intros st. exists []. simpl. now rewrite app_nil_r.
Qed.

(** X11.  The recursive listing never takes the public path: it requests
    no page and touches no file, its only calls are folder queries to the
    Drive API and prints. *)
Theorem list_folder_recursive_emits (self : Handler) (fuel : nat) (folder_url : string)
    (file_types : option (list string)) :
  emits (fun ev => is_list_call ev = true)
        (list_folder_recursive env self fuel folder_url file_types).
Proof.
  unfold list_folder_recursive. destruct (service self); [|apply emits_raise].
  apply emits_bind; [intros st; exists []; simpl; now rewrite app_nil_r | intros _].
  apply emits_bind; [apply recurse_folder_emits | intros _].
  apply emits_bind; [intros st; exists []; simpl; now rewrite app_nil_r | intros l].
  apply emits_bind; [now apply emits_print | intros _; apply emits_ret].
Qed.

(** X12.  Every record the recursive listing returns is that of a file,
    never of a folder; its MIME type passes the filter; and it has a
    path, which ends in the name of the file. *)
Theorem list_folder_recursive_records (self : Handler) (fuel : nat) (folder_url : string)
    (file_types : option (list string)) (st st' : State) (files : list FileRecord) :
  list_folder_recursive env self fuel folder_url file_types st = (Ret files, st') ->
  Forall (tree_listed file_types) files.
Proof.
  unfold list_folder_recursive. destruct (service self); [|discriminate].
  intros H. apply bind_ret_inv in H as ([] & st1 & H1 & H). injection H1 as <-.
  apply bind_ret_inv in H as ([] & st2 & Hrec & H).
  apply bind_ret_inv in H as (l & st3 & Hget & H). injection Hget as <- <-.
  apply bind_ret_inv in H as ([] & st4 & _ & H). injection H as <- _.
  pose proof (recurse_folder_keeps fuel file_types (extract_folder_id folder_url) ""
                (mkState (trace st) []) (List.Forall_nil _)) as Hkeep.
  now rewrite Hrec in Hkeep.
Qed.

(** X13.  Without a session the recursive listing raises [Not
    authenticated with Google Drive] before any call, and so does
    [download_folder] asked to recurse, as it is by default: neither
    tries the public path, and nothing is downloaded. *)
Theorem recursive_requires_session (self : Handler) (fuel : nat) (folder_url : string)
    (file_types : option (list string)) (st : State) :
  service self = None ->
  list_folder_recursive env self fuel folder_url file_types st
  = (Raise (Exception "Not authenticated with Google Drive"), st)
  /\ download_folder env self fuel folder_url true st
     = (Raise (Exception "Not authenticated with Google Drive"), st).
Proof.
  intros Hnone. unfold download_folder, list_folder_recursive, bind. now rewrite Hnone.
Qed.

End RecursiveMore.

(** * More about the download of one file *)

Section PublicDownload.

Variable env : Env.
Variable self : Handler.

Lemma write_chunks (path : string) (chunks : list string) :
  (forall h chunk, on_write env h path chunk = Answer tt) ->
  forall st,
    for_each chunks (fun chunk => if String.eqb chunk "" then ret tt else write env path chunk) st
    = (Ret tt, mkState (trace st ++ chunk_writes path chunks) (all_files st)).
Proof.
  intros Hwrite. unfold chunk_writes.
  induction chunks as [|chunk chunks IH]; intros st; simpl.
  - rewrite app_nil_r. now destruct st.
  - unfold bind. destruct (String.eqb chunk ""); simpl.
    + apply IH.
    + unfold write, call. rewrite Hwrite, IH. simpl. now rewrite <- app_assoc.
Qed.

(** The end of the public download: the body of [response] is saved. *)
Lemma save_response (file_name : string) (response : Response) (st : State) :
  let file_path := path_join (temp_dir self) file_name in
  writable env file_path ->
  (open_wb env file_path ;;
   for_each (resp_iter_content response)
     (fun chunk => if String.eqb chunk "" then ret tt else write env file_path chunk) ;;
   print ("✅ Downloaded (public): " +:+ file_name) ;;
   ret file_path) st
  = (Ret file_path,
     mkState (trace st ++ EvOpen file_path
                :: chunk_writes file_path (resp_iter_content response)
                ++ [EvPrint ("✅ Downloaded (public): " +:+ file_name)])
             (all_files st)).
Proof.
  intros file_path [Hopen Hwrite].
  erewrite bind_ret by (apply call_answer; apply Hopen).
  erewrite bind_ret by (apply write_chunks; exact Hwrite).
  unfold bind, print, ret, log. simpl. f_equal. f_equal.
  rewrite <- !app_assoc. reflexivity.
Qed.

(** X14.  The public download does not look at the status of the answer:
    whatever the status and the text of the answer, when no confirmation
    link is found in it and the file can be written, the non-empty
    chunks of its body are written in order to
    [os.path.join(temp_dir, file_name)] and that path is returned. *)
Theorem download_file_public_saves (file_id file_name : string) (st : State)
    (response : Response) :
  let file_path := path_join (temp_dir self) file_name in
  on_get env (trace st) (download_request (download_url file_id)) = Answer response ->
  re_search env confirm_pattern (resp_text response) = None ->
  writable env file_path ->
  download_file_public env self file_id file_name st
  = (Ret file_path,
     mkState (trace st ++ EvGet (download_request (download_url file_id))
                :: EvOpen file_path
                :: chunk_writes file_path (resp_iter_content response)
                ++ [EvPrint ("✅ Downloaded (public): " +:+ file_name)])
             (all_files st)).
Proof.
  intros file_path Hget Hnone Hw. unfold download_file_public. apply try_ret.
  fold (download_url file_id). unfold requests_get at 1.
  erewrite bind_ret by (apply call_answer; exact Hget).
  erewrite (bind_ret _ _ _ _ response).
  2: { rewrite Hnone. now destruct (_ || _). }
  fold file_path. rewrite (save_response file_name response _ Hw).
  simpl. now rewrite <- app_assoc.
Qed.

(** X15.  When the first answer mentions a virus scan warning, or its
    address still holds [download], and a confirmation link is found in
    it, the link is requested once from [https://drive.google.com] and
    it is the body of that second answer that is saved, whatever it is. *)
Theorem download_file_public_confirms (file_id file_name : string) (st : State)
    (response confirmed : Response) (link : string) :
  let file_path := path_join (temp_dir self) file_name in
  let first := download_request (download_url file_id) in
  let second := download_request ("https://drive.google.com" +:+ link) in
  on_get env (trace st) first = Answer response ->
  PyStr.contains "virus scan warning" (PyStr.lower (resp_text response))
  || PyStr.contains "download" (PyStr.lower (resp_url response)) = true ->
  re_search env confirm_pattern (resp_text response) = Some link ->
  on_get env (trace st ++ [EvGet first]) second = Answer confirmed ->
  writable env file_path ->
  download_file_public env self file_id file_name st
  = (Ret file_path,
     mkState (trace st ++ EvGet first :: EvGet second :: EvOpen file_path
                :: chunk_writes file_path (resp_iter_content confirmed)
                ++ [EvPrint ("✅ Downloaded (public): " +:+ file_name)])
             (all_files st)).
Proof.
  intros file_path first second Hget Hwarn Hlink Hget2 Hw.
  unfold download_file_public. apply try_ret.
  fold (download_url file_id). unfold requests_get at 1.
  erewrite bind_ret by (apply call_answer; exact Hget).
  erewrite (bind_ret _ _ _ _ confirmed).
  2: { rewrite Hwarn, Hlink. unfold requests_get. apply call_answer. exact Hget2. }
  fold file_path. rewrite (save_response file_name confirmed _ Hw).
  simpl. rewrite <- !app_assoc. reflexivity.
Qed.

(** X16.  When the first request fails, the public download prints the
    failure and raises the same exception again; no file is opened. *)
Theorem download_file_public_unreachable (file_id file_name : string) (st : State) (e : exn) :
  on_get env (trace st) (download_request (download_url file_id)) = Failure e ->
  download_file_public env self file_id file_name st
  = (Raise e,
     mkState (trace st ++ [EvGet (download_request (download_url file_id));
                           EvPrint ("❌ Error downloading public file " +:+ file_name
                                    +:+ ": " +:+ str_of_exn e)])
             (all_files st)).
Proof.
  intros Hget. unfold download_file_public. erewrite try_raise.
  2: { apply bind_raise. apply call_failure. exact Hget. }
  unfold bind, print, raise, log. simpl. now rewrite <- app_assoc.
Qed.

Lemma try_raise_inv {A} (body : M A) (handler : exn -> M A) (st st' : State) (e : exn) :
  try_except body handler st = (Raise e, st') ->
  exists e0 st1, body st = (Raise e0, st1) /\ handler e0 st1 = (Raise e, st').
Proof.
  unfold try_except. destruct (body st) as [[a|e0|] st1]; intros H; try discriminate.
  now exists e0, st1.
Qed.

(** The path a public download returns. *)
Lemma download_file_public_ret (file_id file_name : string) (st st' : State) (p : string) :
  download_file_public env self file_id file_name st = (Ret p, st') ->
  p = path_join (temp_dir self) file_name.
Proof.
  unfold download_file_public. intros H.
  apply try_ret_inv in H as [H | (e & st1 & _ & H)].
  - apply bind_ret_inv in H as (r1 & s1 & _ & H).
    apply bind_ret_inv in H as (r2 & s2 & _ & H).
    apply bind_ret_inv in H as (_ & s3 & _ & H).
    apply bind_ret_inv in H as (_ & s4 & _ & H).
    apply bind_ret_inv in H as (_ & s5 & _ & H).
    now injection H as <- _.
  - apply bind_ret_inv in H as (_ & s1 & _ & H). discriminate.
Qed.

End PublicDownload.

Section DownloadMore.

Variable env : Env.
Variable self : Handler.

Lemma path_join_absolute (a b : string) :
  PyStr.startswith b "/" = true -> path_join a b = b.
Proof. unfold path_join. now intros ->. Qed.

Lemma path_join_relative (a b : string) :
  PyStr.startswith b "/" = false -> PyStr.startswith (path_join a b) a = true.
Proof.
  unfold path_join. intros ->. unfold PyStr.startswith.
  destruct (_ || _); apply prefix_app.
Qed.

(** X17.  The path a public download returns is
    [os.path.join(temp_dir, file_name)]: it ends in the requested name and
    starts with the temporary directory when the name does not start with
    [/]; a name that starts with [/] is used as it is, so that the file
    is written outside the temporary directory. *)
Theorem download_file_public_path (file_id file_name : string) (st st' : State) (p : string) :
  download_file_public env self file_id file_name st = (Ret p, st') ->
  p = path_join (temp_dir self) file_name
  /\ PyStr.endswith p file_name = true
  /\ (PyStr.startswith file_name "/" = false -> PyStr.startswith p (temp_dir self) = true)
  /\ (PyStr.startswith file_name "/" = true -> p = file_name).
Proof.
  intros H. apply download_file_public_ret in H as ->.
  split; [reflexivity|]. split; [|split].
  - apply path_join_endswith. apply (endswith_app "" file_name).
  - apply path_join_relative.
  - apply path_join_absolute.
Qed.

(** X18.  The public path comes first: when the public download returns,
    [download_file] returns the same path, also when a session exists,
    and the run makes no call to the Drive API. *)
Theorem download_file_public_first (fuel : nat) (file_id file_name : string)
    (st st' : State) (p : string) :
  download_file_public env self file_id file_name st = (Ret p, st') ->
  download_file env self fuel file_id file_name st = (Ret p, st')
  /\ exists evs, trace st' = trace st ++ evs
                 /\ Forall (fun ev => is_drive_call ev = false) evs.
Proof.
  intros H. split.
  - unfold download_file. now apply try_ret.
  - exact (emits_run _ _ _ _ _ (download_file_public_emits env self file_id file_name) H).
Qed.

(** X19.  On the authenticated path, a file whose MIME type does not
    start with [application/vnd.google-apps] is fetched as it is with
    [get_media]: the file is opened under the requested name, unchanged,
    once it is open a chunk is requested from [get_media], every chunk is
    requested from [get_media], a returned path is
    [os.path.join(temp_dir, file_name)], and a download that completes
    after [n] rounds has requested [n >= 1] chunks from [get_media] and
    returns that path. *)
Theorem download_file_regular (fuel : nat) (file_id file_name : string)
    (st st1 : State) (e : exn) (svc : Service) (mime : string) :
  service self = Some svc ->
  download_file_public env self file_id file_name st = (Raise e, st1) ->
  on_files_get env (trace st1) file_id = Answer mime ->
  PyStr.startswith mime "application/vnd.google-apps" = false ->
  let st2 := log (EvFilesGet file_id) st1 in
  let run := download_file env self fuel file_id file_name st in
  let request := get_media file_id in
  let target := path_join (temp_dir self) file_name in
  (exists evs,
      trace (snd run) = trace st2 ++ EvOpen target :: evs
      /\ Forall (fun ev => ev = EvNextChunk request target \/ exists m, ev = EvPrint m) evs)
  /\ (on_open env (trace st2) target = Answer tt -> 0 < fuel ->
      exists evs,
        trace (snd run) = trace st2 ++ EvOpen target :: EvNextChunk request target :: evs)
  /\ (forall p, fst run = Ret p -> p = target)
  /\ (forall n, on_open env (trace st2) target = Answer tt ->
                completes env request target n (trace st2 ++ [EvOpen target]) ->
                n <= fuel ->
                1 <= n
                /\ run = (Ret target,
                          mkState (trace st2 ++ EvOpen target
                                     :: replicate n (EvNextChunk request target)
                                     ++ [EvPrint ("✅ Downloaded (OAuth): " +:+ file_name)])
                                  (all_files st2))).
Proof.
  intros Hsvc Hpub Hget Hplain st2 run request target.
  assert (run = save_media env self fuel request file_name st2) as ->.
  { apply (download_file_chosen _ _ _ _ _ _ _ _ _ _ _ _ Hsvc Hpub Hget).
    rewrite Hplain. auto. }
  split; [|split; [|split]].
  - apply save_media_trace.
  - intros Hopen Hfuel. destruct fuel as [|fuel']; [lia|].
    now apply save_media_first_chunk.
  - apply save_media_returns.
  - intros n Hopen Hdone Hfuel. split.
    + destruct Hdone; lia.
    + now apply save_media_done.
Qed.

(** X20.  With a session, when the public download raises and the
    request for the metadata fails too, [download_file] raises the
    exception of the Drive API as it is: the failure of the public path
    is not part of it, and no file is opened. *)
Theorem download_file_both_fail (fuel : nat) (file_id file_name : string)
    (st st1 : State) (e e' : exn) (svc : Service) :
  service self = Some svc ->
  download_file_public env self file_id file_name st = (Raise e, st1) ->
  on_files_get env (trace st1) file_id = Failure e' ->
  download_file env self fuel file_id file_name st
  = (Raise e',
     mkState (trace st1 ++ [EvFilesGet file_id;
                            EvPrint ("❌ Error downloading file " +:+ file_name
                                     +:+ ": " +:+ str_of_exn e')])
             (all_files st1)).
Proof.
  intros Hsvc Hpub Hget. unfold download_file.
  rewrite (try_raise _ _ _ _ _ Hpub), Hsvc.
  apply bind_raise. erewrite try_raise.
  2: { unfold files_get. apply bind_raise. apply call_failure. exact Hget. }
  unfold download_failed, bind, print, raise, log. simpl. now rewrite <- app_assoc.
Qed.

(** A round of the loop of [download_folder] does not raise, and a list it
    returns is the list it was given, with at most a record of the file
    added. *)
Lemma download_into_outcome (fuel : nat) (file_info : FileRecord)
    (acc : list DownloadResult) (st : State) :
  match fst (download_into env self fuel file_info acc st) with
  | Ret acc' => acc' = acc \/ exists p, acc' = acc ++ [mkDownloadResult file_info p]
  | Raise _ => False
  | OutOfFuel => True
  end.
Proof.
  unfold download_into, try_except, bind.
  destruct (download_file env self fuel _ _ st) as [[p|e|] st1]; simpl; eauto.
Qed.

Lemma download_loop_outcome (fuel : nat) (files : list FileRecord) :
  forall (acc : list DownloadResult) (st : State),
    match fst (fold_each files (download_into env self fuel) acc st) with
    | Ret acc' =>
        exists added, acc' = acc ++ added /\ map dr_file_info added `sublist_of` files
    | Raise _ => False
    | OutOfFuel => True
    end.
Proof.
  induction files as [|f files IH]; intros acc st; simpl.
  - exists []. now rewrite app_nil_r.
  - unfold bind. pose proof (download_into_outcome fuel f acc st) as Hstep.
    destruct (download_into env self fuel f acc st) as [[acc1|e|] st1]; simpl in *;
      [|contradiction|exact I].
    specialize (IH acc1 st1).
    destruct (fold_each files _ acc1 st1) as [[acc2|e|] st2]; simpl in *; [|exact IH..].
    destruct IH as (added & -> & Hsub).
    destruct Hstep as [-> | [p ->]].
    + exists added. split; [reflexivity | now apply sublist_cons].
    + exists (mkDownloadResult f p :: added). rewrite <- app_assoc.
      split; [reflexivity | now apply sublist_skip].
Qed.

(** X21.  Once the listing has returned, [download_folder] does not
    raise, however many downloads fail; the records it returns are those
    of files of the listing, in the order of the listing and each at most
    once, so they are never more than the files. *)
Theorem download_folder_never_raises (fuel : nat) (folder_url : string) (recursive : bool)
    (st st0 : State) (files : list FileRecord) :
  (if recursive then list_folder_recursive env self fuel folder_url None
   else list_folder_files env self folder_url None) st = (Ret files, st0) ->
  (forall e, fst (download_folder env self fuel folder_url recursive st) <> Raise e)
  /\ (forall results,
         fst (download_folder env self fuel folder_url recursive st) = Ret results ->
         map dr_file_info results `sublist_of` files
         /\ length results <= length files).
Proof.
  intros Hlist. unfold download_folder. rewrite (bind_ret _ _ _ _ _ Hlist).
  pose proof (download_loop_outcome fuel files [] st0) as H.
  destruct (fold_each files _ [] st0) as [[results|e|] st']; simpl in *;
    [|contradiction|].
  - destruct H as (added & -> & Hsub). split; [discriminate|].
    intros r Hr. injection Hr as <-. split; [exact Hsub|].
    apply sublist_length in Hsub. now rewrite length_map in Hsub.
  - split; [discriminate | intros r; discriminate].
Qed.

End DownloadMore.

(** * More about the folder identifier *)

Lemma prefix_char (m c : ascii) (x y : string) :
  String.prefix (String m "") (String c x) = String.prefix (String m "") (String c y).
Proof. simpl. destruct (ascii_dec m c); [now destruct x, y | reflexivity]. Qed.

Lemma contains_char_app (m : ascii) (a b : string) :
  PyStr.contains (String m "") (a +:+ b)
  = PyStr.contains (String m "") a || PyStr.contains (String m "") b.
Proof.
  induction a as [|c a IH]; [reflexivity|].
  rewrite append_cons, !contains_cons, IH, orb_assoc.
  now rewrite (prefix_char m c (a +:+ b) a).
Qed.

(** The first piece of a split at one character does not hold it. *)
Lemma split_go_first_clean (m : ascii) (s : string) :
  forall cur,
    PyStr.contains (String m "") cur = false ->
    PyStr.contains (String m "") (PyStr.first (PyStr.split_go (String m "") 0 cur s)) = false.
Proof.
  induction s as [|c s IH]; intros cur Hcur; [exact Hcur|].
  rewrite split_go_cons. destruct (String.prefix _ _) eqn:Hp; [exact Hcur|].
  apply IH. rewrite contains_char_app, Hcur, orb_false_l.
  rewrite contains_cons. rewrite (prefix_char m c "" s), Hp. reflexivity.
Qed.

(** X22.  The identifier taken from an input that contains [/folders/]
    holds no [?], and the one taken from an input that contains [id=]
    and no [/folders/] holds no [&]: what follows the identifier in the
    query is never part of it. *)
Theorem extract_folder_id_undecorated (folder_url : string) :
  (PyStr.contains "/folders/" folder_url = true ->
   PyStr.contains "?" (extract_folder_id folder_url) = false)
  /\ (PyStr.contains "/folders/" folder_url = false ->
      PyStr.contains "id=" folder_url = true ->
      PyStr.contains "&" (extract_folder_id folder_url) = false).
Proof.
  unfold extract_folder_id. split.
  - intros ->. now apply split_go_first_clean.
  - intros -> ->. now apply split_go_first_clean.
Qed.

(** * Construction and authentication *)

Section AuthFacts.

Import Auth.

Variable lib : Lib.

Lemma authenticate_sets_service (self self' : Instance) (file : CredentialsFile) :
  _authenticate lib self file = Answer self' ->
  is_Some (service self')
  /\ temp_dir self' = temp_dir self
  /\ credentials self' = credentials self
  /\ client_id self' = client_id self
  /\ client_secret self' = client_secret self.
Proof.
  unfold _authenticate.
  destruct (match file with Uploaded _ => _ | Path _ => _ end) as [d|e]; [|discriminate].
  destruct (from_service_account_info lib d scopes) as [c|e]; [|discriminate].
  destruct (build lib c) as [svc|e]; [|discriminate].
  intros H. injection H as <-. simpl. eauto 10.
Qed.

Lemma authenticate_token_sets_service (self self' : Instance) (token : Dict) :
  _authenticate_oauth2_token lib self token = Answer self' ->
  is_Some (service self')
  /\ temp_dir self' = temp_dir self
  /\ is_Some (credentials self')
  /\ client_id self' = client_id self
  /\ client_secret self' = client_secret self.
Proof.
  unfold _authenticate_oauth2_token.
  destruct (from_authorized_user_info lib token scopes) as [c|e]; [|discriminate].
  destruct (if c_expired c && truthy (c_refresh_token c) then refresh lib c else Answer c)
    as [c'|e]; [|discriminate].
  destruct (build lib (UserCredentials c')) as [svc|e]; [|discriminate].
  intros H. injection H as <-. simpl. eauto 10.
Qed.

(** The modes of a handler that was constructed. *)
Lemma init_modes (credentials_file : option CredentialsFile)
    (id secret : option string) (token : option Dict) (self : Instance) :
  __init__ lib credentials_file id secret token = Answer self ->
  temp_dir self = gettempdir lib
  /\ if given id && given secret then
       if token_given token then
         is_Some (service self) /\ is_Some (credentials self)
         /\ client_id self = None /\ client_secret self = None
       else
         service self = None /\ credentials self = None
         /\ client_id self = id /\ client_secret self = secret
     else
       credentials self = None /\ client_id self = None /\ client_secret self = None
       /\ if file_given credentials_file then is_Some (service self)
          else service self = None.
Proof.
  unfold __init__. destruct (given id && given secret).
  - destruct (token_given token) eqn:Htok.
    + destruct token as [d|]; [|discriminate].
      intros H. apply authenticate_token_sets_service in H as (? & ? & ? & ? & ?).
      simpl in *. auto.
    + intros H. injection H as <-. simpl. auto.
  - destruct (file_given credentials_file) eqn:Hfile.
    + destruct credentials_file as [file|]; [|discriminate].
      intros H. apply authenticate_sets_service in H as (? & ? & ? & ? & ?).
      simpl in *. auto.
    + intros H. injection H as <-. simpl. auto.
Qed.

(** X23.  The modes of a handler exclude one another.  A handler built
    from a client identifier and secret, both non-empty, without a token
    has no session and keeps the pair, whatever the credentials file; one
    built from the pair and a non-empty token has a session and user
    credentials, and does not keep the pair; without the pair, a
    credentials file gives a session and no user credentials; otherwise
    the handler has no session.  The temporary directory is that of the
    system in every mode. *)
Theorem init_mutually_exclusive_modes (credentials_file : option CredentialsFile)
    (id secret : option string) (token : option Dict) (self : Instance) :
  __init__ lib credentials_file id secret token = Answer self ->
  temp_dir self = gettempdir lib
  /\ if given id && given secret then
       if token_given token then
         is_Some (service self) /\ is_Some (credentials self)
         /\ client_id self = None /\ client_secret self = None
       else
         service self = None /\ credentials self = None
         /\ client_id self = id /\ client_secret self = secret
     else
       credentials self = None /\ client_id self = None /\ client_secret self = None
       /\ if file_given credentials_file then is_Some (service self)
          else service self = None.
Proof. apply init_modes. Qed.

(** X24.  Only a handler built from the client pair without a token can
    start a consent flow: on a handler built in any other way, also one
    restored from a stored token, [get_authorization_url] and
    [complete_oauth2_flow] raise the [AttributeError] of the missing
    attribute [client_id] before any library is called, and leave the
    handler as it is. *)
Theorem consent_flow_needs_stored_pair (credentials_file : option CredentialsFile)
    (id secret : option string) (token : option Dict) (self : Instance)
    (lib' : Lib) (code redirect_uri : string) :
  __init__ lib credentials_file id secret token = Answer self ->
  given id && given secret && negb (token_given token) = false ->
  get_authorization_url lib' self redirect_uri = Failure (no_attribute "client_id")
  /\ complete_oauth2_flow lib' self code redirect_uri
     = (Failure (no_attribute "client_id"), self).
Proof.
  intros Hinit Hmode. apply init_modes in Hinit as [_ Hinit].
  assert (client_id self = None) as Hid.
  { destruct (given id && given secret).
    - destruct (token_given token); [now destruct Hinit as (_ & _ & ? & _) | discriminate].
    - now destruct Hinit as (_ & ? & _). }
  unfold get_authorization_url, complete_oauth2_flow, create_oauth2_flow.
  now rewrite Hid.
Qed.

(** X25.  A stored token is refreshed only when it is expired and has a
    refresh token.  An expired token without a refresh token is not
    refreshed: the session is built from the expired credentials and the
    constructor returns.  When the refresh is attempted and fails, the
    constructor raises that failure. *)
Theorem stored_token_refresh (credentials_file : option CredentialsFile)
    (id secret : option string) (token : Dict) (c : Credentials) :
  given id && given secret = true ->
  token <> ∅ ->
  from_authorized_user_info lib token scopes = Answer c ->
  (c_expired c && truthy (c_refresh_token c) = false ->
   forall svc,
     build lib (UserCredentials c) = Answer svc ->
     __init__ lib credentials_file id secret (Some token)
     = Answer (mkInstance (Some svc) (gettempdir lib) (Some c) None None))
  /\ (c_expired c && truthy (c_refresh_token c) = true ->
      forall e,
        refresh lib c = Failure e ->
        __init__ lib credentials_file id secret (Some token) = Failure e).
Proof.
  intros Hpair Htok Hfrom.
  assert (token_given (Some token) = true) as Hgiven.
  { simpl. apply negb_true_iff, Nat.eqb_neq. now rewrite map_size_empty_iff. }
  split.
  - intros Hstale svc Hbuild. unfold __init__, _authenticate_oauth2_token.
    now rewrite Hpair, Hgiven, Hfrom, Hstale, Hbuild.
  - intros Hrefresh e Hfail. unfold __init__, _authenticate_oauth2_token.
    now rewrite Hpair, Hgiven, Hfrom, Hrefresh, Hfail.
Qed.

Lemma token_dict_given (c : Credentials) : token_given (Some (token_dict c)) = true.
Proof.
  simpl. apply negb_true_iff, Nat.eqb_neq. rewrite map_size_empty_iff.
  unfold token_dict. apply insert_non_empty.
Qed.

(** X26.  The dictionary [complete_oauth2_flow] returns always counts
    as a token, whatever the credentials hold: given back to the
    constructor with a client pair, it is handed to the library as it
    is, and the constructor never falls back to waiting for a consent
    flow.  It records the six fields of the credentials under the keys
    the library reads. *)
Theorem token_dict_round_trip (self : Instance) (code redirect_uri : string)
    (tokens : Dict) (self' : Instance) :
  complete_oauth2_flow lib self code redirect_uri = (Answer tokens, self') ->
  exists c,
    credentials self' = Some c
    /\ is_Some (service self')
    /\ tokens !! "token" = Some (c_token c)
    /\ tokens !! "refresh_token" = Some (c_refresh_token c)
    /\ tokens !! "token_uri" = Some (c_token_uri c)
    /\ tokens !! "client_id" = Some (c_client_id c)
    /\ tokens !! "client_secret" = Some (c_client_secret c)
    /\ tokens !! "scopes" = Some (c_scopes c)
    /\ forall lib' credentials_file id secret,
         given id && given secret = true ->
         __init__ lib' credentials_file id secret (Some tokens)
         = _authenticate_oauth2_token lib'
             (mkInstance None (gettempdir lib') None None None) tokens.
Proof.
  unfold complete_oauth2_flow.
  destruct (create_oauth2_flow lib self redirect_uri) as [flow|e]; [|discriminate].
  destruct (fetch_token lib flow code) as [c|e]; [|discriminate].
  destruct (build lib (UserCredentials c)) as [svc|e]; [|discriminate].
  intros H. injection H as <- <-. exists c. simpl.
  repeat (split; [first [reflexivity | eauto] |]).
  intros lib' cf id secret Hpair. unfold __init__.
  now rewrite Hpair, token_dict_given.
Qed.

(** X27.  A failure of [complete_oauth2_flow] leaves the handler as
    follows: when the exchange of the code fails, unchanged; when the
    exchange succeeds and the client cannot be built, with the new
    credentials and the session it had before, if any. *)
Theorem complete_oauth2_flow_failure (self : Instance) (code redirect_uri : string)
    (flow : Flow) :
  create_oauth2_flow lib self redirect_uri = Answer flow ->
  (forall e,
      fetch_token lib flow code = Failure e ->
      complete_oauth2_flow lib self code redirect_uri = (Failure e, self))
  /\ (forall c e,
         fetch_token lib flow code = Answer c ->
         build lib (UserCredentials c) = Failure e ->
         complete_oauth2_flow lib self code redirect_uri
         = (Failure e,
            mkInstance (service self) (temp_dir self) (Some c)
                       (client_id self) (client_secret self))).
Proof.
  intros Hflow. unfold complete_oauth2_flow. rewrite Hflow. split.
  - now intros e ->.
  - now intros c e -> ->.
Qed.

End AuthFacts.

(** * The further theorems at work in the sample worlds *)

Lemma sample_writable (path : string) : writable Sample.env path.
Proof. split; intros; reflexivity. Defined.

Lemma sample_faithful_iter : faithful_iter Sample.env.
Proof. intros s. reflexivity. Defined.

Lemma list_folder_files_public_returns_witness :
  exists files st',
    list_folder_files_public Sample.env "shared" (Some [Sample2.word]) Sample.start
    = (Ret files, st').
Proof.
  apply (list_folder_files_public_returns Sample.env "shared" (Some [Sample2.word]) Sample.start
           (Sample.page "https://drive.google.com/drive/folders/shared"));
    reflexivity.
Defined.

Lemma list_folder_files_public_wraps_witness :
  fst (list_folder_files_public Sample.env "private1" None Sample.start)
  = Raise (Exception ("Folder is not publicly accessible or error occurred: "
                      +:+ "Cannot access folder. Status: 403"))
  /\ exists cause,
       Exception ("Folder is not publicly accessible or error occurred: "
                  +:+ "Cannot access folder. Status: 403")
       = Exception ("Folder is not publicly accessible or error occurred: " +:+ cause).
Proof.
  split; [reflexivity|].
  destruct (list_folder_files_public_wraps Sample.env "private1" None Sample.start) as [_ H].
  apply H. reflexivity.
Defined.

Lemma list_folder_files_public_ids_witness :
  NoDup (map fr_id [mkFileRecord "f1" "Report.PDF" "application/pdf" (SizeInt 0) None None]).
Proof.
  destruct (list_folder_files_public_ids Sample.env "shared" None Sample.start
              (snd (list_folder_files_public Sample.env "shared" None Sample.start))
              [mkFileRecord "f1" "Report.PDF" "application/pdf" (SizeInt 0) None None]
              sample_faithful_iter eq_refl) as [H _].
  exact H.
Defined.

Lemma list_folder_files_public_records_witness :
  Forall (fun f => fr_size f = SizeInt 0 /\ fr_path f = None)
         [mkFileRecord "f1" "Report.PDF" "application/pdf" (SizeInt 0) None None].
Proof.
  eapply Forall_impl.
  - exact (list_folder_files_public_records Sample.env "shared" None Sample.start
             (snd (list_folder_files_public Sample.env "shared" None Sample.start))
             [mkFileRecord "f1" "Report.PDF" "application/pdf" (SizeInt 0) None None]
             eq_refl).
  - intros f (_ & Hsize & _ & Hpath & _). now split.
Defined.

Lemma word_unsupported (mime : string) :
  mime ∈ [Sample2.word] -> ext_map !! mime = None.
Proof. intros H. apply list_elem_of_singleton in H. subst. reflexivity. Defined.

Lemma list_folder_files_public_unsupported_witness :
  fst (list_folder_files_public Sample.env "shared" (Some [Sample2.word]) Sample.start) = Ret [].
Proof.
  destruct (public_page_ok_returns Sample.env "shared" (Some [Sample2.word]) Sample.start
              (Sample.page "https://drive.google.com/drive/folders/shared") eq_refl eq_refl)
    as (files & st' & Hrun).
  rewrite Hrun.
  now rewrite (list_folder_files_public_unsupported Sample.env "shared" [Sample2.word]
                 Sample.start st' files word_unsupported Hrun).
Defined.

Lemma list_folder_files_public_first_witness :
  fst (list_folder_files Sample.env Sample.signed_in "shared" None Sample.start)
  = Ret [mkFileRecord "f1" "Report.PDF" "application/pdf" (SizeInt 0) None None].
Proof.
  destruct (list_folder_files_public_first Sample.env Sample.signed_in "shared" None Sample.start
              (snd (list_folder_files_public Sample.env "shared" None Sample.start))
              [mkFileRecord "f1" "Report.PDF" "application/pdf" (SizeInt 0) None None]
              eq_refl) as [H _].
  now rewrite H.
Defined.

Lemma list_folder_files_requires_session_witness :
  fst (list_folder_files Sample.env Sample.anonymous "bad-shared" None Sample.start)
  = Raise (Exception ("Folder requires authentication. Public access failed: "
                      +:+ "Folder is not publicly accessible or error occurred: "
                      +:+ "connection refused" +:+ nl
                      +:+ "Please authenticate with OAuth2 to access private folders.")).
Proof.
  destruct (list_folder_files_requires_session Sample.env Sample.anonymous "bad-shared" None
              Sample.start
              (snd (list_folder_files_public Sample.env "bad-shared" None Sample.start))
              (Exception ("Folder is not publicly accessible or error occurred: "
                          +:+ "connection refused"))
              eq_refl eq_refl) as [H _].
  now rewrite H.
Defined.


Lemma list_folder_files_unsupported_public_witness :
  fst (list_folder_files Sample.env Sample.signed_in "shared" (Some []) Sample.start) = Ret [].
Proof.
  apply (list_folder_files_unsupported_public Sample.env Sample.signed_in "shared" []
           Sample.start (Sample.page "https://drive.google.com/drive/folders/shared"));
    [|reflexivity..].
  intros mime H. now apply elem_of_nil in H.
Defined.

Lemma list_folder_recursive_records_witness :
  Forall (tree_listed None) [tree_record "Reports" (Sample.pdf "f1" "a.pdf")].
Proof.
  exact (list_folder_recursive_records Sample.env Sample.signed_in 2 "root" None Sample.start
           (snd (list_folder_recursive Sample.env Sample.signed_in 2 "root" None Sample.start))
           [tree_record "Reports" (Sample.pdf "f1" "a.pdf")] eq_refl).
Defined.

Lemma recursive_requires_session_witness :
  fst (download_folder Sample.env Sample.anonymous 2 "shared" true Sample.start)
  = Raise (Exception "Not authenticated with Google Drive").
Proof.
  destruct (recursive_requires_session Sample.env Sample.anonymous 2 "shared" None Sample.start
              eq_refl) as [_ H].
  now rewrite H.
Defined.

Lemma download_file_public_saves_witness :
  download_file_public Sample.env Sample.anonymous "private9" "secret.pdf" Sample.start
  = (Ret "/tmp/secret.pdf",
     mkState [EvGet (download_request (download_url "private9"));
              EvOpen "/tmp/secret.pdf";
              EvPrint "✅ Downloaded (public): secret.pdf"] [])
  /\ status_code (Sample.page (download_url "private9")) = 403%Z.
Proof.
  split; [|reflexivity].
  exact (download_file_public_saves Sample.env Sample.anonymous "private9" "secret.pdf"
           Sample.start (Sample.page (download_url "private9")) eq_refl eq_refl
           (sample_writable _)).
Defined.

Lemma large_files_writable (path : string) : writable Sample2.large_files path.
Proof. split; intros; reflexivity. Defined.

Lemma download_file_public_confirms_witness :
  download_file_public Sample2.large_files Sample.anonymous "big" "big.bin" Sample.start
  = (Ret "/tmp/big.bin",
     mkState [EvGet (download_request (download_url "big"));
              EvGet (download_request ("https://drive.google.com" +:+ Sample2.confirm_link));
              EvOpen "/tmp/big.bin";
              EvWrite "/tmp/big.bin" "BIG"; EvWrite "/tmp/big.bin" "FILE";
              EvPrint "✅ Downloaded (public): big.bin"] []).
Proof.
  exact (download_file_public_confirms Sample2.large_files Sample.anonymous "big" "big.bin"
           Sample.start (Sample2.warning_page (download_url "big"))
           (mkResponse 200 "" ("https://drive.google.com" +:+ Sample2.confirm_link)
                       ["BIG"; "FILE"])
           Sample2.confirm_link eq_refl eq_refl eq_refl eq_refl (large_files_writable _)).
Defined.

Lemma download_file_public_unreachable_witness :
  fst (download_file_public Sample.env Sample.anonymous "bad1" "b.pdf" Sample.start)
  = Raise (Exception "connection refused").
Proof.
  now rewrite (download_file_public_unreachable Sample.env Sample.anonymous "bad1" "b.pdf"
                 Sample.start (Exception "connection refused") eq_refl).
Defined.

Lemma download_file_public_path_witness :
  PyStr.startswith "/tmp/a.pdf" "/tmp" = true
  /\ fst (download_file_public Sample.env Sample.anonymous "good1" "/etc/a.pdf" Sample.start)
     = Ret "/etc/a.pdf".
Proof.
  split.
  - destruct (download_file_public_path Sample.env Sample.anonymous "good1" "a.pdf" Sample.start
                (snd (download_file_public Sample.env Sample.anonymous "good1" "a.pdf"
                        Sample.start))
                "/tmp/a.pdf" eq_refl) as (_ & _ & H & _).
    exact (H eq_refl).
  - destruct (download_file_public_path Sample.env Sample.anonymous "good1" "/etc/a.pdf"
                Sample.start
                (snd (download_file_public Sample.env Sample.anonymous "good1" "/etc/a.pdf"
                        Sample.start))
                (path_join "/tmp" "/etc/a.pdf") eq_refl) as (_ & _ & _ & H).
    rewrite <- (H eq_refl) at 2. reflexivity.
Defined.

Lemma download_file_public_first_witness :
  fst (download_file Sample.env Sample.signed_in 0 "good1" "a.pdf" Sample.start)
  = Ret "/tmp/a.pdf".
Proof.
  destruct (download_file_public_first Sample.env Sample.signed_in 0 "good1" "a.pdf"
              Sample.start
              (snd (download_file_public Sample.env Sample.signed_in "good1" "a.pdf"
                      Sample.start))
              "/tmp/a.pdf" eq_refl) as [H _].
  now rewrite H.
Defined.

Lemma download_file_regular_witness :
  let st1 := snd (download_file_public Sample2.offline Sample.signed_in "bad-pdf"
                    "scan.gdoc.pdf" Sample.start) in
  download_file Sample2.offline Sample.signed_in 2 "bad-pdf" "scan.gdoc.pdf" Sample.start
  = (Ret "/tmp/scan.gdoc.pdf",
     mkState (trace st1
                ++ [EvFilesGet "bad-pdf";
                    EvOpen "/tmp/scan.gdoc.pdf";
                    EvNextChunk (get_media "bad-pdf") "/tmp/scan.gdoc.pdf";
                    EvNextChunk (get_media "bad-pdf") "/tmp/scan.gdoc.pdf";
                    EvPrint "✅ Downloaded (OAuth): scan.gdoc.pdf"]) []).
Proof.
  destruct (download_file_regular Sample2.offline Sample.signed_in 2 "bad-pdf" "scan.gdoc.pdf"
              Sample.start
              (snd (download_file_public Sample2.offline Sample.signed_in "bad-pdf"
                      "scan.gdoc.pdf" Sample.start))
              (Exception "connection refused") DriveV3 "application/pdf"
              eq_refl eq_refl eq_refl eq_refl) as (_ & _ & _ & Hdone).
  destruct (Hdone 2) as [_ Hrun]; [reflexivity | | lia | rewrite Hrun; reflexivity].
  apply completes_later; [reflexivity|]. apply completes_now. reflexivity.
Defined.

Lemma download_file_both_fail_witness :
  fst (download_file Sample.env Sample.signed_in 2 "bad1" "b.pdf" Sample.start)
  = Raise (Exception "HttpError 404").
Proof.
  now rewrite (download_file_both_fail Sample.env Sample.signed_in 2 "bad1" "b.pdf"
                 Sample.start
                 (snd (download_file_public Sample.env Sample.signed_in "bad1" "b.pdf"
                         Sample.start))
                 (Exception "connection refused") (Exception "HttpError 404") DriveV3
                 eq_refl eq_refl eq_refl).
Defined.

Lemma download_folder_never_raises_witness :
  length [mkDownloadResult (Sample.pdf_record "good1" "a.pdf") "/tmp/a.pdf";
          mkDownloadResult (Sample.pdf_record "good2" "c.pdf") "/tmp/c.pdf"] <= 3.
Proof.
  destruct (download_folder_never_raises Sample.env Sample.signed_in 2 "batch" true
              Sample.start
              (snd (list_folder_recursive Sample.env Sample.signed_in 2 "batch" None
                      Sample.start))
              [Sample.pdf_record "good1" "a.pdf"; Sample.pdf_record "bad1" "b.pdf";
               Sample.pdf_record "good2" "c.pdf"] eq_refl) as [_ H].
  destruct (H [mkDownloadResult (Sample.pdf_record "good1" "a.pdf") "/tmp/a.pdf";
               mkDownloadResult (Sample.pdf_record "good2" "c.pdf") "/tmp/c.pdf"] eq_refl)
    as [_ Hlen].
  exact Hlen.
Defined.

Lemma extract_folder_id_undecorated_witness :
  PyStr.contains "?" (extract_folder_id "https://drive.google.com/drive/folders/1AbC?usp=a?b")
  = false
  /\ PyStr.contains "&" (extract_folder_id "https://drive.google.com/open?id=1AbC&x=1&y=2")
     = false.
Proof.
  split.
  - destruct (extract_folder_id_undecorated
                "https://drive.google.com/drive/folders/1AbC?usp=a?b") as [H _].
    exact (H eq_refl).
  - destruct (extract_folder_id_undecorated
                "https://drive.google.com/open?id=1AbC&x=1&y=2") as [_ H].
    exact (H eq_refl eq_refl).
Defined.

Lemma init_mutually_exclusive_modes_witness :
  Auth.__init__ Sample2.lib (Some (Auth.Path "sa.json")) (Some "client") (Some "secret") None
  = Answer Sample2.waiting
  /\ Auth.service Sample2.waiting = None
  /\ Auth.client_id Sample2.waiting = Some "client".
Proof.
  split; [reflexivity|].
  destruct (init_mutually_exclusive_modes Sample2.lib (Some (Auth.Path "sa.json"))
              (Some "client") (Some "secret") None Sample2.waiting eq_refl)
    as (_ & Hservice & _ & Hid & _).
  now split.
Defined.

Lemma sample_restored :
  Auth.__init__ Sample2.lib None (Some "client") (Some "secret")
    (Some (<["token" := Auth.VStr "ya29.old"]> ∅))
  = Answer (Auth.mkInstance (Some DriveV3) "/tmp" (Some Sample2.stale) None None).
Proof. vm_compute. reflexivity. Defined.

Lemma consent_flow_needs_stored_pair_witness :
  Auth.get_authorization_url Sample2.lib
    (Auth.mkInstance (Some DriveV3) "/tmp" (Some Sample2.stale) None None)
    "urn:ietf:wg:oauth:2.0:oob"
  = Failure (Auth.no_attribute "client_id").
Proof.
  destruct (consent_flow_needs_stored_pair Sample2.lib None (Some "client") (Some "secret")
              (Some (<["token" := Auth.VStr "ya29.old"]> ∅))
              (Auth.mkInstance (Some DriveV3) "/tmp" (Some Sample2.stale) None None)
              Sample2.lib "4/good" "urn:ietf:wg:oauth:2.0:oob" sample_restored)
    as [H _]; [vm_compute; reflexivity|].
  exact H.
Defined.

Lemma stored_token_refresh_witness :
  Auth.__init__ Sample2.lib None (Some "client") (Some "secret")
    (Some (<["token" := Auth.VStr "ya29.old"]> ∅))
  = Answer (Auth.mkInstance (Some DriveV3) "/tmp" (Some Sample2.stale) None None)
  /\ Auth.__init__ Sample2.lib None (Some "client") (Some "secret")
       (Some (<["refresh_token" := Auth.VStr "1//refresh"]> ∅))
     = Failure (Exception "invalid_grant").
Proof.
  split.
  - destruct (stored_token_refresh Sample2.lib None (Some "client") (Some "secret")
                (<["token" := Auth.VStr "ya29.old"]> ∅) Sample2.stale eq_refl
                (insert_non_empty _ _ _)) as [H _]; [vm_compute; reflexivity|].
    exact (H eq_refl DriveV3 eq_refl).
  - destruct (stored_token_refresh Sample2.lib None (Some "client") (Some "secret")
                (<["refresh_token" := Auth.VStr "1//refresh"]> ∅) Sample2.renewable eq_refl
                (insert_non_empty _ _ _)) as [_ H]; [vm_compute; reflexivity|].
    exact (H eq_refl (Exception "invalid_grant") eq_refl).
Defined.

Lemma token_dict_round_trip_witness :
  fst (Auth.complete_oauth2_flow Sample2.lib Sample2.waiting "4/good"
         "urn:ietf:wg:oauth:2.0:oob")
  = Answer (Auth.token_dict Sample2.renewable)
  /\ Auth.token_dict Sample2.renewable !! "refresh_token" = Some (Auth.VStr "1//refresh").
Proof.
  split; [reflexivity|].
  destruct (token_dict_round_trip Sample2.lib Sample2.waiting "4/good"
              "urn:ietf:wg:oauth:2.0:oob" (Auth.token_dict Sample2.renewable)
              (snd (Auth.complete_oauth2_flow Sample2.lib Sample2.waiting "4/good"
                      "urn:ietf:wg:oauth:2.0:oob")) eq_refl)
    as (c & Hc & _ & _ & Hrefresh & _).
  injection Hc as <-. exact Hrefresh.
Defined.

Lemma complete_oauth2_flow_failure_witness :
  Auth.complete_oauth2_flow Sample2.lib Sample2.waiting "4/bad" "urn:ietf:wg:oauth:2.0:oob"
  = (Failure (Exception "invalid_grant"), Sample2.waiting)
  /\ Auth.complete_oauth2_flow Sample2.lib_no_client Sample2.waiting "4/good"
       "urn:ietf:wg:oauth:2.0:oob"
     = (Failure (Exception "discovery failed"),
        Auth.mkInstance None "/tmp" (Some Sample2.renewable) (Some "client") (Some "secret")).
Proof.
  split.
  - destruct (complete_oauth2_flow_failure Sample2.lib Sample2.waiting "4/bad"
                "urn:ietf:wg:oauth:2.0:oob"
                (Auth.FlowOf (Auth.mkFlowArgs "client" "secret"
                                "https://accounts.google.com/o/oauth2/auth"
                                "https://oauth2.googleapis.com/token"
                                ["urn:ietf:wg:oauth:2.0:oob"] Auth.scopes
                                "urn:ietf:wg:oauth:2.0:oob")) eq_refl) as [H _].
    exact (H (Exception "invalid_grant") eq_refl).
  - destruct (complete_oauth2_flow_failure Sample2.lib_no_client Sample2.waiting "4/good"
                "urn:ietf:wg:oauth:2.0:oob"
                (Auth.FlowOf (Auth.mkFlowArgs "client" "secret"
                                "https://accounts.google.com/o/oauth2/auth"
                                "https://oauth2.googleapis.com/token"
                                ["urn:ietf:wg:oauth:2.0:oob"] Auth.scopes
                                "urn:ietf:wg:oauth:2.0:oob")) eq_refl) as [_ H].
    exact (H Sample2.renewable (Exception "discovery failed") eq_refl eq_refl).
Defined.
